(** * eWeLink IoT integration: a shallow embedding of the state merge, the
      capability adapters, the request correlator and the reconnect loop.

    Python objects decoded from JSON are modelled by [value]; a Python
    [dict] is an association list in insertion order whose keys are unique
    ([wf_value]).  The device store and the pending-request table, which the
    program only uses as maps, are [gmap]s. *)

From Stdlib Require Import ZArith QArith Qround Qabs Lqa Lia.
From stdpp Require Import base decidable option list strings gmap pretty.

Local Open Scope string_scope.
Local Open Scope Z_scope.

(** ** Python values *)

(** What [json.loads] gives, with a finite float held as the exact
    rational it denotes.  The floats [inf] and [nan], which [json.loads]
    accepts as [Infinity] and [NaN], are not values of this type: what the
    program does with them is not covered here. *)

#[local] Unset Elimination Schemes.

Inductive value : Type :=
| VNone
| VBool (b : bool)
| VInt (n : Z)
| VFloat (q : Q)
| VStr (s : string)
| VList (l : list value)
| VDict (d : list (string * value)).

#[local] Set Elimination Schemes.

Abbreviation dict := (list (string * value)).

Definition is_dict (v : value) : bool :=
  match v with VDict _ => true | _ => false end.

(** [isinstance(v, numbers.Number)]: [bool] is a subclass of [int]. *)
Definition is_number (v : value) : bool :=
  match v with VBool _ | VInt _ | VFloat _ => true | _ => false end.

(** [d.get(k)] / [d[k]] (the latter raises [KeyError] on [None]). *)
Fixpoint dict_get (d : dict) (k : string) : option value :=
  match d with
  | [] => None
  | (k', v) :: rest => if decide (k' = k) then Some v else dict_get rest k
  end.

(** [d[k] = v]: an existing key keeps its position, a new key goes last. *)
Fixpoint dict_set (d : dict) (k : string) (v : value) : dict :=
  match d with
  | [] => [(k, v)]
  | (k', v') :: rest =>
      if decide (k' = k) then (k, v) :: rest else (k', v') :: dict_set rest k v
  end.

Definition keys (d : dict) : list string := d.*1.

(** Keys of every dictionary inside the value are pairwise distinct. *)
Fixpoint wf_value (v : value) : bool :=
  match v with
  | VList l => forallb wf_value l
  | VDict d =>
      bool_decide (NoDup (keys d))
      && forallb (fun kv => let '(_, x) := kv in wf_value x) d
  | _ => true
  end.

Definition wf_dict (d : dict) : bool := wf_value (VDict d).

(** ** utils.py *)

(** A path element: a string, an integer, or any other object (which is
    never a key of decoded JSON and never indexes a list). *)
Inductive path_key : Type :=
| KStr (s : string)
| KInt (i : Z)
| KOther.

(** [current[key]] for a list: negative indices count from the end. *)
Definition list_index (l : list value) (i : Z) : option value :=
  let n := Z.of_nat (length l) in
  if (0 <=? i) && (i <? n) then l !! Z.to_nat i
  else if (- n <=? i) && (i <? 0) then l !! Z.to_nat (n + i)
  else None.

(** One iteration of the loop of [deep_get]; [None] stands for the caught
    [KeyError], [IndexError], [TypeError] or [AttributeError].  A dictionary
    or a list is indexed.  On any other value the code turns to [getattr],
    which raises for a key that is no string, and for a string that is not
    the name of an attribute; this holds of every name the program looks up
    (["itemData"], ["params"], ["switch"], ...), and that is the case
    written here.  A string that does name an attribute of a scalar
    (["real"] on an integer) resolves in the code to an object that decoded
    JSON does not have: such lookups are outside this definition, and
    [container_path] below says of a lookup that it has none. *)
Definition deep_get_step (current : value) (key : path_key) : option value :=
  match current, key with
  | VDict d, KStr s => dict_get d s
  | VDict _, KInt _ => None
  | VList l, KInt i => list_index l i
  | VList _, KStr _ => None
  | _, _ => None
  end.

Fixpoint deep_get (obj : value) (path : list path_key) (default : value) : value :=
  match path with
  | [] => obj
  | key :: path' =>
      match deep_get_step obj key with
      | Some current => deep_get current path' default
      | None => default
      end
  end.

Definition get_device_uiid (device : value) : value :=
  deep_get device [KStr "itemData"; KStr "extra"; KStr "uiid"] VNone.

Section merge_loop.
(** What [merge] leaves under a key that [origin_dict] already has. *)
Variable merge_entry : value -> value -> value.

Fixpoint merge_items (origin_dict source_dict : dict) {struct source_dict} : dict :=
  match source_dict with
  | [] => origin_dict
  | (key, val) :: items =>
      merge_items
        (match dict_get origin_dict key with
         | Some origin_value => dict_set origin_dict key (merge_entry origin_value val)
         | None => dict_set origin_dict key val
         end)
        items
  end.
End merge_loop.

Fixpoint merge_entry (origin_value val : value) {struct val} : value :=
  match origin_value, val with
  | VDict origin_dict, VDict source_dict =>
      VDict (merge_items merge_entry origin_dict source_dict)
  | _, _ => val
  end.

(** [merge(origin_dict, source_dict)]: the dictionary [origin_dict] holds
    after the call (the call mutates it in place and returns it).  A value
    of [source_dict] stored under a key stays shared with [source_dict];
    for the contents of [origin_dict] this makes no difference, also when
    the same source is merged again: the call then meets a dictionary
    merged with itself, where every assignment writes back the value that
    is already there. *)
Definition merge (origin_dict source_dict : dict) : dict :=
  merge_items merge_entry origin_dict source_dict.

(** ** Induction over values *)

Section value_induction.
Variable P : value -> Prop.
Hypothesis HNone : P VNone.
Hypothesis HBool : forall b, P (VBool b).
Hypothesis HInt : forall n, P (VInt n).
Hypothesis HFloat : forall q, P (VFloat q).
Hypothesis HStr : forall s, P (VStr s).
Hypothesis HList : forall l, Forall P l -> P (VList l).
Hypothesis HDict : forall d, Forall (fun kv => P kv.2) d -> P (VDict d).

Fixpoint value_ind (v : value) : P v :=
  match v with
  | VNone => HNone
  | VBool b => HBool b
  | VInt n => HInt n
  | VFloat q => HFloat q
  | VStr s => HStr s
  | VList l =>
      HList l
        ((fix all (l : list value) : Forall P l :=
            match l with
            | [] => List.Forall_nil P
            | x :: l' => @List.Forall_cons _ P x l' (value_ind x) (all l')
            end) l)
  | VDict d =>
      HDict d
        ((fix all (d : dict) : Forall (fun kv => P kv.2) d :=
            match d with
            | [] => List.Forall_nil _
            | kv :: d' =>
                @List.Forall_cons _ (fun kv => P kv.2) kv d'
                  (let '(_, x) as p := kv return P p.2 in value_ind x) (all d')
            end) d)
  end.
End value_induction.


(** ** Python built-ins used by the adapters *)

Inductive exn : Type :=
| TypeError
| ValueError
| KeyError
| AttributeError
| CancelledError
| ConnectionResetError.

Inductive result (A : Type) : Type :=
| Return (a : A)
| Raise (e : exn).
Arguments Return {A} a.
Arguments Raise {A} e.

#[global] Instance result_ret : MRet result := fun A a => Return a.

#[global] Instance result_bind : MBind result := fun A B k r =>
  match r with
  | Return a => k a
  | Raise e => Raise e
  end.

(** The numeric value of a [numbers.Number]; floats are read as the exact
    rational they denote. *)
Definition number_value (v : value) : Q :=
  match v with
  | VBool b => if b then 1%Q else 0%Q
  | VInt n => inject_Z n
  | VFloat q => q
  | _ => 0%Q
  end.

(** [round(x)]: nearest integer, ties to the even one. *)
Definition py_round (x : Q) : Z :=
  let f := Qfloor x in
  match (x - inject_Z f ?= 1 # 2)%Q with
  | Lt => f
  | Gt => f + 1
  | Eq => if Z.even f then f else f + 1
  end.

(** [bool(v)] *)
Definition py_bool (v : value) : bool :=
  match v with
  | VNone => false
  | VBool b => b
  | VInt n => negb (n =? 0)
  | VFloat q => negb (Qeq_bool q 0)
  | VStr s => negb (bool_decide (s = ""))
  | VList l => negb (bool_decide (l = []))
  | VDict d => match d with [] => false | _ => true end
  end.

(** [v == s] for a string constant [s]. *)
Definition eq_str (v : value) (s : string) : bool :=
  match v with VStr s' => bool_decide (s' = s) | _ => false end.

(** [v == n] for an integer constant [n]. *)
Definition eq_int (v : value) (n : Z) : bool :=
  match v with
  | VBool b => (if b then 1 else 0) =? n
  | VInt m => m =? n
  | VFloat q => Qeq_bool q (inject_Z n)
  | _ => false
  end.

(** [v in l] for a list [l] of integer constants. *)
Definition in_ints (v : value) (l : list Z) : bool := existsb (eq_int v) l.

(** A value used as a key of [deep_get]'s path. *)
Definition as_path_key (v : value) : path_key :=
  match v with
  | VStr s => KStr s
  | VInt i => KInt i
  | VBool b => KInt (if b then 1 else 0)
  | _ => KOther
  end.

(** [range(n)] *)
Definition range (n : nat) : list Z := Z.of_nat <$> seq 0 n.

(** ** uiid/uiid.py *)

Definition SINGLE_PROTOCOL_UIIDS : list Z := [1].
Definition MULTIPLE_SINGLE_PROTOCOL_UIIDS : list Z := [191].
Definition MULTIPLE_UIIDS : list Z := [].
Definition SWITCH_UIIDS : list Z :=
  SINGLE_PROTOCOL_UIIDS ++ MULTIPLE_SINGLE_PROTOCOL_UIIDS ++ MULTIPLE_UIIDS.

Module SWITCH_STATE.
Definition OFF : string := "off".
Definition ON : string := "on".
End SWITCH_STATE.

(** The base adapter [Uiid]; [uiid] is the field [self.uiid]. *)
Module Uiid.

Definition get_params (device : value) (keys : list path_key) (defaultValue : value) : value :=
  deep_get device (KStr "itemData" :: KStr "params" :: keys) defaultValue.

Definition ha_brightness_range : Q * Q := (1%Q, 255%Q).

Definition get_switch_value (uiid : value) (device : value) : bool :=
  if in_ints uiid MULTIPLE_SINGLE_PROTOCOL_UIIDS then
    eq_str
      (deep_get device
         [KStr "itemData"; KStr "params"; KStr "switches"; KInt 0; KStr "switch"]
         (VStr SWITCH_STATE.OFF))
      SWITCH_STATE.ON
  else
    eq_str
      (deep_get device [KStr "itemData"; KStr "params"; KStr "switch"]
         (VStr SWITCH_STATE.OFF))
      SWITCH_STATE.ON.

Definition gen_control_switch_params (uiid : value) (is_on : bool) : value :=
  let target := if is_on then SWITCH_STATE.ON else SWITCH_STATE.OFF in
  if in_ints uiid MULTIPLE_SINGLE_PROTOCOL_UIIDS then
    VDict
      [("switches",
        VList
          ((fun i =>
              VDict
                [("switch", VStr (if i =? 0 then target else SWITCH_STATE.OFF));
                 ("outlet", VInt i)])
             <$> range 4))]
  else VDict [("switch", VStr target)].

Definition get_rssi_value (device : value) : value :=
  deep_get device [KStr "itemData"; KStr "params"; KStr "rssi"] VNone.

Section conversions.
(** [float(v)] and [int(s)] for a string [s] are Python's, and so is the
    float arithmetic [round(x / 100, 1)], whose division and rounding to one
    decimal work on doubles; the readers below are stated for any such
    operations. *)
Variable py_float : value -> result Q.
Variable round_centi : Q -> Q.
Variable py_int_of_str : string -> result Z.

(** [round(float(str_value) / 100, 1)] *)
Definition centi_round1 (str_value : value) : result value :=
  x ← py_float str_value ;
  Return (VFloat (round_centi x)).

Definition get_temperature_value (device : value) : result value :=
  let str_value :=
    deep_get device [KStr "itemData"; KStr "params"; KStr "temperature"] VNone in
  match str_value with
  | VNone => Return VNone
  | _ => centi_round1 str_value
  end.

Definition get_humidity_value (device : value) : result value :=
  let str_value :=
    deep_get device [KStr "itemData"; KStr "params"; KStr "humidity"] VNone in
  match str_value with
  | VNone => Return VNone
  | _ => centi_round1 str_value
  end.

(** [int(v)] for a [v] that is not a number. *)
Definition py_int (v : value) : result Z :=
  match v with
  | VBool b => Return (if b then 1 else 0)
  | VInt n => Return n
  | VFloat q => Return (Z.quot (Qnum q) (Zpos (Qden q)))
  | VStr s => py_int_of_str s
  | VNone | VList _ | VDict _ => Raise TypeError
  end.

(** [round(value)] of a finite number is exact: the nearest integer of
    the number the float denotes, ties to the even one. *)
Definition get_battery_value (device : value) : result value :=
  let val :=
    deep_get device [KStr "itemData"; KStr "params"; KStr "battery"] VNone in
  if is_number val then Return (VInt (py_round (number_value val)))
  else n ← py_int val ; Return (VInt n).
End conversions.

Definition get_door_lock_value (device : value) : bool :=
  py_bool (deep_get device [KStr "itemData"; KStr "params"; KStr "lock"] VNone).

Definition get_human_exsit_value (device : value) : bool :=
  py_bool (deep_get device [KStr "itemData"; KStr "params"; KStr "human"] VNone).

End Uiid.

(** ** uiid/uiid_104.py *)

(** Modelled from the spec: [map_value_general] lives in [uiid/utils.py],
    which is not among the sources.  Section 4.1 describes it as "a linear
    remap between the device's native numeric range and the external-facing"
    range: the affine map that sends the ends of [in_range] to the ends of
    [out_range].  The arithmetic here is exact; on the brightness ranges
    the map of an integer is a half-integer only at the external value 128,
    where floats give exactly 50.5 as well, and elsewhere it stays at least
    1/254 away from one, far more than the error of a float.  The
    [deep_get] that [uiid_104.py] imports from the same file is taken to be
    the [deep_get] of [utils.py]. *)
Definition map_value_general (val : Q) (in_range out_range : Q * Q) : Q :=
  let '(in_min, in_max) := in_range in
  let '(out_min, out_max) := out_range in
  (out_min + (val - in_min) * (out_max - out_min) / (in_max - in_min))%Q.

Module Uiid104.

Definition uiid : value := VInt 104.
Definition ewelink_color_temp_range : Q * Q := (0%Q, 255%Q).
Definition ewelink_brightness_range : Q * Q := (1%Q, 100%Q).

Definition get_ltype (device : value) : value :=
  deep_get device [KStr "itemData"; KStr "params"; KStr "ltype"] (VStr "white").

Definition get_brightess (device : value) : value :=
  let ltype := get_ltype device in
  let br :=
    deep_get device
      [KStr "itemData"; KStr "params"; as_path_key ltype; KStr "br"] VNone in
  if is_number br then
    VInt
      (py_round
         (map_value_general (number_value br) ewelink_brightness_range
            Uiid.ha_brightness_range))
  else VNone.

(** [ewelink_color.get(k, default)], which needs a dictionary. *)
Definition get_or (ewelink_color : value) (k : string) (default : value) : result value :=
  match ewelink_color with
  | VDict d => Return (match dict_get d k with Some x => x | None => default end)
  | _ => Raise AttributeError
  end.

Definition gen_control_brightness_params (device : value) (brightness : Z) : result value :=
  let ltype := get_ltype device in
  let params := [("ltype", ltype)] in
  let ewelinl_br :=
    py_round
      (map_value_general (inject_Z brightness) Uiid.ha_brightness_range
         ewelink_brightness_range) in
  if eq_str ltype "color" then
    let ewelink_color :=
      deep_get device [KStr "itemData"; KStr "params"; KStr "color"] (VDict []) in
    r ← get_or ewelink_color "r" (VInt 100) ;
    g ← get_or ewelink_color "g" (VInt 100) ;
    b ← get_or ewelink_color "b" (VInt 100) ;
    Return
      (VDict
         (dict_set params "color"
            (VDict [("br", VInt ewelinl_br); ("r", r); ("g", g); ("b", b)])))
  else
    Return
      (VDict
         (dict_set params "white"
            (VDict
               [("br", VInt ewelinl_br);
                ("ct",
                 deep_get device
                   [KStr "itemData"; KStr "params"; KStr "white"; KStr "ct"]
                   (VInt 100))]))).

End Uiid104.

(** ** uiid/__init__.py *)

(** The adapter classes; [CUiid] is the base class [Uiid] built for an id
    without a class of its own. *)
Inductive adapter : Type :=
| CUiid1
| CUiid104
| CUiid174
| CUiid191
| CUiid7003
| CUiid7014
| CUiid7016
| CUiid (uiid : value).

Definition uiid_dict : list (Z * adapter) :=
  [(1, CUiid1); (104, CUiid104); (174, CUiid174); (191, CUiid191);
   (7003, CUiid7003); (7014, CUiid7014); (7016, CUiid7016)].

(** The adapter for a family id.  Instances are cached per id, which is not
    visible here as they hold no state; an unhashable id cannot be looked
    up. *)
Definition get_uiid_instance (uiid : value) : result adapter :=
  match uiid with
  | VList _ | VDict _ => Raise TypeError
  | _ =>
      Return
        (match List.find (fun '(n, _) => eq_int uiid n) uiid_dict with
         | Some (_, UiidClass) => UiidClass
         | None => CUiid uiid
         end)
  end.

Module EVNET_TYPE.
Definition SINGLE_PRESS : string := "single_press".
Definition DOUBLE_PRESS : string := "double_press".
Definition LONG_PRESS : string := "long_press".
End EVNET_TYPE.

(** The property [event_types], which only [Uiid174] has. *)
Definition event_types (uiid_instance : adapter) : option (list string) :=
  match uiid_instance with
  | CUiid174 =>
      Some [EVNET_TYPE.SINGLE_PRESS; EVNET_TYPE.DOUBLE_PRESS; EVNET_TYPE.LONG_PRESS]
  | _ => None
  end.

(** ** coordinator.py and websocket.py *)

Inductive future : Type :=
| FPending
| FResult (r : value)
| FCancelled.

Inductive callback : Type :=
| CbUpdateEntityState
| CbUpdateEntityAvailable.

(** [EWeLinkDataCoordinator]: the device store [data] (device id to the
    [device] dictionary of its [EWeLinkDevice]), the registered event
    handlers, the calls [event_handler(outlet, key)] made so far and the
    number of calls of [async_set_updated_data]. *)
Record coordinator : Type := Coordinator {
  data : gmap string dict;
  event_handler_map : gmap string nat;
  triggered : list (nat * value * value);
  published : nat
}.

(** [EWeLinkWebSocketClient].  [ws] tells whether [self.__ws] is set;
    futures are objects, kept in [futures] and named by their position;
    [sent] lists the frames handed to [ws.send_json]. *)
Record ws_client : Type := WsClient {
  api_key : string;
  app_id : string;
  access_token : string;
  ws : bool;
  is_connected : bool;
  reconnect_delay_time : Z;
  stop_event : bool;
  coordinator_handler : gmap string callback;
  pending_responses : gmap string nat;
  futures : list future;
  sent : list value
}.

Definition set_ws (b : bool) (c : ws_client) : ws_client :=
  WsClient (api_key c) (app_id c) (access_token c) b (is_connected c)
    (reconnect_delay_time c) (stop_event c) (coordinator_handler c)
    (pending_responses c) (futures c) (sent c).

Definition set_is_connected (b : bool) (c : ws_client) : ws_client :=
  WsClient (api_key c) (app_id c) (access_token c) (ws c) b
    (reconnect_delay_time c) (stop_event c) (coordinator_handler c)
    (pending_responses c) (futures c) (sent c).

Definition set_reconnect_delay_time (d : Z) (c : ws_client) : ws_client :=
  WsClient (api_key c) (app_id c) (access_token c) (ws c) (is_connected c)
    d (stop_event c) (coordinator_handler c)
    (pending_responses c) (futures c) (sent c).

Definition set_stop_event (b : bool) (c : ws_client) : ws_client :=
  WsClient (api_key c) (app_id c) (access_token c) (ws c) (is_connected c)
    (reconnect_delay_time c) b (coordinator_handler c)
    (pending_responses c) (futures c) (sent c).

Definition set_pending_responses (p : gmap string nat) (c : ws_client) : ws_client :=
  WsClient (api_key c) (app_id c) (access_token c) (ws c) (is_connected c)
    (reconnect_delay_time c) (stop_event c) (coordinator_handler c)
    p (futures c) (sent c).

Definition set_futures (f : list future) (c : ws_client) : ws_client :=
  WsClient (api_key c) (app_id c) (access_token c) (ws c) (is_connected c)
    (reconnect_delay_time c) (stop_event c) (coordinator_handler c)
    (pending_responses c) f (sent c).

Definition send_json (frame : value) (c : ws_client) : ws_client :=
  WsClient (api_key c) (app_id c) (access_token c) (ws c) (is_connected c)
    (reconnect_delay_time c) (stop_event c) (coordinator_handler c)
    (pending_responses c) (futures c) (sent c ++ [frame]).

(** [EWeLinkWebSocketClient.__init__] *)
Definition init_client (api_key app_id access_token : string) : ws_client :=
  WsClient api_key app_id access_token false false 5 false ∅ ∅ [] [].

(** [EWeLinkDataCoordinator.__init__] *)
Definition init_coordinator : coordinator := Coordinator ∅ ∅ [] 0.

(** The client together with the coordinator its handlers belong to. *)
Record system : Type := System {
  client : ws_client;
  coord : coordinator
}.

(** Where a call of [control_device] stands: it has returned or raised, or
    it is suspended in [asyncio.wait_for(future, timeout=10)]. *)
Inductive call : Type :=
| Done (r : result value)
| Waiting (sequence : string) (future : nat).

(** A message of the socket: [TEXT] carries [json.loads(message.data)],
    [None] when the text does not decode. *)
Inductive ws_msg : Type :=
| TEXT (decoded : option value)
| CLOSED
| ERROR
| OTHER.

(** What one pass of the [try] block of the reconnect loop meets: an
    exception of the first or of the second [except] clause before the
    socket is open; a session that reads [msgs] and ends with the socket
    closed; a session that reads [msgs] and is then cut by an exception of
    the [except] clauses; any other exception before the socket is open
    (such as [EWeLinkApiError] from [__get_ws_address]). *)
Inductive attempt : Type :=
| HandshakeFailed
| ConnectFailed
| Connected (now ts : Z) (nonce : string) (msgs : list ws_msg)
| Dropped (now ts : Z) (nonce : string) (msgs : list ws_msg)
| Crashed (e : exn).

Record cycle : Type := Cycle {
  attempt_of : attempt;
  stop_during_attempt : bool;
  stop_during_sleep : bool
}.

Inductive loop_event : Type :=
| Attempted (delay : Z)
| Slept (seconds : Z).

Inductive loop_end : Type :=
| LoopRunning
| LoopStopped
| LoopDied (e : exn).

Definition ack_not_connected : value :=
  VDict [("error", VInt (-1)); ("msg", VStr "ws not connect or device is not exist.")].

Definition ack_timeout (sequence : string) : value :=
  VDict [("error", VInt 408); ("sequence", VStr sequence); ("msg", VStr "Request Timeout")].

Definition get_or_none (d : dict) (k : string) : value :=
  match dict_get d k with Some x => x | None => VNone end.

Definition is_none (v : value) : bool :=
  match v with VNone => true | _ => false end.

(** [item in container] for a string [item]. *)
Definition py_contains (container : value) (item : string) : result bool :=
  match container with
  | VDict d => Return (bool_decide (is_Some (dict_get d item)))
  | VStr s => Return (bool_decide (is_Some (String.index 0 item s)))
  | VList l => Return (existsb (fun x => eq_str x item) l)
  | _ => Raise TypeError
  end.

Section program.
(** Constants of [const.py] (not among the sources) and Python's [repr]
    of floats, lists and dictionaries. *)
Variables WS_MSG_ACTION WS_MSG_ACTION_UPDATE WS_MSG_ACTION_SYSMSG : string.
Variables WS_MSG_ACTION_USER_ONLINE WS_USER_AGENT : string.
Variable py_repr : value -> string.

(** [str(v)], also [f"{v}"] *)
Definition py_str (v : value) : string :=
  match v with
  | VNone => "None"
  | VBool b => if b then "True" else "False"
  | VInt n => pretty n
  | VStr s => s
  | _ => py_repr v
  end.

Definition gen_event_callback_key (device_id outlet : value) : string :=
  "event_" +:+ py_str device_id +:+ "_" +:+ py_str outlet.

Definition set_data (d : gmap string dict) (c : coordinator) : coordinator :=
  Coordinator d (event_handler_map c) (triggered c) (published c).

Definition async_set_updated_data (c : coordinator) : coordinator :=
  Coordinator (data c) (event_handler_map c) (triggered c) (S (published c)).

Definition call_handler (event_handler : nat) (outlet key : value) (c : coordinator) : coordinator :=
  Coordinator (data c) (event_handler_map c)
    (triggered c ++ [(event_handler, outlet, key)]) (published c).

(** [self.data.get(device_id)], with the key the entry is stored under. *)
Definition data_get (c : coordinator) (device_id : value) : result (option (string * dict)) :=
  match device_id with
  | VStr s => Return ((fun device => (s, device)) <$> data c !! s)
  | VList _ | VDict _ => Raise TypeError
  | _ => Return None
  end.

(** The event part of [update_entity_state]. *)
Definition dispatch_event (uiid_instance : adapter) (device_id params : value)
    (c : coordinator) : result coordinator :=
  match event_types uiid_instance with
  | Some (_ :: _) =>
      let outlet := deep_get params [KStr "outlet"] (VInt 0) in
      let key := deep_get params [KStr "key"] VNone in
      if is_number outlet && is_number key then
        let handler_key := gen_event_callback_key device_id outlet in
        match event_handler_map c !! handler_key with
        | Some event_handler => Return (call_handler event_handler outlet key c)
        | None => Raise KeyError
        end
      else Return c
  | _ => Return c
  end.

Definition update_entity_state (device_id params : value) (c : coordinator)
    : coordinator * option exn :=
  match data_get c device_id with
  | Raise e => (c, Some e)
  | Return None => (c, None)
  | Return (Some (id, device)) =>
      let uiid := get_device_uiid (VDict device) in
      if is_none uiid then (c, None)
      else
        match uiid_instance ← get_uiid_instance uiid;
              dispatch_event uiid_instance device_id params c with
        | Raise e => (c, Some e)
        | Return c1 =>
            let device' :=
              merge device [("itemData", VDict [("params", params)])] in
            (async_set_updated_data (set_data (<[id := device']> (data c1)) c1), None)
        end
  end.

Definition update_entity_available (device_id online : value) (c : coordinator)
    : coordinator * option exn :=
  match data_get c device_id with
  | Raise e => (c, Some e)
  | Return None => (c, None)
  | Return (Some (id, device)) =>
      let device' :=
        merge device [("itemData", VDict [("online", VBool (py_bool online))])] in
      (async_set_updated_data (set_data (<[id := device']> (data c)) c), None)
  end.

Definition run_callback (cb : callback) (arg1 arg2 : value) (c : coordinator)
    : coordinator * option exn :=
  match cb with
  | CbUpdateEntityState => update_entity_state arg1 arg2 c
  | CbUpdateEntityAvailable => update_entity_available arg1 arg2 c
  end.

(** [set_coordinator_handler] as [async_setup] calls it. *)
Definition async_setup_handlers (c : ws_client) : ws_client :=
  WsClient (api_key c) (app_id c) (access_token c) (ws c) (is_connected c)
    (reconnect_delay_time c) (stop_event c)
    (<["update_entity_available" := CbUpdateEntityAvailable]>
       (<["update_entity_state" := CbUpdateEntityState]> ∅))
    (pending_responses c) (futures c) (sent c).

(** The first part of [__handle_ws_message]: a frame whose [sequence] is
    pending takes the future out of the table and completes it. *)
Definition resolve_pending (ws_message_json : dict) (c : ws_client) : ws_client :=
  let sequence := py_str (get_or_none ws_message_json "sequence") in
  if py_bool (VStr sequence) then
    match pending_responses c !! sequence with
    | Some future =>
        let c1 := set_pending_responses (delete sequence (pending_responses c)) c in
        match futures c1 !! future with
        | Some FPending =>
            set_futures (<[future := FResult (VDict ws_message_json)]> (futures c1)) c1
        | _ => c1
        end
    | None => c
    end
  else c.

(** The second part: routing by the action tag. *)
Definition route_action (ws_message_json : dict) (c : ws_client) (co : coordinator)
    : coordinator * option exn :=
  let action := get_or_none ws_message_json WS_MSG_ACTION in
  let deviceid := get_or_none ws_message_json "deviceid" in
  let params := get_or_none ws_message_json "params" in
  if eq_str action WS_MSG_ACTION_UPDATE then
    if negb (is_none deviceid) && negb (is_none params) then
      match coordinator_handler c !! "update_entity_state" with
      | Some update_entity_state => run_callback update_entity_state deviceid params co
      | None => (co, None)
      end
    else (co, None)
  else if eq_str action WS_MSG_ACTION_SYSMSG then
    if is_none deviceid || is_none params then (co, None)
    else
      match py_contains params "online" with
      | Raise e => (co, Some e)
      | Return false => (co, None)
      | Return true =>
          match coordinator_handler c !! "update_entity_available" with
          | Some update_entity_available =>
              match params with
              | VDict p =>
                  run_callback update_entity_available deviceid (get_or_none p "online") co
              | _ => (co, Some AttributeError)
              end
          | None => (co, None)
          end
      end
  else (co, None).

Definition handle_ws_message (ws_message : option value) (s : system)
    : system * option exn :=
  match ws_message with
  | None => (s, None)
  | Some (VDict ws_message_json) =>
      let c := resolve_pending ws_message_json (client s) in
      let '(co, e) := route_action ws_message_json c (coord s) in
      (System c co, e)
  | Some _ => (s, Some AttributeError)
  end.

(** [control_device] up to its suspension: [now] is the clock read by
    [now_timestamp()], [send_ok] tells whether [send_json] goes through. *)
Definition control_device_send (now : Z) (send_ok : bool)
    (ewelink_device : option dict) (params : value) (c : ws_client)
    : ws_client * call :=
  match ewelink_device with
  | Some device =>
      if negb (is_connected c) then (c, Done (Return ack_not_connected))
      else
        let sequence := pretty now in
        let future := length (futures c) in
        let c1 :=
          set_pending_responses (<[sequence := future]> (pending_responses c))
            (set_futures (futures c ++ [FPending]) c) in
        let command :=
          VDict
            [("action", VStr WS_MSG_ACTION_UPDATE);
             ("apikey", deep_get (VDict device) [KStr "itemData"; KStr "apikey"] VNone);
             ("deviceid", deep_get (VDict device) [KStr "itemData"; KStr "deviceid"] VNone);
             ("params", params);
             ("selfApikey", VStr (api_key c));
             ("sequence", VStr sequence);
             ("userAgent", VStr WS_USER_AGENT)] in
        if ws c1 then
          if send_ok then (send_json command c1, Waiting sequence future)
          else (c1, Done (Raise ConnectionResetError))
        else (c1, Done (Return VNone))
  | None => (c, Done (Return ack_not_connected))
  end.

(** [control_device] from its suspension on: the future has a result, or
    the ten seconds are over ([timed_out]) and [wait_for] cancels it. *)
Definition control_device_wake (timed_out : bool) (sequence : string) (future : nat)
    (c : ws_client) : ws_client * call :=
  match futures c !! future with
  | Some (FResult r) => (c, Done (Return r))
  | Some FCancelled => (c, Done (Raise CancelledError))
  | Some FPending =>
      if timed_out then
        let c1 := set_futures (<[future := FCancelled]> (futures c)) c in
        (set_pending_responses (delete sequence (pending_responses c1)) c1,
         Done (Return (ack_timeout sequence)))
      else (c, Waiting sequence future)
  | None => (c, Waiting sequence future)
  end.

Fixpoint read_messages (msgs : list ws_msg) (s : system) : system * option exn :=
  match msgs with
  | [] => (s, None)
  | TEXT decoded :: msgs' =>
      match handle_ws_message decoded s with
      | (s', None) => read_messages msgs' s'
      | (s', Some e) => (s', Some e)
      end
  | CLOSED :: _ => (s, None)
  | ERROR :: _ => (s, None)
  | OTHER :: msgs' => read_messages msgs' s
  end.

Definition on_client (f : ws_client -> ws_client) (s : system) : system :=
  System (f (client s)) (coord s).

Definition user_online (now ts : Z) (nonce : string) (c : ws_client) : value :=
  VDict
    [("action", VStr WS_MSG_ACTION_USER_ONLINE);
     ("apikey", VStr (api_key c));
     ("appid", VStr (app_id c));
     ("at", VStr (access_token c));
     ("nonce", VStr nonce);
     ("sequence", VStr (pretty now));
     ("ts", VInt ts);
     ("userAgent", VStr WS_USER_AGENT);
     ("version", VInt 8)].

(** The [try] statement of the loop. *)
Definition run_attempt (a : attempt) (s : system) : system * option exn :=
  match a with
  | HandshakeFailed => (s, None)
  | ConnectFailed => (s, None)
  | Connected now ts nonce msgs =>
      let s1 :=
        on_client
          (fun c => send_json (user_online now ts nonce c) (set_ws true (set_is_connected true c)))
          s in
      match read_messages msgs s1 with
      | (s2, None) => (on_client (set_is_connected false) s2, None)
      | (s2, Some e) => (s2, Some e)
      end
  | Dropped now ts nonce msgs =>
      let s1 :=
        on_client
          (fun c => send_json (user_online now ts nonce c) (set_ws true (set_is_connected true c)))
          s in
      read_messages msgs s1
  | Crashed e => (s, Some e)
  end.

(** The correlation id of an inbound frame, as [__handle_ws_message]
    reads it. *)
Definition frame_sequence (ws_message_json : dict) : string :=
  py_str (get_or_none ws_message_json "sequence").

(** The frame is tagged as a state push or as a system message. *)
Definition is_push (ws_message_json : dict) : bool :=
  eq_str (get_or_none ws_message_json WS_MSG_ACTION) WS_MSG_ACTION_UPDATE
  || eq_str (get_or_none ws_message_json WS_MSG_ACTION) WS_MSG_ACTION_SYSMSG.


Definition stop_if (b : bool) (s : system) : system :=
  if b then on_client (set_stop_event true) s else s.

(** The [while] loop of [connect_and_reconnect], run against what the
    network does in each cycle, with the delays it observes. *)
Fixpoint reconnect_loop (cycles : list cycle) (s : system)
    : system * list loop_event * loop_end :=
  if stop_event (client s) then (s, [], LoopStopped)
  else
    match cycles with
    | [] => (s, [], LoopRunning)
    | cy :: cycles' =>
        let delay := reconnect_delay_time (client s) in
        match run_attempt (attempt_of cy) (on_client (set_is_connected false) s) with
        | (s1, Some e) => (s1, [Attempted delay], LoopDied e)
        | (s1, None) =>
            let s2 := stop_if (stop_during_attempt cy) s1 in
            if stop_event (client s2) then (s2, [Attempted delay], LoopStopped)
            else
              let seconds := reconnect_delay_time (client s2) in
              let s3 :=
                on_client (set_reconnect_delay_time (Z.min 60 (seconds + 5)))
                  (stop_if (stop_during_sleep cy) s2) in
              let '(s', events, e) := reconnect_loop cycles' s3 in
              (s', Attempted delay :: Slept seconds :: events, e)
        end
    end.

Definition connect_and_reconnect (cycles : list cycle) (s : system)
    : system * list loop_event * loop_end :=
  reconnect_loop cycles (on_client (set_reconnect_delay_time 5) s).

End program.

Definition sleeps (events : list loop_event) : list Z :=
  omap (fun ev => match ev with Slept seconds => Some seconds | Attempted _ => None end) events.

Definition attempts (events : list loop_event) : list Z :=
  omap (fun ev => match ev with Attempted delay => Some delay | Slept _ => None end) events.

(** ** Notions the properties are stated with *)

(** [deep_get] without the default: [None] when the path does not lead to
    a value. *)
Fixpoint deep_find (obj : value) (path : list path_key) : option value :=
  match path with
  | [] => Some obj
  | key :: path' =>
      match deep_get_step obj key with
      | Some current => deep_find current path'
      | None => None
      end
  end.

(** The factor of a linear remap. *)
Definition slope (in_range out_range : Q * Q) : Q :=
  ((out_range.2 - out_range.1) / (in_range.2 - in_range.1))%Q.

(** The two remaps of brightness, as [get_brightess] and
    [gen_control_brightness_params] compute them. *)
Definition ewelink_to_ha (br : Q) : Z :=
  py_round
    (map_value_general br Uiid104.ewelink_brightness_range Uiid.ha_brightness_range).

Definition ha_to_ewelink (brightness : Q) : Z :=
  py_round
    (map_value_general brightness Uiid.ha_brightness_range
       Uiid104.ewelink_brightness_range).

Arguments ewelink_to_ha : simpl never.
Arguments ha_to_ewelink : simpl never.

(** Every future in the pending table has been created. *)
Definition wf_client (c : ws_client) : Prop :=
  map_Forall (fun _ future => (future < length (futures c))%nat) (pending_responses c).

(** The request [sequence] waits on [future] and nothing has completed it;
    no other pending entry names that future. *)
Definition awaiting (sequence : string) (future : nat) (c : ws_client) : Prop :=
  pending_responses c !! sequence = Some future /\
  futures c !! future = Some FPending /\
  (forall k f, pending_responses c !! k = Some f -> k ≠ sequence -> f ≠ future).

(** The device id names an entry of the store. *)
Definition in_store (co : coordinator) (device_id : value) : Prop :=
  match device_id with
  | VStr s => is_Some (data co !! s)
  | _ => False
  end.

(** The delays of [n] cycles in a row, from [delay] on. *)
Fixpoint backoff (delay : Z) (n : nat) : list Z :=
  match n with
  | O => []
  | S n' => delay :: backoff (Z.min 60 (delay + 5)) n'
  end.

(** ** More of the program *)

From Stdlib Require Import Ascii.

(** *** api.py: the properties of [EWeLinkDevice] *)

Module EWeLinkDevice.
Definition uiid (device : dict) : value :=
  deep_get (VDict device) [KStr "itemData"; KStr "extra"; KStr "uiid"] VNone.

Definition device_id (device : dict) : value :=
  deep_get (VDict device) [KStr "itemData"; KStr "deviceid"] VNone.

Definition online (device : dict) : value :=
  deep_get (VDict device) [KStr "itemData"; KStr "online"] (VBool false).

Definition apikey (device : dict) : value :=
  deep_get (VDict device) [KStr "itemData"; KStr "apikey"] VNone.
End EWeLinkDevice.

(** *** coordinator.py: handler registration and the command facade *)

Definition add_event_handler (key : string) (handler : nat) (c : coordinator) : coordinator :=
  Coordinator (data c) (<[key := handler]> (event_handler_map c)) (triggered c) (published c).

Definition remove_event_handler (key : string) (c : coordinator) : coordinator :=
  if bool_decide (is_Some (event_handler_map c !! key)) then
    Coordinator (data c) (delete key (event_handler_map c)) (triggered c) (published c)
  else c.

Section facade.
Variable py_repr : value -> string.

(** [EWeLinkDataCoordinator.control_device] once [ws_client.control_device]
    has given [result]. *)
Definition control_device_done (result : value) (ewelink_device : dict) (params : value)
    (co : coordinator) : coordinator * option exn :=
  match result with
  | VNone => (co, None)
  | VDict r =>
      if eq_int (get_or_none r "error") 0 then
        update_entity_state py_repr (EWeLinkDevice.device_id ewelink_device) params co
      else (co, None)
  | _ => (co, Some AttributeError)
  end.

(** [EWeLinkButtonEvent.async_added_to_hass] and
    [async_will_remove_from_hass] for the entity of [device_id] whose outlet
    is [outlet]; [handler] stands for its [handle_trigger_event]. *)
Definition async_added_to_hass (device_id : string) (outlet : Z) (handler : nat)
    (co : coordinator) : coordinator :=
  add_event_handler (gen_event_callback_key py_repr (VStr device_id) (VInt outlet)) handler co.

Definition async_will_remove_from_hass (device_id : string) (outlet : Z)
    (co : coordinator) : coordinator :=
  remove_event_handler (gen_event_callback_key py_repr (VStr device_id) (VInt outlet)) co.
End facade.

(** [EWeLinkEntity.available], apart from the coordinator's own flag. *)
Definition available (co : coordinator) (device_id : string) : bool :=
  match data co !! device_id with
  | Some device => py_bool (EWeLinkDevice.online device)
  | None => false
  end.

(** *** uiid/uiid.py: the startup option *)

Module Uiid_startup.
Definition get_startup_value (uiid device outlet : value) : value :=
  if negb (py_bool uiid) then VNone
  else if in_ints uiid SINGLE_PROTOCOL_UIIDS then
    Uiid.get_params device [KStr "startup"] VNone
  else if in_ints uiid MULTIPLE_SINGLE_PROTOCOL_UIIDS then
    Uiid.get_params device [KStr "configure"; KInt 0; KStr "startup"] VNone
  else if in_ints uiid MULTIPLE_UIIDS && py_bool outlet then
    Uiid.get_params device [KStr "configure"; as_path_key outlet; KStr "startup"] VNone
  else VNone.

Definition gen_control_startup_params (uiid : value) (startup : string) (outlet : value) : value :=
  if negb (py_bool uiid) then VNone
  else if in_ints uiid SINGLE_PROTOCOL_UIIDS then VDict [("startup", VStr startup)]
  else if in_ints uiid MULTIPLE_SINGLE_PROTOCOL_UIIDS then
    VDict [("configure", VList [VDict [("outlet", VInt 0); ("startup", VStr startup)]])]
  else if in_ints uiid MULTIPLE_UIIDS && negb (is_none outlet) then
    VDict [("configure", VList [VDict [("outlet", outlet); ("startup", VStr startup)]])]
  else VNone.
End Uiid_startup.

(** *** uiid/uiid_104.py: colour *)

Inductive ColorMode : Type :=
| RGB
| COLOR_TEMP.

Module Uiid104_color.
Definition get_color_mode (device : value) : ColorMode :=
  if eq_str (Uiid104.get_ltype device) "color" then RGB else COLOR_TEMP.

Definition get_color_rgb (device : value) : value * value * value :=
  let color := deep_get device [KStr "itemData"; KStr "params"; KStr "color"] (VDict []) in
  match color with
  | VDict c =>
      let r := get_or_none c "r" in
      let g := get_or_none c "g" in
      let b := get_or_none c "b" in
      if negb (is_none r) && negb (is_none g) && negb (is_none b) then (r, g, b)
      else (VInt 100, VInt 100, VInt 100)
  | _ => (VInt 100, VInt 100, VInt 100)
  end.

Definition gen_control_color_rgb_params (device : value) (color_rgb : value * value * value)
    : value :=
  let br := deep_get device [KStr "itemData"; KStr "params"; KStr "color"; KStr "br"] (VInt 50) in
  let '(r, g, b) := color_rgb in
  VDict
    [("ltype", VStr "color");
     ("color", VDict [("r", r); ("g", g); ("b", b); ("br", br)])].
End Uiid104_color.

(** *** uiid/uiid_174.py and the button entity of event.py *)

Module Uiid174.
Definition event_type_dict : list (Z * string) :=
  [(0, EVNET_TYPE.SINGLE_PRESS); (1, EVNET_TYPE.DOUBLE_PRESS); (2, EVNET_TYPE.LONG_PRESS)].

(** [event_type_dict.get(key)]; an unhashable key cannot be looked up. *)
Definition key_2_event_type (key : value) : result (option string) :=
  match key with
  | VList _ | VDict _ => Raise TypeError
  | _ => Return (snd <$> List.find (fun '(n, _) => eq_int key n) event_type_dict)
  end.
End Uiid174.

Module EWeLinkButtonEvent.
(** The property [outlet], read from the entity's [config]. *)
Definition outlet (config : option dict) : Z :=
  match config with
  | Some c => match dict_get c "outlet" with Some (VInt n) => n | _ => 0 end
  | None => 0
  end.

(** [handle_trigger_event(outlet, key)] of the entity whose outlet is
    [self_outlet]: the event type it triggers, if any. *)
Definition handle_trigger_event (self_outlet : Z) (outlet key : value)
    : result (option string) :=
  event_type ← Uiid174.key_2_event_type key ;
  Return
    (match event_type with
     | Some e =>
         if eq_int outlet self_outlet
            && bool_decide
                 (e ∈ [EVNET_TYPE.SINGLE_PRESS; EVNET_TYPE.DOUBLE_PRESS; EVNET_TYPE.LONG_PRESS])
         then Some e
         else None
     | None => None
     end).
End EWeLinkButtonEvent.

(** The lookup of [path] from [obj] is indexing throughout: it never
    applies a string to a value that is neither a dictionary nor a list,
    which is where [deep_get] asks [getattr] for an attribute. *)
Fixpoint container_path (obj : value) (path : list path_key) : bool :=
  match path with
  | [] => true
  | key :: path' =>
      match deep_get_step obj key with
      | Some current => container_path current path'
      | None =>
          match obj, key with
          | VDict _, _ | VList _, _ => true
          | _, KStr _ => false
          | _, _ => true
          end
      end
  end.

(** The character occurs in the string. *)
Fixpoint has_char (c : Ascii.ascii) (s : string) : bool :=
  match s with
  | EmptyString => false
  | String c' s' => bool_decide (c' = c) || has_char c s'
  end.

(** [x] is what [merge] leaves where the incoming value is [val]: [val]
    itself, or [val] merged into some stored value. *)
Definition lands (val x : value) : Prop :=
  x = val \/ exists origin_value, x = merge_entry origin_value val.

(** Whenever the client is flagged as connected its socket handle is set. *)
Definition socket_set (c : ws_client) : Prop :=
  is_connected c = true -> ws c = true.

(** A message the read loop passes over without any effect. *)
Definition harmless (msg : ws_msg) : Prop :=
  match msg with
  | TEXT None | OTHER => True
  | _ => False
  end.
(** ** Dictionaries: lookup and update *)

Lemma dict_get_set_eq d k v : dict_get (dict_set d k v) k = Some v.
Proof.
  induction d as [|[k' v'] d IH]; simpl.
  - by rewrite decide_True.
  - destruct (decide (k' = k)) as [->|Hne]; simpl.
    + by rewrite decide_True.
    + by rewrite decide_False.
Qed.

Lemma dict_get_set_ne d k k' v : k ≠ k' -> dict_get (dict_set d k v) k' = dict_get d k'.
Proof.
  intros Hne. induction d as [|[k0 v0] d IH]; simpl.
  - by rewrite decide_False.
  - destruct (decide (k0 = k)) as [->|Hk]; simpl.
    + by rewrite !decide_False.
    + destruct (decide (k0 = k')); [done | apply IH].
Qed.

Lemma dict_set_same d k v : dict_get d k = Some v -> dict_set d k v = d.
Proof.
  induction d as [|[k' v'] d IH]; simpl; [done|].
  destruct (decide (k' = k)) as [->|Hne].
  - by intros [= ->].
  - intros H. by rewrite IH.
Qed.

Lemma keys_dict_set d k v :
  keys (dict_set d k v) =
  match dict_get d k with Some _ => keys d | None => (keys d ++ [k])%list end.
Proof.
  unfold keys. induction d as [|[k' v'] d IH]; [done|].
  cbn [dict_set dict_get]. destruct (decide (k' = k)) as [->|Hne]; [done|].
  rewrite !fmap_cons, IH. by destruct (dict_get d k).
Qed.

Lemma dict_get_None d k : dict_get d k = None <-> k ∉ keys d.
Proof.
  unfold keys. induction d as [|[k' v'] d IH]; simpl.
  - split; [intros _; apply not_elem_of_nil | done].
  - rewrite not_elem_of_cons. destruct (decide (k' = k)) as [->|Hne].
    + split; [done | intros [? _]; done].
    + rewrite IH. split; [intros ?; split; [congruence | done] | intros [_ ?]; done].
Qed.

Lemma dict_get_Some_elem d k v : dict_get d k = Some v -> (k, v) ∈ d.
Proof.
  induction d as [|[k' v'] d IH]; simpl; [done|].
  destruct (decide (k' = k)) as [->|Hne].
  - intros [= ->]. apply list_elem_of_here.
  - intros H. apply list_elem_of_further, IH, H.
Qed.

Lemma dict_get_elem d k v : NoDup (keys d) -> (k, v) ∈ d -> dict_get d k = Some v.
Proof.
  unfold keys. induction d as [|[k' v'] d IH]; simpl.
  - intros _ H. by apply elem_of_nil in H.
  - intros Hnd H. apply NoDup_cons in Hnd as [Hk' Hnd].
    apply elem_of_cons in H as [[= -> ->]|H].
    + by rewrite decide_True.
    + destruct (decide (k' = k)) as [->|Hne]; [|by apply IH].
      exfalso. apply Hk'. apply list_elem_of_fmap. by exists (k, v).
Qed.

(** ** merge *)

Lemma merge_nil origin_dict : merge origin_dict [] = origin_dict.
Proof. reflexivity. Qed.

(** The loop of [merge], one item at a time, as the source has it. *)
Lemma merge_cons origin_dict key val items :
  merge origin_dict ((key, val) :: items) =
  merge
    (match dict_get origin_dict key with
     | Some (VDict o) =>
         match val with
         | VDict s => dict_set origin_dict key (VDict (merge o s))
         | _ => dict_set origin_dict key val
         end
     | _ => dict_set origin_dict key val
     end)
    items.
Proof.
  unfold merge at 1. simpl.
  destruct (dict_get origin_dict key) as [[]|]; try reflexivity; by destruct val.
Qed.

Lemma merge_cons_entry origin_dict key val items :
  merge origin_dict ((key, val) :: items) =
  merge
    (dict_set origin_dict key
       (match dict_get origin_dict key with
        | Some origin_value => merge_entry origin_value val
        | None => val
        end))
    items.
Proof. unfold merge. simpl. by destruct (dict_get origin_dict key). Qed.

Lemma merge_entry_dict o s : merge_entry (VDict o) (VDict s) = VDict (merge o s).
Proof. reflexivity. Qed.

Lemma merge_get_absent source origin key :
  dict_get source key = None ->
  dict_get (merge origin source) key = dict_get origin key.
Proof.
  revert origin. induction source as [|[k v] source IH]; intros origin; [done|].
  cbn [dict_get]. destruct (decide (k = key)) as [->|Hne]; [done|]. intros Hs.
  rewrite merge_cons_entry, IH by done. by apply dict_get_set_ne.
Qed.

Lemma merge_get_present source origin key val :
  NoDup (keys source) ->
  dict_get source key = Some val ->
  dict_get (merge origin source) key =
  Some (match dict_get origin key with
        | Some origin_value => merge_entry origin_value val
        | None => val
        end).
Proof.
  revert origin. induction source as [|[k v] source IH]; intros origin; [done|].
  unfold keys. rewrite fmap_cons. cbn [dict_get fst].
  intros Hnd. apply NoDup_cons in Hnd as [Hk Hnd].
  rewrite merge_cons_entry.
  destruct (decide (k = key)) as [->|Hne].
  - intros [= ->]. rewrite merge_get_absent by by apply dict_get_None.
    apply dict_get_set_eq.
  - intros Hs. rewrite (IH _ Hnd Hs). by rewrite dict_get_set_ne.
Qed.

Lemma merge_keys_kept source origin key :
  key ∈ keys origin -> key ∈ keys (merge origin source).
Proof.
  revert origin. induction source as [|[k v] source IH]; intros origin Hin; [done|].
  rewrite merge_cons_entry. apply IH. rewrite keys_dict_set.
  destruct (dict_get origin k); [done|]. apply elem_of_app. by left.
Qed.

(** A source all of whose items are already in place changes nothing. *)
Lemma merge_fixed source origin :
  (forall key val, (key, val) ∈ source ->
     exists x, dict_get origin key = Some x /\ merge_entry x val = x) ->
  merge origin source = origin.
Proof.
  induction source as [|[k v] source IH]; intros H; [done|].
  rewrite merge_cons_entry.
  destruct (H k v) as (x & Hx & Hm); [apply list_elem_of_here|].
  rewrite Hx, Hm, (dict_set_same _ _ _ Hx).
  apply IH. intros key val Hin. apply H. by apply list_elem_of_further.
Qed.

Lemma wf_dict_unfold d :
  wf_dict d = true <->
  NoDup (keys d) /\ Forall (fun kv => wf_value kv.2 = true) d.
Proof.
  unfold wf_dict. simpl. rewrite andb_true_iff, bool_decide_eq_true.
  rewrite forallb_forall, Forall_forall.
  split; intros [H1 H2]; split; try done.
  - intros [k x] Hin. apply (H2 (k, x)). by apply list_elem_of_In.
  - intros [k x] Hin. apply (H2 (k, x)). by apply list_elem_of_In.
Qed.

Lemma merge_entry_idem val :
  wf_value val = true ->
  merge_entry val val = val /\
  forall origin_value,
    merge_entry (merge_entry origin_value val) val = merge_entry origin_value val.
Proof.
  induction val as [| | | | | |d IH] using value_ind; intros Hwf;
    try (split; [reflexivity | by intros []]).
  apply (wf_dict_unfold d) in Hwf as [Hnd Hwf].
  assert (Hitems : forall o key val, (key, val) ∈ d ->
            exists x, dict_get (merge o d) key = Some x /\ merge_entry x val = x).
  { intros o key val Hin.
    rewrite Forall_forall in IH, Hwf.
    destruct (IH _ Hin (Hwf _ Hin)) as [Hself Hidem]. simpl in *.
    rewrite (merge_get_present d o key val Hnd (dict_get_elem _ _ _ Hnd Hin)).
    eexists. split; [reflexivity|].
    destruct (dict_get o key); [apply Hidem | apply Hself]. }
  assert (Hd : forall o, merge (merge o d) d = merge o d).
  { intros o. apply merge_fixed. apply Hitems. }
  split.
  - rewrite merge_entry_dict. f_equal. apply merge_fixed.
    intros key val Hin. rewrite Forall_forall in IH, Hwf.
    exists val. split; [by apply dict_get_elem|].
    by apply (IH _ Hin (Hwf _ Hin)).
  - intros [| | | | | |o]; simpl; try (f_equal; apply merge_fixed; intros key val Hin;
      rewrite Forall_forall in IH, Hwf;
      exists val; split; [by apply dict_get_elem | by apply (IH _ Hin (Hwf _ Hin))]).
    f_equal. apply Hd.
Qed.

Lemma merge_idempotent origin source :
  wf_dict source = true ->
  merge (merge origin source) source = merge origin source.
Proof.
  intros Hwf.
  destruct (merge_entry_idem (VDict source) Hwf) as [_ H].
  specialize (H (VDict origin)). by injection H.
Qed.

(** What [update_entity_state] does to the stored tree: the pushed [params]
    are merged into the [params] below [itemData], everything else is
    kept. *)
Lemma merge_params_subtree device item old_params params :
  dict_get device "itemData" = Some (VDict item) ->
  dict_get item "params" = Some (VDict old_params) ->
  exists item',
    dict_get (merge device [("itemData", VDict [("params", VDict params)])]) "itemData"
      = Some (VDict item') /\
    dict_get item' "params" = Some (VDict (merge old_params params)) /\
    (forall key, key ≠ "params" -> dict_get item' key = dict_get item key) /\
    (forall key, key ≠ "itemData" ->
       dict_get (merge device [("itemData", VDict [("params", VDict params)])]) key
         = dict_get device key).
Proof.
  intros Hitem Hparams.
  exists (merge item [("params", VDict params)]).
  rewrite !merge_cons, Hitem, !merge_nil. rewrite !merge_cons, Hparams, !merge_nil.
  split; [apply dict_get_set_eq|]. split; [apply dict_get_set_eq|].
  split; intros key Hne; by apply dict_get_set_ne.
Qed.

(** C1: [merge] is key-wise non-destructive.  For every key of the incoming
    dictionary the result holds the recursive merge when both the stored and
    the incoming value are dictionaries, and the incoming value otherwise;
    keys missing from the incoming dictionary keep their value, and no key
    of the stored dictionary is removed. *)
Theorem merge_keywise_non_destructive (origin_dict source_dict : dict) :
  NoDup (keys source_dict) ->
  (forall key val,
     dict_get source_dict key = Some val ->
     dict_get (merge origin_dict source_dict) key =
     Some (match dict_get origin_dict key, val with
           | Some (VDict o), VDict s => VDict (merge o s)
           | _, _ => val
           end)) /\
  (forall key,
     dict_get source_dict key = None ->
     dict_get (merge origin_dict source_dict) key = dict_get origin_dict key) /\
  (forall key, key ∈ keys origin_dict -> key ∈ keys (merge origin_dict source_dict)).
Proof.
  intros Hnd. split; [|split].
  - intros key val Hs. rewrite (merge_get_present _ _ _ _ Hnd Hs).
    destruct (dict_get origin_dict key) as [[]|]; try reflexivity; by destruct val.
  - intros key. apply merge_get_absent.
  - intros key. apply merge_keys_kept.
Qed.

(** C4: merging the empty dictionary changes nothing, and merging an
    update a second time changes nothing either. *)
Theorem merge_identity_idempotent (state update : dict) :
  wf_dict update = true ->
  merge state [] = state /\
  merge (merge state update) update = merge state update.
Proof.
  intros Hwf. split; [apply merge_nil | by apply merge_idempotent].
Qed.

Lemma merge_keywise_non_destructive_witness :
  let origin_dict :=
    [("switch", VStr "off");
     ("configure", VDict [("startup", VStr "on"); ("pulse", VStr "off")]);
     ("rssi", VInt (-60))] in
  let source_dict :=
    [("switch", VStr "on");
     ("configure", VDict [("pulse", VStr "on"); ("width", VInt 500)])] in
  NoDup (keys source_dict) /\
  ((forall key val,
      dict_get source_dict key = Some val ->
      dict_get (merge origin_dict source_dict) key =
      Some (match dict_get origin_dict key, val with
            | Some (VDict o), VDict s => VDict (merge o s)
            | _, _ => val
            end)) /\
   (forall key,
      dict_get source_dict key = None ->
      dict_get (merge origin_dict source_dict) key = dict_get origin_dict key) /\
   (forall key, key ∈ keys origin_dict -> key ∈ keys (merge origin_dict source_dict))).
Proof.
  intros origin_dict source_dict.
  assert (H : NoDup (keys source_dict)).
  { apply (bool_decide_unpack _). vm_compute. exact I. }
  split; [exact H | exact (merge_keywise_non_destructive origin_dict source_dict H)].
Defined.

Example merge_switch_push :
  merge
    [("switch", VStr "off");
     ("configure", VDict [("startup", VStr "on"); ("pulse", VStr "off")]);
     ("rssi", VInt (-60))]
    [("switch", VStr "on");
     ("configure", VDict [("pulse", VStr "on"); ("width", VInt 500)])]
  = [("switch", VStr "on");
     ("configure",
      VDict [("startup", VStr "on"); ("pulse", VStr "on"); ("width", VInt 500)]);
     ("rssi", VInt (-60))].
Proof. reflexivity. Qed.

Lemma merge_identity_idempotent_witness :
  let state :=
    [("switch", VStr "off");
     ("configure", VDict [("startup", VStr "on"); ("pulse", VStr "off")])] in
  let update :=
    [("configure", VDict [("pulse", VStr "on"); ("width", VInt 500)]);
     ("rssi", VInt (-60))] in
  wf_dict update = true /\
  merge state [] = state /\
  merge (merge state update) update = merge state update.
Proof.
  intros state update.
  assert (H : wf_dict update = true) by reflexivity.
  split; [exact H | exact (merge_identity_idempotent state update H)].
Defined.

(** ** Rounding and the linear remap *)

Lemma py_round_cases x :
  (py_round x = Qfloor x /\ (x - inject_Z (Qfloor x) <= 1 # 2)%Q) \/
  (py_round x = Qfloor x + 1 /\ (1 # 2 <= x - inject_Z (Qfloor x))%Q).
Proof.
  unfold py_round.
  destruct (Qcompare_spec (x - inject_Z (Qfloor x)) (1 # 2)) as [H|H|H].
  - destruct (Z.even (Qfloor x)); [left | right];
      (split; [reflexivity | rewrite H; apply Qle_refl]).
  - left. split; [reflexivity | by apply Qlt_le_weak].
  - right. split; [reflexivity | by apply Qlt_le_weak].
Qed.

Lemma py_round_nearest x : (Qabs (inject_Z (py_round x) - x) <= 1 # 2)%Q.
Proof.
  pose proof (Qfloor_le x) as Hlo. pose proof (Qlt_floor x) as Hhi.
  rewrite inject_Z_plus in Hhi.
  apply Qabs_Qle_condition.
  destruct (py_round_cases x) as [[-> H]|[-> H]]; rewrite ?inject_Z_plus;
    change (inject_Z 1) with 1%Q in *; split; lra.
Qed.

Lemma py_round_mono x y : (x <= y)%Q -> py_round x <= py_round y.
Proof.
  intros Hxy.
  pose proof (Qfloor_resp_le _ _ Hxy) as Hf.
  destruct (Z.eq_dec (Qfloor x) (Qfloor y)) as [Heq|Hne].
  - unfold py_round. rewrite <- Heq.
    destruct (Qcompare_spec (x - inject_Z (Qfloor x)) (1 # 2)) as [H|H|H];
    destruct (Qcompare_spec (y - inject_Z (Qfloor x)) (1 # 2)) as [H'|H'|H'];
      try destruct (Z.even (Qfloor x)); try lia; exfalso; lra.
  - destruct (py_round_cases x) as [[-> _]|[-> _]];
    destruct (py_round_cases y) as [[-> _]|[-> _]]; lia.
Qed.

Lemma map_value_general_linear x y in_range out_range :
  ~ (in_range.2 - in_range.1 == 0)%Q ->
  (map_value_general y in_range out_range - map_value_general x in_range out_range
   == slope in_range out_range * (y - x))%Q.
Proof.
  destruct in_range as [a b], out_range as [c d]. unfold slope, map_value_general.
  simpl. intros H. field. exact H.
Qed.

Lemma map_value_general_ends in_range out_range :
  ~ (in_range.2 - in_range.1 == 0)%Q ->
  (map_value_general in_range.1 in_range out_range == out_range.1)%Q /\
  (map_value_general in_range.2 in_range out_range == out_range.2)%Q.
Proof.
  destruct in_range as [a b], out_range as [c d]. unfold map_value_general. simpl.
  intros H. split; field; exact H.
Qed.

Lemma map_value_general_mono x y in_range out_range :
  (in_range.1 < in_range.2)%Q -> (out_range.1 <= out_range.2)%Q -> (x <= y)%Q ->
  (map_value_general x in_range out_range <= map_value_general y in_range out_range)%Q.
Proof.
  intros Hin Hout Hxy.
  assert (Hne : ~ (in_range.2 - in_range.1 == 0)%Q) by lra.
  pose proof (map_value_general_linear x y _ out_range Hne) as Hlin.
  assert (0 <= slope in_range out_range * (y - x))%Q; [|lra].
  apply Qmult_le_0_compat; [|lra].
  unfold slope. apply Qle_shift_div_l; lra.
Qed.

Lemma ewelink_to_ha_mono x y : (x <= y)%Q -> ewelink_to_ha x <= ewelink_to_ha y.
Proof.
  intros H. apply py_round_mono, map_value_general_mono; [done | done | exact H].
Qed.

Lemma ha_to_ewelink_mono x y : (x <= y)%Q -> ha_to_ewelink x <= ha_to_ewelink y.
Proof.
  intros H. apply py_round_mono, map_value_general_mono; [done | done | exact H].
Qed.

(** Checking a property of the integers from [lo] on by running it. *)
Lemma forall_seqZ (P : Z -> bool) lo len n :
  forallb P (seqZ lo len) = true -> lo <= n < lo + len -> P n = true.
Proof.
  intros Hall Hn. rewrite forallb_forall in Hall. apply Hall.
  apply list_elem_of_In, elem_of_seqZ. lia.
Qed.

Lemma native_round_trip n :
  1 <= n <= 100 ->
  ha_to_ewelink (inject_Z (ewelink_to_ha (inject_Z n))) = n /\
  1 <= ewelink_to_ha (inject_Z n) <= 255.
Proof.
  intros Hn.
  pose proof (forall_seqZ
    (fun n => (ha_to_ewelink (inject_Z (ewelink_to_ha (inject_Z n))) =? n)
              && (1 <=? ewelink_to_ha (inject_Z n))
              && (ewelink_to_ha (inject_Z n) <=? 255)) 1 100 n) as H.
  cbv beta in H. rewrite !andb_true_iff in H.
  destruct H as [[H1 H2] H3]; [by vm_compute | lia |]. lia.
Qed.

Lemma external_round_trip b :
  1 <= b <= 255 ->
  Z.abs (ewelink_to_ha (inject_Z (ha_to_ewelink (inject_Z b))) - b) <= 1 /\
  1 <= ha_to_ewelink (inject_Z b) <= 100.
Proof.
  intros Hb.
  pose proof (forall_seqZ
    (fun b => (Z.abs (ewelink_to_ha (inject_Z (ha_to_ewelink (inject_Z b))) - b) <=? 1)
              && (1 <=? ha_to_ewelink (inject_Z b))
              && (ha_to_ewelink (inject_Z b) <=? 100)) 1 255 b) as H.
  cbv beta in H. rewrite !andb_true_iff in H.
  destruct H as [[H1 H2] H3]; [by vm_compute | lia |]. lia.
Qed.

(** ** deep_get *)

Lemma deep_get_find obj path default :
  deep_get obj path default =
  match deep_find obj path with Some v => v | None => default end.
Proof.
  revert obj. induction path as [|key path IH]; intros obj; [done|].
  simpl. destruct (deep_get_step obj key); [apply IH | done].
Qed.

Lemma deep_find_snoc obj path key :
  deep_find obj (path ++ [key]) =
  match deep_find obj path with
  | Some current => deep_get_step current key
  | None => None
  end.
Proof.
  revert obj. induction path as [|k path IH]; intros obj; simpl.
  - by destruct (deep_get_step obj key).
  - destruct (deep_get_step obj k); [apply IH | done].
Qed.

Lemma deep_get_step_str current s v :
  deep_get_step current (KStr s) = Some v ->
  exists d, current = VDict d /\ dict_get d s = Some v.
Proof. destruct current; try done. simpl. eauto. Qed.

(** ** The adapters *)

(** C7: for a family of the multi-relay group, switching on yields the
    payload with four records, outlet 0 switched on and outlets 1 to 3
    switched off. *)
Theorem gen_control_switch_params_four_relays (uiid : Z) :
  uiid ∈ MULTIPLE_SINGLE_PROTOCOL_UIIDS ->
  Uiid.gen_control_switch_params (VInt uiid) true =
  VDict
    [("switches",
      VList
        [VDict [("switch", VStr "on"); ("outlet", VInt 0)];
         VDict [("switch", VStr "off"); ("outlet", VInt 1)];
         VDict [("switch", VStr "off"); ("outlet", VInt 2)];
         VDict [("switch", VStr "off"); ("outlet", VInt 3)]])].
Proof.
  unfold MULTIPLE_SINGLE_PROTOCOL_UIIDS. intros H.
  apply list_elem_of_singleton in H as ->. reflexivity.
Qed.

Lemma gen_control_switch_params_four_relays_witness :
  191 ∈ MULTIPLE_SINGLE_PROTOCOL_UIIDS /\
  Uiid.gen_control_switch_params (VInt 191) true =
  VDict
    [("switches",
      VList
        [VDict [("switch", VStr "on"); ("outlet", VInt 0)];
         VDict [("switch", VStr "off"); ("outlet", VInt 1)];
         VDict [("switch", VStr "off"); ("outlet", VInt 2)];
         VDict [("switch", VStr "off"); ("outlet", VInt 3)]])].
Proof.
  assert (H : 191 ∈ MULTIPLE_SINGLE_PROTOCOL_UIIDS) by apply list_elem_of_here.
  split; [exact H | exact (gen_control_switch_params_four_relays 191 H)].
Defined.

Lemma get_brightess_eq device :
  Uiid104.get_brightess device =
  let br :=
    deep_get device
      [KStr "itemData"; KStr "params"; as_path_key (Uiid104.get_ltype device); KStr "br"]
      VNone in
  if is_number br then VInt (ewelink_to_ha (number_value br)) else VNone.
Proof. reflexivity. Qed.

Lemma gen_control_brightness_params_eq device brightness :
  Uiid104.gen_control_brightness_params device brightness =
  let ltype := Uiid104.get_ltype device in
  let ewelinl_br := ha_to_ewelink (inject_Z brightness) in
  if eq_str ltype "color" then
    let ewelink_color :=
      deep_get device [KStr "itemData"; KStr "params"; KStr "color"] (VDict []) in
    r ← Uiid104.get_or ewelink_color "r" (VInt 100);
    g ← Uiid104.get_or ewelink_color "g" (VInt 100);
    b ← Uiid104.get_or ewelink_color "b" (VInt 100);
    Return
      (VDict
         [("ltype", ltype);
          ("color", VDict [("br", VInt ewelinl_br); ("r", r); ("g", g); ("b", b)])])
  else
    Return
      (VDict
         [("ltype", ltype);
          ("white",
           VDict
             [("br", VInt ewelinl_br);
              ("ct",
               deep_get device
                 [KStr "itemData"; KStr "params"; KStr "white"; KStr "ct"] (VInt 100))])]).
Proof. reflexivity. Qed.

(** C9: what the numeric readers of the base adapter do with a device
    whose params have no such field: signal strength, temperature and
    humidity are [None]; [get_battery_value] goes on to [int(None)], which
    raises [TypeError]. *)
Theorem numeric_readers_missing_field
    (py_float : value -> result Q) (round_centi : Q -> Q)
    (py_int_of_str : string -> result Z) (device : value) :
  (deep_find device [KStr "itemData"; KStr "params"; KStr "rssi"] = None ->
   Uiid.get_rssi_value device = VNone) /\
  (deep_find device [KStr "itemData"; KStr "params"; KStr "temperature"] = None ->
   Uiid.get_temperature_value py_float round_centi device = Return VNone) /\
  (deep_find device [KStr "itemData"; KStr "params"; KStr "humidity"] = None ->
   Uiid.get_humidity_value py_float round_centi device = Return VNone) /\
  (deep_find device [KStr "itemData"; KStr "params"; KStr "battery"] = None ->
   Uiid.get_battery_value py_int_of_str device = Raise TypeError).
Proof.
  unfold Uiid.get_rssi_value, Uiid.get_temperature_value, Uiid.get_humidity_value,
    Uiid.get_battery_value.
  repeat split; intros H; by rewrite deep_get_find, H.
Qed.

Lemma numeric_readers_missing_field_witness :
  let device := VDict [("itemData", VDict [("params", VDict [("rssi", VInt (-61))])])] in
  deep_find device [KStr "itemData"; KStr "params"; KStr "battery"] = None /\
  Uiid.get_battery_value (fun _ => Raise ValueError) device = Raise TypeError.
Proof.
  intros device.
  assert (H : deep_find device [KStr "itemData"; KStr "params"; KStr "battery"] = None)
    by reflexivity.
  split; [exact H|].
  exact (proj2 (proj2 (proj2
    (numeric_readers_missing_field (fun _ => Raise ValueError) (fun x => x)
       (fun _ => Raise ValueError) device))) H).
Defined.

(** ** The coordinator, the correlator and the reconnect loop *)

Section program_properties.
Variables WS_MSG_ACTION WS_MSG_ACTION_UPDATE WS_MSG_ACTION_SYSMSG : string.
Variables WS_MSG_ACTION_USER_ONLINE WS_USER_AGENT : string.
Variable py_repr : value -> string.

Local Abbreviation update_state := (update_entity_state py_repr).
Local Abbreviation resolve := (resolve_pending py_repr).
Local Abbreviation route :=
  (route_action WS_MSG_ACTION WS_MSG_ACTION_UPDATE WS_MSG_ACTION_SYSMSG py_repr).
Local Abbreviation handle :=
  (handle_ws_message WS_MSG_ACTION WS_MSG_ACTION_UPDATE WS_MSG_ACTION_SYSMSG py_repr).
Local Abbreviation read :=
  (read_messages WS_MSG_ACTION WS_MSG_ACTION_UPDATE WS_MSG_ACTION_SYSMSG py_repr).
Local Abbreviation send := (control_device_send WS_MSG_ACTION_UPDATE WS_USER_AGENT).
Local Abbreviation attempt_run :=
  (run_attempt WS_MSG_ACTION WS_MSG_ACTION_UPDATE WS_MSG_ACTION_SYSMSG
     WS_MSG_ACTION_USER_ONLINE WS_USER_AGENT py_repr).
Local Abbreviation loop :=
  (reconnect_loop WS_MSG_ACTION WS_MSG_ACTION_UPDATE WS_MSG_ACTION_SYSMSG
     WS_MSG_ACTION_USER_ONLINE WS_USER_AGENT py_repr).
Local Abbreviation connect :=
  (connect_and_reconnect WS_MSG_ACTION WS_MSG_ACTION_UPDATE WS_MSG_ACTION_SYSMSG
     WS_MSG_ACTION_USER_ONLINE WS_USER_AGENT py_repr).
Local Abbreviation sequence_of := (frame_sequence py_repr).
Local Abbreviation push :=
  (is_push WS_MSG_ACTION WS_MSG_ACTION_UPDATE WS_MSG_ACTION_SYSMSG).

Ltac fields :=
  unfold send_json, set_pending_responses, set_futures, set_ws, set_is_connected,
    set_reconnect_delay_time, set_stop_event, on_client in *;
  cbn [client coord api_key app_id access_token ws is_connected reconnect_delay_time
       stop_event coordinator_handler pending_responses futures sent fst snd] in *.

(** *** Pushes for devices the store does not know *)

Lemma data_get_unknown co device_id :
  ~ in_store co device_id ->
  data_get co device_id = Return None \/ data_get co device_id = Raise TypeError.
Proof.
  destruct device_id as [| | | |s| |]; simpl; auto.
  intros H. left. destruct (data co !! s) eqn:E; [|done].
  exfalso. apply H. by eexists.
Qed.

Lemma update_entity_state_unknown co device_id params :
  ~ in_store co device_id -> (update_state device_id params co).1 = co.
Proof.
  intros H. unfold update_entity_state.
  by destruct (data_get_unknown co device_id H) as [-> | ->].
Qed.

Lemma update_entity_available_unknown co device_id online :
  ~ in_store co device_id -> (update_entity_available device_id online co).1 = co.
Proof.
  intros H. unfold update_entity_available.
  by destruct (data_get_unknown co device_id H) as [-> | ->].
Qed.

Lemma run_callback_unknown cb co device_id arg :
  ~ in_store co device_id -> (run_callback py_repr cb device_id arg co).1 = co.
Proof.
  destruct cb; simpl;
    [apply update_entity_state_unknown | apply update_entity_available_unknown].
Qed.

Lemma route_action_unknown frame c co :
  ~ in_store co (get_or_none frame "deviceid") -> (route frame c co).1 = co.
Proof.
  intros H. unfold route_action.
  repeat (match goal with
          | |- context [if ?b then _ else _] => destruct b
          | |- context [match ?o with Some _ => _ | None => _ end] => destruct o
          | |- context [match py_contains ?p ?k with _ => _ end] =>
              destruct (py_contains p k) as [[]|]
          | |- context [match get_or_none ?f "params" with _ => _ end] =>
              destruct (get_or_none f "params")
          end; try done; try by apply run_callback_unknown).
Qed.

(** C10: a state push or an availability push for a device id that is not
    in the store leaves the coordinator as it is: the store, the record of
    handler calls and the count of published snapshots. *)
Theorem push_for_unknown_device (co : coordinator) (device_id : value) :
  ~ in_store co device_id ->
  (forall params, (update_state device_id params co).1 = co) /\
  (forall online, (update_entity_available device_id online co).1 = co) /\
  (forall c frame,
     get_or_none frame "deviceid" = device_id ->
     coord (handle (Some (VDict frame)) (System c co)).1 = co).
Proof.
  intros H. split; [|split].
  - intros params. by apply update_entity_state_unknown.
  - intros online. by apply update_entity_available_unknown.
  - intros c frame Hid. unfold handle_ws_message. simpl.
    rewrite <- Hid in H.
    pose proof (route_action_unknown frame (resolve frame c) co H) as Hr.
    by destruct (route frame (resolve frame c) co).
Qed.

(** *** The correlator *)

(** A call of [control_device] on a client whose flag [is_connected] is
    not set returns at once with the ack [{error: -1, ...}]: the client is
    left as it was, so nothing is registered and nothing is sent, and the
    ack differs from every timeout ack. *)
Lemma control_device_flag_unset
    (now : Z) (send_ok : bool) (ewelink_device : option dict) (params : value)
    (c : ws_client) :
  is_connected c = false ->
  send now send_ok ewelink_device params c = (c, Done (Return ack_not_connected)) /\
  deep_find ack_not_connected [KStr "error"] = Some (VInt (-1)) /\
  (forall sequence,
     deep_find (ack_timeout sequence) [KStr "error"] = Some (VInt 408) /\
     ack_not_connected ≠ ack_timeout sequence).
Proof.
  intros H. unfold control_device_send. rewrite H.
  split; [by destruct ewelink_device|]. split; [done|].
  intros sequence. split; done.
Qed.

Lemma send_connected now device params c :
  is_connected c = true -> ws c = true ->
  send now true (Some device) params c =
  (send_json
     (VDict
        [("action", VStr WS_MSG_ACTION_UPDATE);
         ("apikey", deep_get (VDict device) [KStr "itemData"; KStr "apikey"] VNone);
         ("deviceid", deep_get (VDict device) [KStr "itemData"; KStr "deviceid"] VNone);
         ("params", params);
         ("selfApikey", VStr (api_key c));
         ("sequence", VStr (pretty now));
         ("userAgent", VStr WS_USER_AGENT)])
     (set_pending_responses (<[pretty now := length (futures c)]> (pending_responses c))
        (set_futures (futures c ++ [FPending]) c)),
   Waiting (pretty now) (length (futures c))).
Proof. intros Hc Hws. unfold control_device_send. simpl. by rewrite Hc, Hws. Qed.

Lemma send_awaiting now device params c :
  is_connected c = true -> ws c = true -> wf_client c ->
  awaiting (pretty now) (length (futures c)) (send now true (Some device) params c).1.
Proof.
  intros Hc Hws Hwf. rewrite send_connected by done. unfold awaiting. fields.
  split; [|split].
  - apply lookup_insert_eq.
  - rewrite lookup_app_r by lia. by rewrite Nat.sub_diag.
  - intros k f Hk Hne. rewrite lookup_insert_ne in Hk by done.
    apply Hwf in Hk. lia.
Qed.


Lemma handle_client msg s :
  client (handle msg s).1 =
  match msg with
  | Some (VDict frame) => resolve frame (client s)
  | _ => client s
  end.
Proof.
  unfold handle_ws_message. destruct msg as [[]|]; try done.
  by destruct (route _ _ _).
Qed.




Lemma route_action_no_push frame c co :
  push frame = false -> route frame c co = (co, None).
Proof.
  unfold is_push, route_action. intros H. apply orb_false_iff in H as [-> ->]. done.
Qed.

(** [wf_client] holds of a new client and is kept by every step of the
    correlator. *)
Lemma wf_client_init api_key app_id access_token :
  wf_client (init_client api_key app_id access_token).
Proof. apply map_Forall_empty. Qed.

Lemma wf_client_send now send_ok ewelink_device params c :
  wf_client c -> wf_client (send now send_ok ewelink_device params c).1.
Proof.
  intros Hwf. unfold control_device_send.
  destruct ewelink_device as [device|]; [|done].
  destruct (is_connected c); [|done]. cbn [negb].
  assert (Hreg : wf_client
            (set_pending_responses (<[pretty now := length (futures c)]> (pending_responses c))
               (set_futures (futures c ++ [FPending]) c))).
  { unfold wf_client. fields. apply map_Forall_insert_2.
    - rewrite length_app. simpl. lia.
    - eapply map_Forall_impl; [exact Hwf|]. intros k f Hf. rewrite length_app. simpl in *. lia. }
  fields. destruct (ws c); [destruct send_ok|]; cbn [fst]; exact Hreg.
Qed.

Lemma wf_client_resolve frame c : wf_client c -> wf_client (resolve frame c).
Proof.
  intros Hwf. unfold resolve_pending. destruct (py_bool _); [|done].
  destruct (pending_responses c !! _) as [f|] eqn:Hk; [|done].
  assert (Hdel : map_Forall (fun _ future => (future < length (futures c))%nat)
            (delete (frame_sequence py_repr frame) (pending_responses c))).
  { intros k f' H. apply lookup_delete_Some in H as [_ H]. by apply Hwf in H. }
  unfold wf_client. fields.
  destruct (futures c !! f) as [[]|]; fields; try exact Hdel.
  by rewrite length_insert.
Qed.

Lemma wf_client_wake timed_out sequence future c :
  wf_client c -> wf_client (control_device_wake timed_out sequence future c).1.
Proof.
  intros Hwf. unfold control_device_wake.
  destruct (futures c !! future) as [[]|]; try done.
  destruct timed_out; [|done]. unfold wf_client. fields. rewrite length_insert.
  intros k f' H. apply lookup_delete_Some in H as [_ H]. by apply Hwf in H.
Qed.


Lemma send_connected_fields now device params c :
  is_connected c = true -> ws c = true ->
  (send now true (Some device) params c).2 = Waiting (pretty now) (length (futures c)) /\
  pending_responses (send now true (Some device) params c).1
    = <[pretty now := length (futures c)]> (pending_responses c) /\
  futures (send now true (Some device) params c).1 = (futures c ++ [FPending])%list /\
  is_connected (send now true (Some device) params c).1 = true /\
  ws (send now true (Some device) params c).1 = true.
Proof. intros Hc Hws. rewrite send_connected by done. by fields. Qed.

(** C6, as the code has it: ids are the decimal rendering of the clock, so
    two requests issued at different clock readings get different ids and
    both stay pending on their own futures; and registering a request
    leaves every entry stored under another id as it was. *)
Theorem distinct_timestamps_distinct_ids
    (now now' : Z) (device device' : dict) (params params' : value) (c : ws_client) :
  is_connected c = true ->
  ws c = true ->
  now ≠ now' ->
  let first := send now true (Some device) params c in
  let second := send now' true (Some device') params' first.1 in
  (exists future future',
     first.2 = Waiting (pretty now) future /\
     second.2 = Waiting (pretty now') future' /\
     pretty now ≠ pretty now' /\
     future ≠ future' /\
     pending_responses second.1 !! pretty now = Some future /\
     pending_responses second.1 !! pretty now' = Some future') /\
  (forall sequence future,
     pending_responses c !! sequence = Some future ->
     sequence ≠ pretty now ->
     pending_responses first.1 !! sequence = Some future).
Proof.
  intros Hc Hws Hne first second.
  assert (Hseq : pretty now ≠ pretty now').
  { intros H. by apply pretty_Z_inj in H. }
  destruct (send_connected_fields now device params c Hc Hws)
    as (Hcall & Hpending & Hfutures & Hc1 & Hws1).
  fold first in Hcall, Hpending, Hfutures, Hc1, Hws1.
  destruct (send_connected_fields now' device' params' first.1 Hc1 Hws1)
    as (Hcall' & Hpending' & _).
  fold second in Hcall', Hpending'.
  split.
  - exists (length (futures c)), (length (futures first.1)).
    rewrite Hpending', Hpending. split_and!; try done.
    + rewrite Hfutures, length_app. simpl. lia.
    + rewrite lookup_insert_ne by done. apply lookup_insert_eq.
    + apply lookup_insert_eq.
  - intros sequence future H Hk. rewrite Hpending. by rewrite lookup_insert_ne.
Qed.

(** *** The reconnect loop *)

Lemma resolve_pending_delay frame c :
  reconnect_delay_time (resolve frame c) = reconnect_delay_time c.
Proof.
  unfold resolve_pending. destruct (py_bool _); [|done].
  destruct (pending_responses c !! _); [|done]. fields.
  by destruct (futures c !! _) as [[]|].
Qed.

Lemma handle_delay msg s :
  reconnect_delay_time (client (handle msg s).1) = reconnect_delay_time (client s).
Proof.
  rewrite handle_client. destruct msg as [[]|]; try done. apply resolve_pending_delay.
Qed.

Lemma read_messages_delay msgs s :
  reconnect_delay_time (client (read msgs s).1) = reconnect_delay_time (client s).
Proof.
  revert s. induction msgs as [|[decoded| | |] msgs IH]; intros s; cbn [read_messages];
    try done.
  pose proof (handle_delay decoded s) as H.
  destruct (handle decoded s) as [s' [e|]]; cbn [fst] in *; [done|].
  by rewrite IH.
Qed.

Lemma run_attempt_delay a s :
  reconnect_delay_time (client (attempt_run a s).1) = reconnect_delay_time (client s).
Proof.
  destruct a as [| |now ts nonce msgs|now ts nonce msgs|e]; cbn [run_attempt];
    try done.
  - match goal with |- context [read msgs ?s1] =>
      pose proof (read_messages_delay msgs s1) as H;
      destruct (read msgs s1) as [s2 [e|]] end; cbn [fst] in *; by fields.
  - by rewrite read_messages_delay.
Qed.

Lemma stop_if_delay b s :
  reconnect_delay_time (client (stop_if b s)) = reconnect_delay_time (client s).
Proof. by destruct b. Qed.

Lemma delay_set_is_connected b s :
  reconnect_delay_time (client (on_client (set_is_connected b) s))
  = reconnect_delay_time (client s).
Proof. reflexivity. Qed.

Lemma delay_set_delay delay s :
  reconnect_delay_time (client (on_client (set_reconnect_delay_time delay) s)) = delay.
Proof. reflexivity. Qed.

Lemma reconnect_loop_backoff cycles s :
  sleeps (loop cycles s).1.2
    = backoff (reconnect_delay_time (client s)) (length (sleeps (loop cycles s).1.2)) /\
  attempts (loop cycles s).1.2
    = backoff (reconnect_delay_time (client s)) (length (attempts (loop cycles s).1.2)).
Proof.
  revert s. induction cycles as [|cy cycles IH]; intros s; cbn [reconnect_loop].
  - by destruct (stop_event (client s)).
  - destruct (stop_event (client s)); [done|].
    pose proof (run_attempt_delay (attempt_of cy) (on_client (set_is_connected false) s))
      as Hrun.
    destruct (attempt_run (attempt_of cy) (on_client (set_is_connected false) s))
      as [s1 [e|]]; cbn [fst] in Hrun; [done|].
    destruct (stop_event (client (stop_if (stop_during_attempt cy) s1))); [done|].
    rewrite stop_if_delay, Hrun, delay_set_is_connected.
    match goal with |- context [loop cycles ?s3] =>
      specialize (IH s3); destruct (loop cycles s3) as [[s' events] e] end.
    cbn [fst snd] in *. unfold sleeps, attempts in *. cbn [omap list_omap] in *.
    fold (omap (fun ev => match ev with Slept seconds => Some seconds | Attempted _ => None end) events) in *.
    fold (omap (fun ev => match ev with Attempted delay => Some delay | Slept _ => None end) events) in *.
    destruct IH as [IH1 IH2]. cbn [length backoff].
    rewrite delay_set_delay in IH1, IH2.
    split; f_equal; assumption.
Qed.

Lemma backoff_lookup delay n i x :
  delay <= 60 ->
  backoff delay n !! i = Some x -> x = Z.min 60 (delay + 5 * Z.of_nat i).
Proof.
  revert delay i. induction n as [|n IH]; intros delay i Hd; [done|].
  destruct i as [|i]; cbn [backoff].
  - intros [= <-]. lia.
  - intros H. apply IH in H; lia.
Qed.

(** C3, as the code has it: the delay is set to 5 on entry to
    [connect_and_reconnect], whatever it was before; the loop never resets
    it.  The sleep after the cycle number [i] (from 0) and the delay in
    force when attempt number [i] starts are both [min 60 (5 * (i + 1))]
    seconds: the first is 5, each next one is the previous plus 5 capped at
    60, so the delays never decrease and never exceed 60. *)
Theorem reconnect_delay_schedule (cycles : list cycle) (s : system) :
  let events := (connect cycles s).1.2 in
  (forall i seconds,
     sleeps events !! i = Some seconds ->
     seconds = Z.min 60 (5 * (Z.of_nat i + 1))) /\
  (forall i delay,
     attempts events !! i = Some delay ->
     delay = Z.min 60 (5 * (Z.of_nat i + 1))) /\
  (forall i seconds next,
     sleeps events !! i = Some seconds ->
     sleeps events !! S i = Some next ->
     seconds <= next <= 60 /\ next = Z.min 60 (seconds + 5)) /\
  (forall delay,
     connect cycles (on_client (set_reconnect_delay_time delay) s) = connect cycles s).
Proof.
  intros events.
  destruct (reconnect_loop_backoff cycles (on_client (set_reconnect_delay_time 5) s))
    as [Hs Ha].
  fold (connect cycles s) in Hs, Ha. fold events in Hs, Ha.
  rewrite delay_set_delay in Hs, Ha.
  assert (H1 : forall i seconds,
             sleeps events !! i = Some seconds ->
             seconds = Z.min 60 (5 * (Z.of_nat i + 1))).
  { intros i seconds H. rewrite Hs in H. apply backoff_lookup in H; lia. }
  split_and!.
  - exact H1.
  - intros i delay H. rewrite Ha in H. apply backoff_lookup in H; lia.
  - intros i seconds next Hi HSi. apply H1 in Hi, HSi. lia.
  - reflexivity.
Qed.

End program_properties.

(** ** Concrete runs *)

Lemma push_for_unknown_device_witness :
  let device :=
    [("itemData",
      VDict
        [("deviceid", VStr "1000aa"); ("params", VDict [("switch", VStr "off")]);
         ("extra", VDict [("uiid", VInt 1)])])] in
  let co := Coordinator {["1000aa" := device]} ∅ [] 0 in
  ~ in_store co (VStr "1000bb") /\
  (update_entity_state (fun _ => "") (VStr "1000bb") (VDict [("switch", VStr "on")]) co).1
    = co /\
  (update_entity_available (VStr "1000bb") (VBool false) co).1 = co.
Proof.
  intros device co.
  assert (H : ~ in_store co (VStr "1000bb")).
  { intros [x Hx]. vm_compute in Hx. discriminate Hx. }
  destruct (push_for_unknown_device "action" "update" "sysmsg" (fun _ => "") co
              (VStr "1000bb") H) as (H1 & H2 & _).
  split; [exact H|]. split; [apply H1 | apply H2].
Defined.


(** C6 as stated fails: two requests issued in the same millisecond get the
    same id while both are pending, and registering the second replaces the
    entry of the first, whose future is still unresolved. *)
Lemma same_millisecond_same_id :
  let c := set_ws true (set_is_connected true (init_client "key" "app" "token")) in
  let device := [("itemData", VDict [("deviceid", VStr "1000aa"); ("apikey", VStr "k1")])] in
  let device' := [("itemData", VDict [("deviceid", VStr "1000bb"); ("apikey", VStr "k2")])] in
  let first :=
    control_device_send "update" "app" 1700000000000 true (Some device)
      (VDict [("switch", VStr "on")]) c in
  let second :=
    control_device_send "update" "app" 1700000000000 true (Some device')
      (VDict [("switch", VStr "off")]) first.1 in
  first.2 = Waiting "1700000000000" 0 /\
  second.2 = Waiting "1700000000000" 1 /\
  pending_responses first.1 !! "1700000000000" = Some 0%nat /\
  futures second.1 !! 0%nat = Some FPending /\
  futures second.1 !! 1%nat = Some FPending /\
  pending_responses second.1 !! "1700000000000" = Some 1%nat /\
  ~ (exists sequence, pending_responses second.1 !! sequence = Some 0%nat).
Proof.
  intros c device device' first second.
  split_and!; try by vm_compute.
  intros [sequence H].
  destruct (decide (sequence = "1700000000000")) as [->|Hne].
  - vm_compute in H. discriminate H.
  - subst second first c. unfold control_device_send in H. simpl in H.
    rewrite !lookup_insert_ne in H by done. by rewrite lookup_empty in H.
Qed.

Lemma distinct_timestamps_distinct_ids_witness :
  let c := set_ws true (set_is_connected true (init_client "key" "app" "token")) in
  let device := [("itemData", VDict [("deviceid", VStr "1000aa"); ("apikey", VStr "k1")])] in
  let first :=
    control_device_send "update" "app" 1700000000000 true (Some device)
      (VDict [("switch", VStr "on")]) c in
  let second :=
    control_device_send "update" "app" 1700000000001 true (Some device)
      (VDict [("switch", VStr "off")]) first.1 in
  is_connected c = true /\
  ws c = true /\
  1700000000000 ≠ 1700000000001 /\
  exists future future',
    first.2 = Waiting (pretty 1700000000000) future /\
    second.2 = Waiting (pretty 1700000000001) future' /\
    pretty 1700000000000 ≠ pretty 1700000000001 /\
    future ≠ future' /\
    pending_responses second.1 !! pretty 1700000000000 = Some future /\
    pending_responses second.1 !! pretty 1700000000001 = Some future'.
Proof.
  intros c device first second.
  assert (H1 : is_connected c = true) by reflexivity.
  assert (H2 : ws c = true) by reflexivity.
  assert (H3 : 1700000000000 ≠ 1700000000001) by lia.
  refine (conj H1 (conj H2 (conj H3 _))).
  exact (proj1 (distinct_timestamps_distinct_ids "update" "app" 1700000000000
                  1700000000001 device device (VDict [("switch", VStr "on")])
                  (VDict [("switch", VStr "off")]) c H1 H2 H3)).
Defined.

(** C3 as stated fails: the delay is not back at 5 when a new attempt
    starts, not even after a connection that succeeded.  The first cycle
    connects and the server closes; the second attempt starts with delay 10,
    the third with 15. *)
Lemma reconnect_delay_not_reset :
  let cycles :=
    [Cycle (Connected 1700000000000 1700000000 "a1b2c3d4" [CLOSED]) false false;
     Cycle HandshakeFailed false false;
     Cycle (Connected 1700000020000 1700000020 "e5f6g7h8" [ERROR]) false false] in
  let events :=
    (connect_and_reconnect "action" "update" "sysmsg" "userOnline" "app" (fun _ => "")
       cycles (System (init_client "key" "app" "token") init_coordinator)).1.2 in
  events = [Attempted 5; Slept 5; Attempted 10; Slept 10; Attempted 15; Slept 15] /\
  attempts events !! 1%nat = Some 10 /\
  ~ Forall (fun delay => delay = 5) (attempts events).
Proof.
  intros cycles events.
  assert (H : events = [Attempted 5; Slept 5; Attempted 10; Slept 10; Attempted 15; Slept 15])
    by by vm_compute.
  split; [exact H|]. rewrite H. split; [reflexivity|].
  intros Hall. apply Forall_cons in Hall as [_ Hall].
  apply Forall_cons in Hall as [Hten _]. discriminate Hten.
Qed.

Lemma reconnect_delay_schedule_witness :
  let cycles :=
    [Cycle (Connected 1700000000000 1700000000 "a1b2c3d4" [CLOSED]) false false;
     Cycle HandshakeFailed false false;
     Cycle ConnectFailed false false] in
  let events :=
    (connect_and_reconnect "action" "update" "sysmsg" "userOnline" "app" (fun _ => "")
       cycles (System (init_client "key" "app" "token") init_coordinator)).1.2 in
  sleeps events !! 1%nat = Some 10 /\
  sleeps events !! 2%nat = Some 15 /\
  10 = Z.min 60 (5 * (Z.of_nat 1 + 1)) /\
  (10 <= 15 <= 60 /\ 15 = Z.min 60 (10 + 5)).
Proof.
  intros cycles events.
  assert (H1 : sleeps events !! 1%nat = Some 10) by by vm_compute.
  assert (H2 : sleeps events !! 2%nat = Some 15) by by vm_compute.
  destruct (reconnect_delay_schedule "action" "update" "sysmsg" "userOnline" "app"
              (fun _ => "") cycles
              (System (init_client "key" "app" "token") init_coordinator))
    as (Hs & _ & Hstep & _).
  exact (conj H1 (conj H2 (conj (Hs 1%nat 10 H1) (Hstep 1%nat 10 15 H1 H2)))).
Defined.

(** ** Further properties of utils.py *)

Lemma deep_find_app obj p q :
  deep_find obj (p ++ q) =
  match deep_find obj p with Some v => deep_find v q | None => None end.
Proof.
  revert obj. induction p as [|key p IH]; intros obj; [done|].
  cbn [app deep_find]. destruct (deep_get_step obj key); [apply IH | done].
Qed.

Lemma container_path_app obj p q v :
  container_path obj (p ++ q) = true -> deep_find obj p = Some v ->
  container_path v q = true.
Proof.
  revert obj. induction p as [|key p IH]; intros obj Hc Hfind.
  - cbn in Hfind. by injection Hfind as <-.
  - cbn [app container_path deep_find] in Hc, Hfind.
    destruct (deep_get_step obj key); [by apply (IH v0) | done].
Qed.

(** X1: looking a path up is looking its first part up and the rest from
    the value found there; when the first part does not resolve, the default
    comes back whatever follows.  This is for lookups that only index
    dictionaries and lists; the rest of such a lookup is one as well. *)
Theorem deep_get_path_app (obj : value) (p q : list path_key) (default : value) :
  container_path obj (p ++ q) = true ->
  (forall v, deep_find obj p = Some v ->
     deep_get obj (p ++ q) default = deep_get v q default /\
     container_path v q = true) /\
  (deep_find obj p = None -> deep_get obj (p ++ q) default = default).
Proof.
  intros Hc. split.
  - intros v H. split; [|by apply (container_path_app obj p)].
    rewrite !deep_get_find, deep_find_app, H. done.
  - intros H. by rewrite deep_get_find, deep_find_app, H.
Qed.

Lemma deep_get_path_app_witness :
  let obj :=
    VDict [("itemData", VDict [("params", VDict [("switches", VList [VDict [("switch", VStr "on")]])])])] in
  container_path obj
    ([KStr "itemData"; KStr "params"] ++ [KStr "switches"; KInt 0; KStr "switch"]) = true /\
  deep_find obj [KStr "itemData"; KStr "params"]
    = Some (VDict [("switches", VList [VDict [("switch", VStr "on")]])]) /\
  deep_get obj ([KStr "itemData"; KStr "params"] ++ [KStr "switches"; KInt 0; KStr "switch"])
    (VStr "off")
  = deep_get (VDict [("switches", VList [VDict [("switch", VStr "on")]])])
      [KStr "switches"; KInt 0; KStr "switch"] (VStr "off").
Proof.
  intros obj.
  assert (Hc : container_path obj
                 ([KStr "itemData"; KStr "params"] ++ [KStr "switches"; KInt 0; KStr "switch"])
               = true) by reflexivity.
  assert (H : deep_find obj [KStr "itemData"; KStr "params"]
              = Some (VDict [("switches", VList [VDict [("switch", VStr "on")]])]))
    by reflexivity.
  split; [exact Hc|]. split; [exact H|].
  exact (proj1 (proj1 (deep_get_path_app obj [KStr "itemData"; KStr "params"]
                         [KStr "switches"; KInt 0; KStr "switch"] (VStr "off") Hc) _ H)).
Defined.

(** X2: indexing a list in [deep_get].  An index from 0 up to the length
    gives that element, an index from minus the length up to -1 counts from
    the end, and any other index gives the default. *)
Theorem deep_get_list_index (l : list value) (i : Z) (default : value) :
  (0 <= i < Z.of_nat (length l) ->
   l !! Z.to_nat i = Some (deep_get (VList l) [KInt i] default)) /\
  (- Z.of_nat (length l) <= i < 0 ->
   l !! Z.to_nat (Z.of_nat (length l) + i) = Some (deep_get (VList l) [KInt i] default)) /\
  (i < - Z.of_nat (length l) \/ Z.of_nat (length l) <= i ->
   deep_get (VList l) [KInt i] default = default).
Proof.
  cbn [deep_get deep_get_step]. unfold list_index. split_and!.
  - intros H.
    replace ((0 <=? i) && (i <? Z.of_nat (length l))) with true
      by (symmetry; apply andb_true_iff; lia).
    destruct (lookup_lt_is_Some_2 l (Z.to_nat i)) as [x Hx]; [lia|]. by rewrite Hx.
  - intros H.
    replace ((0 <=? i) && (i <? Z.of_nat (length l))) with false
      by (symmetry; apply andb_false_iff; lia).
    replace ((- Z.of_nat (length l) <=? i) && (i <? 0)) with true
      by (symmetry; apply andb_true_iff; lia).
    destruct (lookup_lt_is_Some_2 l (Z.to_nat (Z.of_nat (length l) + i))) as [x Hx]; [lia|].
    by rewrite Hx.
  - intros H.
    replace ((0 <=? i) && (i <? Z.of_nat (length l))) with false
      by (symmetry; apply andb_false_iff; lia).
    replace ((- Z.of_nat (length l) <=? i) && (i <? 0)) with false
      by (symmetry; apply andb_false_iff; lia).
    done.
Qed.

Lemma deep_get_list_index_witness :
  let l := [VStr "a"; VStr "b"; VStr "c"] in
  (0 <= 1 < Z.of_nat (length l) /\
   l !! Z.to_nat 1 = Some (deep_get (VList l) [KInt 1] VNone)) /\
  (- Z.of_nat (length l) <= -1 < 0 /\
   l !! Z.to_nat (Z.of_nat (length l) + -1) = Some (deep_get (VList l) [KInt (-1)] VNone)) /\
  ((3 < - Z.of_nat (length l) \/ Z.of_nat (length l) <= 3) /\
   deep_get (VList l) [KInt 3] VNone = VNone).
Proof.
  intros l.
  assert (H1 : 0 <= 1 < Z.of_nat (length l)) by (simpl; lia).
  assert (H2 : - Z.of_nat (length l) <= -1 < 0) by (simpl; lia).
  assert (H3 : 3 < - Z.of_nat (length l) \/ Z.of_nat (length l) <= 3) by (right; simpl; lia).
  refine (conj (conj H1 _) (conj (conj H2 _) (conj H3 _))).
  - exact (proj1 (deep_get_list_index l 1 VNone) H1).
  - exact (proj1 (proj2 (deep_get_list_index l (-1) VNone)) H2).
  - exact (proj2 (proj2 (deep_get_list_index l 3 VNone)) H3).
Defined.

Lemma has_char_app c s t : has_char c (s +:+ t) = has_char c s || has_char c t.
Proof. induction s as [|c' s IH]; simpl; [done|]. by rewrite IH, orb_assoc. Qed.

Lemma pretty_N_go_no_underscore x s :
  has_char "_"%char (pretty_N_go x s) = has_char "_"%char s.
Proof.
  revert s. induction (N.lt_wf_0 x) as [x _ IH]; intros s.
  assert (x = 0 \/ 0 < x)%N as [->|Hx] by lia; [by rewrite pretty_N_go_0|].
  rewrite pretty_N_go_step by done. rewrite IH by by apply N.div_lt.
  simpl. unfold pretty_N_char. by repeat case_match.
Qed.

Lemma pretty_Z_no_underscore (n : Z) : has_char "_"%char (pretty n) = false.
Proof.
  assert (HN : forall x : N, has_char "_"%char (pretty x) = false).
  { intros x. unfold pretty, pretty_N. case_decide; [done|].
    by rewrite pretty_N_go_no_underscore. }
  destruct n as [|p|p]; [done | apply HN |].
  unfold pretty, pretty_Z. rewrite has_char_app. simpl. apply HN.
Qed.

Lemma string_app_nil_l s : "" +:+ s = s.
Proof. reflexivity. Qed.

Lemma string_app_cons c s t : String c s +:+ t = String c (s +:+ t).
Proof. reflexivity. Qed.

Lemma split_at_last_underscore s1 s2 p1 p2 :
  has_char "_"%char p1 = false -> has_char "_"%char p2 = false ->
  s1 +:+ "_" +:+ p1 = s2 +:+ "_" +:+ p2 -> s1 = s2 /\ p1 = p2.
Proof.
  intros H1 H2. revert s2.
  induction s1 as [|c s1 IH]; intros [|c' s2];
    repeat (rewrite string_app_nil_l || rewrite string_app_cons).
  - by intros [= ->].
  - intros [= <- ->]. rewrite has_char_app in H1. cbn [has_char] in H1.
    rewrite bool_decide_eq_true_2 in H1 by done. by rewrite orb_true_r in H1.
  - intros [= -> <-]. rewrite has_char_app in H2. cbn [has_char] in H2.
    rewrite bool_decide_eq_true_2 in H2 by done. by rewrite orb_true_r in H2.
  - intros [= -> H]. by destruct (IH _ H) as [-> ->].
Qed.

Lemma callback_key_eq py_repr device_id device_id' outlet outlet' :
  gen_event_callback_key py_repr (VStr device_id) (VInt outlet)
    = gen_event_callback_key py_repr (VStr device_id') (VInt outlet') ->
  device_id = device_id' /\ outlet = outlet'.
Proof.
  unfold gen_event_callback_key. cbn [py_str]. intros H.
  apply (inj (String.append "event_")) in H.
  apply split_at_last_underscore in H as [-> H]; try apply pretty_Z_no_underscore.
  split; [done | by apply pretty_Z_inj].
Qed.

(** X3: the key under which a button entity is registered names its device
    and its outlet: two entities get the same key only if they are for the
    same device id and the same outlet number. *)
Theorem gen_event_callback_key_inj
    (py_repr : value -> string) (device_id device_id' : string) (outlet outlet' : Z) :
  gen_event_callback_key py_repr (VStr device_id) (VInt outlet)
    = gen_event_callback_key py_repr (VStr device_id') (VInt outlet') ->
  device_id = device_id' /\ outlet = outlet'.
Proof. apply callback_key_eq. Qed.

Lemma gen_event_callback_key_inj_witness :
  gen_event_callback_key (fun _ => "") (VStr "1000aa") (VInt 2)
    = gen_event_callback_key (fun _ => "") (VStr "1000aa") (VInt 2) /\
  "1000aa" = "1000aa" /\ 2 = 2.
Proof.
  assert (H : gen_event_callback_key (fun _ => "") (VStr "1000aa") (VInt 2)
              = gen_event_callback_key (fun _ => "") (VStr "1000aa") (VInt 2))
    by reflexivity.
  exact (conj H (gen_event_callback_key_inj (fun _ => "") "1000aa" "1000aa" 2 2 H)).
Defined.

(** ** Further properties of merge *)

Lemma keys_merge_cons origin key x :
  keys (dict_set origin key x) =
  (keys origin ++ List.filter (fun k => negb (bool_decide (k ∈ keys origin))) [key])%list.
Proof.
  rewrite keys_dict_set. cbn [List.filter].
  destruct (dict_get origin key) as [v|] eqn:E.
  - rewrite bool_decide_eq_true_2; [by rewrite app_nil_r|].
    apply dict_get_Some_elem in E. unfold keys. apply list_elem_of_fmap. by exists (key, v).
  - apply dict_get_None in E. by rewrite bool_decide_eq_false_2.
Qed.

(** X4: [merge] keeps insertion order.  The keys the stored dictionary had
    stay where they were, and the keys that are new come after them in the
    order of the incoming dictionary. *)
Theorem merge_keys_order (origin_dict source_dict : dict) :
  NoDup (keys source_dict) ->
  keys (merge origin_dict source_dict) =
  (keys origin_dict
   ++ List.filter (fun k => negb (bool_decide (k ∈ keys origin_dict))) (keys source_dict))%list.
Proof.
  revert origin_dict.
  induction source_dict as [|[key val] source IH]; intros origin Hnd.
  - by rewrite merge_nil, app_nil_r.
  - unfold keys in Hnd. rewrite fmap_cons in Hnd. apply NoDup_cons in Hnd as [Hkey Hnd].
    rewrite merge_cons_entry, IH by done. rewrite !keys_merge_cons.
    change (keys ((key, val) :: source)) with (key :: keys source).
    cbn [List.filter fst] in *.
    destruct (negb (bool_decide (key ∈ keys origin))).
    + rewrite <- app_assoc. cbn [app]. do 2 f_equal.
      apply filter_ext_in. intros k Hin. f_equal. apply bool_decide_ext.
      rewrite elem_of_app, list_elem_of_singleton. split; [|by left].
      intros [H| ->]; [done|]. exfalso. apply Hkey. by apply list_elem_of_In.
    + by rewrite !app_nil_r.
Qed.

Lemma merge_keys_order_witness :
  let origin_dict := [("switch", VStr "off"); ("rssi", VInt (-60))] in
  let source_dict := [("pulse", VStr "on"); ("switch", VStr "on"); ("width", VInt 500)] in
  NoDup (keys source_dict) /\
  keys (merge origin_dict source_dict) = ["switch"; "rssi"; "pulse"; "width"].
Proof.
  intros origin_dict source_dict.
  assert (H : NoDup (keys source_dict)).
  { apply (bool_decide_unpack _). vm_compute. exact I. }
  split; [exact H|].
  rewrite (merge_keys_order origin_dict source_dict H). reflexivity.
Defined.

(** X5: two partial updates that touch different top-level keys can be
    merged in either order: every key ends up with the same value. *)
Theorem merge_disjoint_commute (origin_dict first second : dict) :
  NoDup (keys first) ->
  NoDup (keys second) ->
  (forall key, key ∈ keys first -> key ∉ keys second) ->
  forall key,
    dict_get (merge (merge origin_dict first) second) key
    = dict_get (merge (merge origin_dict second) first) key.
Proof.
  intros Hnd1 Hnd2 Hdisj key.
  destruct (dict_get first key) as [v1|] eqn:E1;
    destruct (dict_get second key) as [v2|] eqn:E2.
  - exfalso. apply (Hdisj key).
    + apply dict_get_Some_elem in E1. apply list_elem_of_fmap. by exists (key, v1).
    + apply dict_get_Some_elem in E2. apply list_elem_of_fmap. by exists (key, v2).
  - rewrite (merge_get_absent second _ _ E2).
    rewrite !(merge_get_present first _ _ _ Hnd1 E1).
    by rewrite (merge_get_absent second _ _ E2).
  - rewrite (merge_get_present second _ _ _ Hnd2 E2).
    rewrite (merge_get_absent first _ _ E1).
    rewrite (merge_get_absent first _ _ E1).
    by rewrite (merge_get_present second _ _ _ Hnd2 E2).
  - by rewrite !merge_get_absent.
Qed.

Lemma merge_disjoint_commute_witness :
  let origin_dict := [("switch", VStr "off"); ("rssi", VInt (-60))] in
  let first := [("switch", VStr "on")] in
  let second := [("rssi", VInt (-48)); ("fwVersion", VStr "1.2.0")] in
  NoDup (keys first) /\
  NoDup (keys second) /\
  (forall key, key ∈ keys first -> key ∉ keys second) /\
  forall key,
    dict_get (merge (merge origin_dict first) second) key
    = dict_get (merge (merge origin_dict second) first) key.
Proof.
  intros origin_dict first second.
  assert (H1 : NoDup (keys first)).
  { apply (bool_decide_unpack _). vm_compute. exact I. }
  assert (H2 : NoDup (keys second)).
  { apply (bool_decide_unpack _). vm_compute. exact I. }
  assert (H3 : forall key, key ∈ keys first -> key ∉ keys second).
  { intros key Hin. apply list_elem_of_singleton in Hin as ->.
    apply (bool_decide_unpack _). vm_compute. exact I. }
  exact (conj H1 (conj H2 (conj H3 (merge_disjoint_commute origin_dict first second H1 H2 H3)))).
Defined.

(** ** Further properties of the coordinator *)

Lemma get_uiid_instance_plain u :
  u ≠ 174 ->
  exists uiid_instance,
    get_uiid_instance (VInt u) = Return uiid_instance /\ event_types uiid_instance = None.
Proof.
  intros Hu. unfold get_uiid_instance, uiid_dict. cbn [List.find eq_int].
  repeat (match goal with |- context [if ?b then _ else _] => destruct b eqn:? end;
          [eexists; split; [reflexivity|]; try reflexivity; exfalso; lia|]).
  eexists. split; reflexivity.
Qed.

Lemma update_entity_state_unchanged_or_done py_repr device_id params co :
  let r := update_entity_state py_repr device_id params co in
  (r.2 ≠ None -> r.1 = co) /\
  dom (data r.1) = dom (data co) /\
  event_handler_map r.1 = event_handler_map co /\
  (published r.1 = published co \/ published r.1 = S (published co)) /\
  (triggered r.1 = triggered co \/ exists call, triggered r.1 = (triggered co ++ [call])%list).
Proof.
  unfold update_entity_state.
  destruct (data_get co device_id) as [[[id device]|]|e] eqn:Hget; cbn zeta;
    try (cbn [fst snd]; split_and!; auto; done).
  assert (Hid : data co !! id = Some device).
  { destruct device_id; simpl in Hget; try done.
    destruct (data co !! s) eqn:E; simpl in Hget; [|done]. by simplify_eq. }
  destruct (is_none _); [cbn [fst snd]; split_and!; auto; done|].
  destruct (get_uiid_instance _) as [inst|e]; [|cbn [fst snd]; split_and!; auto; done].
  cbn [mbind result_bind]. unfold dispatch_event.
  assert (Hdom : dom (<[id:=merge device [("itemData", VDict [("params", params)])]]> (data co))
                 = dom (data co)).
  { apply dom_insert_lookup_L. by eexists. }
  destruct (event_types inst) as [[|? ?]|];
    try (cbn [fst snd data event_handler_map published triggered set_data
              async_set_updated_data]; split_and!; auto; done).
  destruct (is_number _ && is_number _);
    [|cbn [fst snd data event_handler_map published triggered set_data
           async_set_updated_data]; split_and!; auto; done].
  destruct (event_handler_map co !! _);
    cbn [fst snd data event_handler_map published triggered set_data
         async_set_updated_data call_handler]; split_and!; eauto; done.
Qed.

Lemma update_entity_available_unchanged_or_done device_id online co :
  let r := update_entity_available device_id online co in
  (r.2 ≠ None -> r.1 = co) /\
  dom (data r.1) = dom (data co) /\
  event_handler_map r.1 = event_handler_map co /\
  (published r.1 = published co \/ published r.1 = S (published co)) /\
  triggered r.1 = triggered co.
Proof.
  unfold update_entity_available.
  destruct (data_get co device_id) as [[[id device]|]|e] eqn:Hget; cbn zeta;
    try (cbn [fst snd]; split_and!; auto; done).
  assert (Hid : data co !! id = Some device).
  { destruct device_id; simpl in Hget; try done.
    destruct (data co !! s) eqn:E; simpl in Hget; [|done]. by simplify_eq. }
  cbn [fst snd data event_handler_map published triggered set_data async_set_updated_data].
  split_and!; auto; try done.
  apply dom_insert_lookup_L. by eexists.
Qed.

(** X6: whatever a push carries, handling it never adds or removes a
    device, never touches the handler registrations, publishes at most one
    snapshot and calls at most one event handler; and when the handler raises
    nothing at all has changed. *)
Theorem push_handlers_keep_store_shape
    (py_repr : value -> string) (device_id arg : value) (cb : callback) (co : coordinator) :
  let r := run_callback py_repr cb device_id arg co in
  (r.2 ≠ None -> r.1 = co) /\
  dom (data r.1) = dom (data co) /\
  event_handler_map r.1 = event_handler_map co /\
  (published r.1 = published co \/ published r.1 = S (published co)) /\
  (triggered r.1 = triggered co \/ exists call, triggered r.1 = (triggered co ++ [call])%list).
Proof.
  destruct cb; cbn [run_callback].
  - apply update_entity_state_unchanged_or_done.
  - destruct (update_entity_available_unchanged_or_done device_id arg co)
      as (H1 & H2 & H3 & H4 & H5). split_and!; auto.
Qed.

Lemma update_entity_state_plain py_repr co id device u params :
  data co !! id = Some device ->
  EWeLinkDevice.uiid device = VInt u ->
  u ≠ 174 ->
  update_entity_state py_repr (VStr id) params co =
  (Coordinator
     (<[id := merge device [("itemData", VDict [("params", params)])]]> (data co))
     (event_handler_map co) (triggered co) (S (published co)),
   None).
Proof.
  intros Hid Hu Hne. unfold update_entity_state. cbn [data_get]. rewrite Hid.
  cbn [fmap option_fmap option_map]. change (get_device_uiid (VDict device)) with
    (EWeLinkDevice.uiid device). rewrite Hu. cbn [is_none].
  destruct (get_uiid_instance_plain u Hne) as (inst & -> & Hev).
  cbn [mbind result_bind]. unfold dispatch_event. by rewrite Hev.
Qed.

(** X7: a state push for a known device of a family without events.  The
    pushed [params] are merged into the stored [params] of that device and
    nothing else of the device changes; the other devices, the handler
    registrations and the record of handler calls stay as they were, and one
    snapshot is published. *)
Theorem update_entity_state_known
    (py_repr : value -> string) (co : coordinator) (id : string)
    (device item old_params new_params : dict) (u : Z) :
  data co !! id = Some device ->
  EWeLinkDevice.uiid device = VInt u ->
  u ≠ 174 ->
  dict_get device "itemData" = Some (VDict item) ->
  dict_get item "params" = Some (VDict old_params) ->
  let r := update_entity_state py_repr (VStr id) (VDict new_params) co in
  r.2 = None /\
  (exists device' item',
     data r.1 !! id = Some device' /\
     dict_get device' "itemData" = Some (VDict item') /\
     dict_get item' "params" = Some (VDict (merge old_params new_params)) /\
     (forall key, key ≠ "params" -> dict_get item' key = dict_get item key) /\
     (forall key, key ≠ "itemData" -> dict_get device' key = dict_get device key)) /\
  (forall id', id' ≠ id -> data r.1 !! id' = data co !! id') /\
  event_handler_map r.1 = event_handler_map co /\
  triggered r.1 = triggered co /\
  published r.1 = S (published co).
Proof.
  intros Hid Hu Hne Hitem Hparams r. subst r.
  rewrite (update_entity_state_plain py_repr co id device u _ Hid Hu Hne).
  cbn [fst snd data event_handler_map triggered published].
  destruct (merge_params_subtree device item old_params new_params Hitem Hparams)
    as (item' & H1 & H2 & H3 & H4).
  split_and!; try done.
  - eexists _, item'. split; [apply lookup_insert_eq|]. done.
  - intros id' Hne'. by rewrite lookup_insert_ne.
Qed.

Lemma update_entity_state_known_witness :
  let device :=
    [("itemData",
      VDict
        [("deviceid", VStr "1000aa");
         ("params", VDict [("switch", VStr "off"); ("rssi", VInt (-60))]);
         ("extra", VDict [("uiid", VInt 1)])])] in
  let co := Coordinator {["1000aa" := device]} ∅ [] 0 in
  data co !! "1000aa" = Some device /\
  EWeLinkDevice.uiid device = VInt 1 /\
  1 ≠ 174 /\
  (update_entity_state (fun _ => "") (VStr "1000aa") (VDict [("switch", VStr "on")]) co).2
    = None /\
  published
    (update_entity_state (fun _ => "") (VStr "1000aa") (VDict [("switch", VStr "on")]) co).1
    = 1%nat.
Proof.
  intros device co.
  assert (H1 : data co !! "1000aa" = Some device) by by vm_compute.
  assert (H2 : EWeLinkDevice.uiid device = VInt 1) by reflexivity.
  assert (H3 : 1 ≠ 174) by lia.
  destruct (update_entity_state_known (fun _ => "") co "1000aa" device
              [("deviceid", VStr "1000aa");
               ("params", VDict [("switch", VStr "off"); ("rssi", VInt (-60))]);
               ("extra", VDict [("uiid", VInt 1)])]
              [("switch", VStr "off"); ("rssi", VInt (-60))]
              [("switch", VStr "on")] 1 H1 H2 H3 eq_refl eq_refl)
    as (Hok & _ & _ & _ & _ & Hpub).
  exact (conj H1 (conj H2 (conj H3 (conj Hok Hpub)))).
Defined.

Lemma merge_online_subtree device item (online : bool) :
  dict_get device "itemData" = Some (VDict item) ->
  exists item',
    dict_get (merge device [("itemData", VDict [("online", VBool online)])]) "itemData"
      = Some (VDict item') /\
    dict_get item' "online" = Some (VBool online) /\
    (forall key, key ≠ "online" -> dict_get item' key = dict_get item key) /\
    (forall key, key ≠ "itemData" ->
       dict_get (merge device [("itemData", VDict [("online", VBool online)])]) key
         = dict_get device key).
Proof.
  intros Hitem.
  assert (Hset : merge item [("online", VBool online)]
                 = dict_set item "online" (VBool online)).
  { rewrite merge_cons, merge_nil. by destruct (dict_get item "online") as [[]|]. }
  exists (merge item [("online", VBool online)]).
  rewrite (merge_cons device), Hitem, merge_nil, Hset.
  split; [apply dict_get_set_eq|]. split; [apply dict_get_set_eq|].
  split; intros key Hne; by apply dict_get_set_ne.
Qed.

(** X8: an availability push for a known device sets exactly its online
    flag, to the truth value of what was pushed: [params] and every other
    field of the device are kept, as are the other devices and the handler
    calls; one snapshot is published and the entity's availability follows
    the flag. *)
Theorem update_entity_available_known
    (co : coordinator) (id : string) (device item : dict) (online : value) :
  data co !! id = Some device ->
  dict_get device "itemData" = Some (VDict item) ->
  let r := update_entity_available (VStr id) online co in
  r.2 = None /\
  (exists device' item',
     data r.1 !! id = Some device' /\
     dict_get device' "itemData" = Some (VDict item') /\
     EWeLinkDevice.online device' = VBool (py_bool online) /\
     (forall key, key ≠ "online" -> dict_get item' key = dict_get item key) /\
     (forall key, key ≠ "itemData" -> dict_get device' key = dict_get device key)) /\
  available r.1 id = py_bool online /\
  (forall id', id' ≠ id -> data r.1 !! id' = data co !! id') /\
  triggered r.1 = triggered co /\
  published r.1 = S (published co).
Proof.
  intros Hid Hitem r. subst r. unfold update_entity_available. cbn [data_get].
  rewrite Hid. cbn [fmap option_fmap option_map fst snd data triggered published
                    set_data async_set_updated_data].
  destruct (merge_online_subtree device item (py_bool online) Hitem)
    as (item' & H1 & H2 & H3 & H4).
  assert (Honline :
    EWeLinkDevice.online (merge device [("itemData", VDict [("online", VBool (py_bool online))])])
    = VBool (py_bool online)).
  { unfold EWeLinkDevice.online. cbn [deep_get deep_get_step]. rewrite H1.
    cbn [deep_get_step]. by rewrite H2. }
  split_and!; try done.
  - eexists _, item'. split; [apply lookup_insert_eq|]. done.
  - unfold available, async_set_updated_data, set_data. cbn [data].
    rewrite lookup_insert_eq, Honline. by destruct (py_bool online).
  - intros id' Hne'. by rewrite lookup_insert_ne.
Qed.

Lemma update_entity_available_known_witness :
  let item :=
    [("deviceid", VStr "1000aa"); ("online", VBool true);
     ("params", VDict [("switch", VStr "on")])] in
  let device := [("itemData", VDict item)] in
  let co := Coordinator {["1000aa" := device]} ∅ [] 0 in
  data co !! "1000aa" = Some device /\
  dict_get device "itemData" = Some (VDict item) /\
  available (update_entity_available (VStr "1000aa") (VBool false) co).1 "1000aa" = false.
Proof.
  intros item device co.
  assert (H1 : data co !! "1000aa" = Some device) by by vm_compute.
  assert (H2 : dict_get device "itemData" = Some (VDict item)) by reflexivity.
  destruct (update_entity_available_known co "1000aa" device item (VBool false) H1 H2)
    as (_ & _ & Hav & _).
  exact (conj H1 (conj H2 Hav)).
Defined.

Lemma update_entity_state_button py_repr co id device params :
  data co !! id = Some device ->
  EWeLinkDevice.uiid device = VInt 174 ->
  is_number (deep_get params [KStr "outlet"] (VInt 0)) = true ->
  is_number (deep_get params [KStr "key"] VNone) = true ->
  update_entity_state py_repr (VStr id) params co =
  match event_handler_map co
        !! gen_event_callback_key py_repr (VStr id) (deep_get params [KStr "outlet"] (VInt 0))
  with
  | Some event_handler =>
      (Coordinator
         (<[id := merge device [("itemData", VDict [("params", params)])]]> (data co))
         (event_handler_map co)
         (triggered co
          ++ [(event_handler, deep_get params [KStr "outlet"] (VInt 0),
               deep_get params [KStr "key"] VNone)])
         (S (published co)),
       None)
  | None => (co, Some KeyError)
  end.
Proof.
  intros Hid Hu Ho Hk. unfold update_entity_state. cbn [data_get]. rewrite Hid.
  cbn [fmap option_fmap option_map]. change (get_device_uiid (VDict device)) with
    (EWeLinkDevice.uiid device). rewrite Hu. cbn [is_none].
  change (get_uiid_instance (VInt 174)) with (Return CUiid174).
  cbn [mbind result_bind]. unfold dispatch_event. cbn [event_types]. rewrite Ho, Hk.
  cbn [andb]. by destruct (event_handler_map co !! _).
Qed.

(** X9: a button press.  For a device of family 174 whose entity for
    outlet [o] is registered, a push carrying that outlet (or no outlet when
    [o] is 0) and a key calls that entity's handler exactly once, with the
    outlet and the key, and calls no other handler; the push is then merged
    and published. *)
Theorem button_press_dispatch
    (py_repr : value -> string) (co : coordinator) (id : string) (device : dict)
    (params : value) (o k : Z) (handler : nat) :
  data co !! id = Some device ->
  EWeLinkDevice.uiid device = VInt 174 ->
  deep_get params [KStr "outlet"] (VInt 0) = VInt o ->
  deep_get params [KStr "key"] VNone = VInt k ->
  let registered := async_added_to_hass py_repr id o handler co in
  let r := update_entity_state py_repr (VStr id) params registered in
  r.2 = None /\
  triggered r.1 = (triggered co ++ [(handler, VInt o, VInt k)])%list /\
  data r.1 !! id = Some (merge device [("itemData", VDict [("params", params)])]) /\
  published r.1 = S (published co).
Proof.
  intros Hid Hu Ho Hk registered r. subst r registered.
  rewrite (update_entity_state_button py_repr _ id device params);
    [| exact Hid | exact Hu | by rewrite Ho | by rewrite Hk].
  rewrite Ho, Hk. unfold async_added_to_hass, add_event_handler.
  cbn [event_handler_map]. rewrite lookup_insert_eq.
  cbn [fst snd data triggered published]. split_and!; try done.
  apply lookup_insert_eq.
Qed.

Lemma button_press_dispatch_witness :
  let device :=
    [("itemData",
      VDict [("deviceid", VStr "1000cc"); ("params", VDict []);
             ("extra", VDict [("uiid", VInt 174)])])] in
  let co := Coordinator {["1000cc" := device]} ∅ [] 0 in
  let params := VDict [("outlet", VInt 2); ("key", VInt 1)] in
  data co !! "1000cc" = Some device /\
  EWeLinkDevice.uiid device = VInt 174 /\
  deep_get params [KStr "outlet"] (VInt 0) = VInt 2 /\
  deep_get params [KStr "key"] VNone = VInt 1 /\
  triggered
    (update_entity_state (fun _ => "") (VStr "1000cc") params
       (async_added_to_hass (fun _ => "") "1000cc" 2 7%nat co)).1
  = [(7%nat, VInt 2, VInt 1)].
Proof.
  intros device co params.
  assert (H1 : data co !! "1000cc" = Some device) by by vm_compute.
  assert (H2 : EWeLinkDevice.uiid device = VInt 174) by reflexivity.
  assert (H3 : deep_get params [KStr "outlet"] (VInt 0) = VInt 2) by reflexivity.
  assert (H4 : deep_get params [KStr "key"] VNone = VInt 1) by reflexivity.
  destruct (button_press_dispatch (fun _ => "") co "1000cc" device params 2 1 7%nat
              H1 H2 H3 H4) as (_ & Htrig & _).
  exact (conj H1 (conj H2 (conj H3 (conj H4 Htrig)))).
Defined.

(** X10: a button press for an outlet no entity is registered for (none
    was added, or it has been removed) raises [KeyError] before anything is
    merged: the coordinator is left as it was, so the pushed params are
    lost. *)
Theorem button_press_unregistered
    (py_repr : value -> string) (co : coordinator) (id : string) (device : dict)
    (params : value) (o k : Z) :
  data co !! id = Some device ->
  EWeLinkDevice.uiid device = VInt 174 ->
  deep_get params [KStr "outlet"] (VInt 0) = VInt o ->
  deep_get params [KStr "key"] VNone = VInt k ->
  (event_handler_map co !! gen_event_callback_key py_repr (VStr id) (VInt o) = None ->
   update_entity_state py_repr (VStr id) params co = (co, Some KeyError)) /\
  update_entity_state py_repr (VStr id) params (async_will_remove_from_hass py_repr id o co)
  = (async_will_remove_from_hass py_repr id o co, Some KeyError).
Proof.
  intros Hid Hu Ho Hk.
  assert (Hraise : forall co',
            data co' !! id = Some device ->
            event_handler_map co' !! gen_event_callback_key py_repr (VStr id) (VInt o) = None ->
            update_entity_state py_repr (VStr id) params co' = (co', Some KeyError)).
  { intros co' Hid' Hnone.
    rewrite (update_entity_state_button py_repr co' id device params);
      [| exact Hid' | exact Hu | by rewrite Ho | by rewrite Hk].
    by rewrite Ho, Hnone. }
  split; [by apply Hraise|].
  apply Hraise; unfold async_will_remove_from_hass, remove_event_handler.
  - by case_bool_decide.
  - case_bool_decide as Hsome; cbn [event_handler_map]; [apply lookup_delete_eq|].
    by apply eq_None_not_Some.
Qed.

Lemma button_press_unregistered_witness :
  let device :=
    [("itemData",
      VDict [("deviceid", VStr "1000cc"); ("params", VDict []);
             ("extra", VDict [("uiid", VInt 174)])])] in
  let co := Coordinator {["1000cc" := device]} ∅ [] 0 in
  let params := VDict [("outlet", VInt 2); ("key", VInt 1)] in
  data co !! "1000cc" = Some device /\
  EWeLinkDevice.uiid device = VInt 174 /\
  deep_get params [KStr "outlet"] (VInt 0) = VInt 2 /\
  deep_get params [KStr "key"] VNone = VInt 1 /\
  event_handler_map co !! gen_event_callback_key (fun _ => "") (VStr "1000cc") (VInt 2) = None /\
  update_entity_state (fun _ => "") (VStr "1000cc") params co = (co, Some KeyError).
Proof.
  intros device co params.
  assert (H1 : data co !! "1000cc" = Some device) by by vm_compute.
  assert (H2 : EWeLinkDevice.uiid device = VInt 174) by reflexivity.
  assert (H3 : deep_get params [KStr "outlet"] (VInt 0) = VInt 2) by reflexivity.
  assert (H4 : deep_get params [KStr "key"] VNone = VInt 1) by reflexivity.
  assert (H5 : event_handler_map co
               !! gen_event_callback_key (fun _ => "") (VStr "1000cc") (VInt 2) = None)
    by by vm_compute.
  exact (conj H1 (conj H2 (conj H3 (conj H4 (conj H5
    (proj1 (button_press_unregistered (fun _ => "") co "1000cc" device params 2 1
              H1 H2 H3 H4) H5)))))).
Defined.

(** X11: registering and removing button entities.  After registration the
    entity's key leads to its handler, after removal to none, and removing an
    entity that is not registered changes nothing; the registrations of every
    other (device, outlet) pair are never affected. *)
Theorem handler_registration
    (py_repr : value -> string) (co : coordinator) (id : string) (o : Z) (handler : nat) :
  let key := gen_event_callback_key py_repr (VStr id) (VInt o) in
  event_handler_map (async_added_to_hass py_repr id o handler co) !! key = Some handler /\
  event_handler_map
    (async_will_remove_from_hass py_repr id o (async_added_to_hass py_repr id o handler co))
    !! key = None /\
  (event_handler_map co !! key = None -> async_will_remove_from_hass py_repr id o co = co) /\
  (forall id' o',
     (id', o') ≠ (id, o) ->
     let key' := gen_event_callback_key py_repr (VStr id') (VInt o') in
     event_handler_map (async_added_to_hass py_repr id o handler co) !! key'
       = event_handler_map co !! key' /\
     event_handler_map (async_will_remove_from_hass py_repr id o co) !! key'
       = event_handler_map co !! key').
Proof.
  intros key. unfold async_added_to_hass, async_will_remove_from_hass,
    add_event_handler, remove_event_handler. fold key. cbn [event_handler_map].
  split_and!.
  - apply lookup_insert_eq.
  - rewrite bool_decide_eq_true_2 by (rewrite lookup_insert_eq; by eexists).
    cbn [event_handler_map]. apply lookup_delete_eq.
  - intros Hnone. rewrite bool_decide_eq_false_2; [done|]. by apply eq_None_not_Some.
  - intros id' o' Hne.
    assert (Hkeys : key ≠ gen_event_callback_key py_repr (VStr id') (VInt o')).
    { intros Heq. apply callback_key_eq in Heq as [-> ->]. done. }
    split; [by rewrite lookup_insert_ne|].
    case_bool_decide; cbn [event_handler_map]; [by rewrite lookup_delete_ne | done].
Qed.

Lemma handler_registration_witness :
  let co := async_added_to_hass (fun _ => "") "1000cc" 1 4%nat init_coordinator in
  ("1000cc", 1) ≠ ("1000cc", 2) /\
  event_handler_map (async_added_to_hass (fun _ => "") "1000cc" 2 7%nat co)
    !! gen_event_callback_key (fun _ => "") (VStr "1000cc") (VInt 1) = Some 4%nat.
Proof.
  intros co.
  assert (H : ("1000cc", 1) ≠ ("1000cc", 2)) by (intros [= ?]).
  split; [exact H|].
  destruct (handler_registration (fun _ => "") co "1000cc" 2 7%nat) as (_ & _ & _ & Hother).
  destruct (Hother "1000cc" 1 H) as [Hadd _].
  rewrite Hadd. by vm_compute.
Defined.

(** X12: what a button entity makes of a call [handle_trigger_event(outlet,
    key)]: it triggers single, double or long press for key 0, 1 or 2 when
    the outlet is its own, and nothing for any other key or any other
    outlet. *)
Theorem button_event_mapping (self_outlet outlet k : Z) :
  (outlet = self_outlet ->
   EWeLinkButtonEvent.handle_trigger_event self_outlet (VInt outlet) (VInt k) =
   Return
     (if k =? 0 then Some "single_press"
      else if k =? 1 then Some "double_press"
      else if k =? 2 then Some "long_press"
      else None)) /\
  (outlet ≠ self_outlet ->
   EWeLinkButtonEvent.handle_trigger_event self_outlet (VInt outlet) (VInt k) = Return None).
Proof.
  unfold EWeLinkButtonEvent.handle_trigger_event, Uiid174.key_2_event_type,
    Uiid174.event_type_dict. cbn [List.find eq_int mbind result_bind].
  split.
  - intros ->. rewrite Z.eqb_refl.
    destruct (k =? 0); [done|]. destruct (k =? 1); [done|]. by destruct (k =? 2).
  - intros Hne. apply Z.eqb_neq in Hne. rewrite Hne.
    destruct (k =? 0); [done|]. destruct (k =? 1); [done|]. by destruct (k =? 2).
Qed.

Lemma button_event_mapping_witness :
  2 = 2 /\
  EWeLinkButtonEvent.handle_trigger_event 2 (VInt 2) (VInt 1) = Return (Some "double_press") /\
  3 ≠ 2 /\
  EWeLinkButtonEvent.handle_trigger_event 2 (VInt 3) (VInt 1) = Return None.
Proof.
  assert (H1 : 2 = 2) by reflexivity.
  assert (H2 : 3 ≠ 2) by lia.
  exact (conj H1 (conj (proj1 (button_event_mapping 2 2 1) H1)
           (conj H2 (proj2 (button_event_mapping 2 3 1) H2)))).
Defined.

(** ** merge along paths *)

Lemma merge_entry_leaf origin_value val :
  is_dict val = false -> merge_entry origin_value val = val.
Proof. by destruct origin_value, val. Qed.

Lemma lands_step d k v x :
  NoDup (keys d) -> dict_get d k = Some v -> lands (VDict d) x ->
  exists d' y, x = VDict d' /\ dict_get d' k = Some y /\ lands v y.
Proof.
  intros Hnd Hk [->|[o ->]].
  - exists d, v. split_and!; [done | done | by left].
  - destruct o as [| | | | | |od]; try (exists d, v; split_and!; [done | done | by left]).
    exists (merge od d). eexists. split; [apply merge_entry_dict|].
    rewrite (merge_get_present d od k v Hnd Hk). split; [done|].
    destruct (dict_get od k); [right; by eexists | by left].
Qed.

Lemma lands_leaf src path leaf x :
  wf_value src = true ->
  deep_find src (KStr <$> path) = Some leaf ->
  is_dict leaf = false ->
  lands src x ->
  deep_find x (KStr <$> path) = Some leaf.
Proof.
  revert src x. induction path as [|k path IH]; intros src x Hwf Hfind Hleaf Hlands.
  - cbn in Hfind. injection Hfind as ->. cbn.
    destruct Hlands as [->|[o ->]]; [done|]. by rewrite merge_entry_leaf.
  - rewrite fmap_cons in *. cbn [deep_find] in Hfind.
    destruct (deep_get_step src (KStr k)) as [v|] eqn:Hstep; [|done].
    apply deep_get_step_str in Hstep as (d & -> & Hk).
    apply (wf_dict_unfold d) in Hwf as [Hnd Hall].
    destruct (lands_step d k v x Hnd Hk Hlands) as (d' & y & -> & Hy & Hlands').
    cbn [deep_find deep_get_step]. rewrite Hy. apply (IH v); try done.
    rewrite Forall_forall in Hall. apply (Hall (k, v)). by apply dict_get_Some_elem.
Qed.

(** X13: every leaf of an update is found in the merged state.  A value
    of the incoming tree that is not itself a dictionary sits, after the
    merge, under the same path of keys, whatever the stored state held
    there. *)
Theorem merge_leaves_land (origin_dict source_dict : dict) (path : list string) (leaf : value) :
  wf_dict source_dict = true ->
  deep_find (VDict source_dict) (KStr <$> path) = Some leaf ->
  is_dict leaf = false ->
  deep_find (VDict (merge origin_dict source_dict)) (KStr <$> path) = Some leaf.
Proof.
  intros Hwf Hfind Hleaf.
  apply (lands_leaf (VDict source_dict)); try done.
  right. exists (VDict origin_dict). by rewrite merge_entry_dict.
Qed.

Lemma merge_leaves_land_witness :
  let origin_dict :=
    [("itemData", VDict [("online", VBool true); ("params", VStr "stale")])] in
  let source_dict :=
    [("itemData", VDict [("params", VDict [("switch", VStr "on")])])] in
  wf_dict source_dict = true /\
  deep_find (VDict source_dict) (KStr <$> ["itemData"; "params"; "switch"])
    = Some (VStr "on") /\
  is_dict (VStr "on") = false /\
  deep_find (VDict (merge origin_dict source_dict)) (KStr <$> ["itemData"; "params"; "switch"])
    = Some (VStr "on").
Proof.
  intros origin_dict source_dict.
  assert (H1 : wf_dict source_dict = true) by reflexivity.
  assert (H2 : deep_find (VDict source_dict) (KStr <$> ["itemData"; "params"; "switch"])
               = Some (VStr "on")) by reflexivity.
  assert (H3 : is_dict (VStr "on") = false) by reflexivity.
  exact (conj H1 (conj H2 (conj H3
    (merge_leaves_land origin_dict source_dict ["itemData"; "params"; "switch"]
       (VStr "on") H1 H2 H3)))).
Defined.

Lemma lands_untouched src path d k rest o x :
  wf_value src = true ->
  deep_find src (KStr <$> path) = Some (VDict d) ->
  dict_get d k = None ->
  x = merge_entry o src ->
  deep_find x ((KStr <$> path) ++ KStr k :: rest) = deep_find o ((KStr <$> path) ++ KStr k :: rest).
Proof.
  revert src o x. induction path as [|k0 path IH]; intros src o x Hwf Hfind Hk ->.
  - cbn in Hfind. injection Hfind as ->. cbn [fmap list_fmap app deep_find].
    destruct o as [| | | | | |od]; cbn [merge_entry deep_get_step]; try by rewrite Hk.
    change (merge_items merge_entry od d) with (merge od d).
    by rewrite (merge_get_absent d od k Hk).
  - rewrite fmap_cons in *. cbn [deep_find] in Hfind.
    destruct (deep_get_step src (KStr k0)) as [v|] eqn:Hstep; [|done].
    apply deep_get_step_str in Hstep as (d0 & -> & Hk0).
    apply (wf_dict_unfold d0) in Hwf as [Hnd Hall].
    assert (Hwfv : wf_value v = true).
    { rewrite Forall_forall in Hall. apply (Hall (k0, v)). by apply dict_get_Some_elem. }
    assert (Hfail : deep_find v ((KStr <$> path) ++ KStr k :: rest) = None).
    { rewrite deep_find_app, Hfind. cbn [deep_find deep_get_step]. by rewrite Hk. }
    cbn [app deep_find].
    destruct o as [| | | | | |od]; cbn [merge_entry deep_get_step];
      try (rewrite Hk0; exact Hfail).
    change (merge_items merge_entry od d0) with (merge od d0).
    rewrite (merge_get_present d0 od k0 v Hnd Hk0).
    destruct (dict_get od k0) as [ov|]; [|exact Hfail].
    by apply (IH v ov).
Qed.

Lemma container_path_dict d k path :
  container_path (VDict d) (KStr k :: path) =
  match dict_get d k with Some current => container_path current path | None => true end.
Proof. reflexivity. Qed.

Lemma container_path_absent src path d k rest :
  deep_find src (KStr <$> path) = Some (VDict d) ->
  dict_get d k = None ->
  container_path src ((KStr <$> path) ++ KStr k :: rest) = true.
Proof.
  revert src. induction path as [|k0 path IH]; intros src Hfind Hk.
  - cbn in Hfind. injection Hfind as ->. cbn [fmap list_fmap app].
    by rewrite container_path_dict, Hk.
  - rewrite fmap_cons in *. cbn [deep_find] in Hfind.
    destruct (deep_get_step src (KStr k0)) as [v|] eqn:Hstep; [|done].
    apply deep_get_step_str in Hstep as (d0 & -> & Hk0).
    cbn [app]. rewrite container_path_dict, Hk0. by apply IH.
Qed.

Lemma lands_untouched_container src path d k rest o x :
  wf_value src = true ->
  deep_find src (KStr <$> path) = Some (VDict d) ->
  dict_get d k = None ->
  x = merge_entry o src ->
  container_path o ((KStr <$> path) ++ KStr k :: rest) = true ->
  container_path x ((KStr <$> path) ++ KStr k :: rest) = true.
Proof.
  revert src o x. induction path as [|k0 path IH]; intros src o x Hwf Hfind Hk -> Hc.
  - cbn in Hfind. injection Hfind as ->. cbn [fmap list_fmap app] in *.
    destruct o as [| | | | | |od]; cbn [merge_entry];
      try by rewrite container_path_dict, Hk.
    change (merge_items merge_entry od d) with (merge od d).
    rewrite container_path_dict in *. by rewrite (merge_get_absent d od k Hk).
  - rewrite fmap_cons in *. cbn [deep_find] in Hfind.
    destruct (deep_get_step src (KStr k0)) as [v|] eqn:Hstep; [|done].
    apply deep_get_step_str in Hstep as (d0 & -> & Hk0).
    apply (wf_dict_unfold d0) in Hwf as [Hnd Hall].
    assert (Hwfv : wf_value v = true).
    { rewrite Forall_forall in Hall. apply (Hall (k0, v)). by apply dict_get_Some_elem. }
    assert (Hsrc : container_path v ((KStr <$> path) ++ KStr k :: rest) = true)
      by by apply (container_path_absent v path d).
    cbn [app] in *.
    destruct o as [| | | | | |od]; cbn [merge_entry];
      try (rewrite container_path_dict, Hk0; exact Hsrc).
    change (merge_items merge_entry od d0) with (merge od d0).
    rewrite container_path_dict in *.
    rewrite (merge_get_present d0 od k0 v Hnd Hk0).
    destruct (dict_get od k0) as [ov|]; [|exact Hsrc].
    by apply (IH v ov).
Qed.

(** X14: what an update does not mention is kept.  When the incoming tree
    has a dictionary under a path of keys and that dictionary lacks a key,
    then every path going through that key resolves, in the merged state, to
    what it resolved to before.  This is for lookups that, in the stored
    state, only index dictionaries and lists; in the merged state the lookup
    is then one as well. *)
Theorem merge_untouched_paths
    (origin_dict source_dict : dict) (path : list string) (d : dict) (k : string)
    (rest : list path_key) :
  wf_dict source_dict = true ->
  deep_find (VDict source_dict) (KStr <$> path) = Some (VDict d) ->
  dict_get d k = None ->
  container_path (VDict origin_dict) ((KStr <$> path) ++ KStr k :: rest) = true ->
  deep_find (VDict (merge origin_dict source_dict)) ((KStr <$> path) ++ KStr k :: rest)
  = deep_find (VDict origin_dict) ((KStr <$> path) ++ KStr k :: rest) /\
  container_path (VDict (merge origin_dict source_dict))
    ((KStr <$> path) ++ KStr k :: rest) = true.
Proof.
  intros Hwf Hfind Hk Hc. split.
  - apply (lands_untouched (VDict source_dict) path d); try done.
  - apply (lands_untouched_container (VDict source_dict) path d k rest (VDict origin_dict));
      try done.
Qed.

Lemma merge_untouched_paths_witness :
  let origin_dict :=
    [("itemData",
      VDict [("online", VBool true);
             ("params", VDict [("switches", VList [VDict [("switch", VStr "on")]]);
                               ("rssi", VInt (-60))])])] in
  let source_dict := [("itemData", VDict [("params", VDict [("rssi", VInt (-48))])])] in
  wf_dict source_dict = true /\
  deep_find (VDict source_dict) (KStr <$> ["itemData"; "params"])
    = Some (VDict [("rssi", VInt (-48))]) /\
  dict_get [("rssi", VInt (-48))] "switches" = None /\
  container_path (VDict origin_dict)
    ((KStr <$> ["itemData"; "params"]) ++ KStr "switches" :: [KInt 0; KStr "switch"]) = true /\
  deep_find (VDict (merge origin_dict source_dict))
    ((KStr <$> ["itemData"; "params"]) ++ KStr "switches" :: [KInt 0; KStr "switch"])
  = deep_find (VDict origin_dict)
      ((KStr <$> ["itemData"; "params"]) ++ KStr "switches" :: [KInt 0; KStr "switch"]).
Proof.
  intros origin_dict source_dict.
  assert (H1 : wf_dict source_dict = true) by reflexivity.
  assert (H2 : deep_find (VDict source_dict) (KStr <$> ["itemData"; "params"])
               = Some (VDict [("rssi", VInt (-48))])) by reflexivity.
  assert (H3 : dict_get [("rssi", VInt (-48))] "switches" = None) by reflexivity.
  assert (H4 : container_path (VDict origin_dict)
                 ((KStr <$> ["itemData"; "params"]) ++ KStr "switches" :: [KInt 0; KStr "switch"])
               = true) by reflexivity.
  exact (conj H1 (conj H2 (conj H3 (conj H4
    (proj1 (merge_untouched_paths origin_dict source_dict ["itemData"; "params"]
              [("rssi", VInt (-48))] "switches" [KInt 0; KStr "switch"] H1 H2 H3 H4)))))).
Defined.

(** ** Commands read back from the merged state *)

Lemma merge_lands origin source : lands (VDict source) (VDict (merge origin source)).
Proof. right. exists (VDict origin). by rewrite merge_entry_dict. Qed.

Lemma deep_get_cons_dict d k path default :
  deep_get (VDict d) (KStr k :: path) default =
  match dict_get d k with Some v => deep_get v path default | None => default end.
Proof. reflexivity. Qed.

Lemma merged_params_leaf device params_dict key leaf rest default :
  NoDup (keys params_dict) ->
  dict_get params_dict key = Some leaf ->
  is_dict leaf = false ->
  deep_get
    (VDict (merge device [("itemData", VDict [("params", VDict params_dict)])]))
    (KStr "itemData" :: KStr "params" :: KStr key :: rest) default
  = deep_get leaf rest default.
Proof.
  intros Hnd Hkey Hleaf.
  destruct (lands_step [("itemData", VDict [("params", VDict params_dict)])] "itemData" _ _
              ltac:(apply NoDup_singleton) eq_refl (merge_lands device _))
    as (d1 & y1 & Hd1 & Hy1 & Hl1).
  destruct (lands_step [("params", VDict params_dict)] "params" _ _
              ltac:(apply NoDup_singleton) eq_refl Hl1) as (d2 & y2 & -> & Hy2 & Hl2).
  destruct (lands_step params_dict key leaf _ Hnd Hkey Hl2) as (d3 & y3 & -> & Hy3 & Hl3).
  assert (y3 = leaf) as ->.
  { destruct Hl3 as [->|[o ->]]; [done | by apply merge_entry_leaf]. }
  rewrite Hd1.
  by rewrite deep_get_cons_dict, Hy1, deep_get_cons_dict, Hy2, deep_get_cons_dict, Hy3.
Qed.

Lemma get_switch_value_merged (uiid : value) (device : dict) (is_on : bool) :
  Uiid.get_switch_value uiid
    (VDict
       (merge device
          [("itemData", VDict [("params", Uiid.gen_control_switch_params uiid is_on)])]))
  = is_on.
Proof.
  unfold Uiid.get_switch_value, Uiid.gen_control_switch_params.
  destruct (in_ints uiid MULTIPLE_SINGLE_PROTOCOL_UIIDS).
  - erewrite (merged_params_leaf device _ "switches");
      [| apply NoDup_singleton | reflexivity | reflexivity].
    by destruct is_on.
  - erewrite (merged_params_leaf device _ "switch");
      [| apply NoDup_singleton | reflexivity | reflexivity].
    by destruct is_on.
Qed.

(** X15: a switch command read back.  Once the payload that
    [gen_control_switch_params] builds for a family has been merged into a
    device, whatever the device held, [get_switch_value] of that family
    returns the state that was asked for. *)
Theorem switch_set_then_get (uiid : value) (device : dict) (is_on : bool) :
  Uiid.get_switch_value uiid
    (VDict
       (merge device
          [("itemData", VDict [("params", Uiid.gen_control_switch_params uiid is_on)])]))
  = is_on.
Proof. apply get_switch_value_merged. Qed.

(** X16: the startup option read back, and the families without one.  For
    family 1 and family 191 the payload of [gen_control_startup_params],
    merged into any device, makes [get_startup_value] return the option that
    was set; for every other integer family id there is no payload and no
    value. *)
Theorem startup_set_then_get (u : Z) (device : dict) (startup : string) (outlet : value) :
  (u = 1 \/ u = 191 ->
   Uiid_startup.get_startup_value (VInt u)
     (VDict
        (merge device
           [("itemData",
             VDict [("params", Uiid_startup.gen_control_startup_params (VInt u) startup outlet)])]))
     outlet
   = VStr startup) /\
  (u ≠ 1 -> u ≠ 191 ->
   Uiid_startup.gen_control_startup_params (VInt u) startup outlet = VNone /\
   forall any_device, Uiid_startup.get_startup_value (VInt u) any_device outlet = VNone).
Proof.
  split.
  - intros [-> | ->]; unfold Uiid_startup.get_startup_value,
      Uiid_startup.gen_control_startup_params, Uiid.get_params; cbn [py_bool negb in_ints
      existsb eq_int SINGLE_PROTOCOL_UIIDS MULTIPLE_SINGLE_PROTOCOL_UIIDS Z.eqb Pos.eqb orb].
    + erewrite (merged_params_leaf device _ "startup");
        [| apply NoDup_singleton | reflexivity | reflexivity].
      reflexivity.
    + erewrite (merged_params_leaf device _ "configure");
        [| apply NoDup_singleton | reflexivity | reflexivity].
      reflexivity.
  - intros H1 H191.
    unfold Uiid_startup.get_startup_value, Uiid_startup.gen_control_startup_params.
    cbn [in_ints existsb eq_int SINGLE_PROTOCOL_UIIDS MULTIPLE_SINGLE_PROTOCOL_UIIDS
         MULTIPLE_UIIDS orb andb].
    apply Z.eqb_neq in H1, H191. rewrite H1, H191.
    split; [|intros any_device]; by destruct (negb (py_bool (VInt u))).
Qed.

Lemma startup_set_then_get_witness :
  let device := [("itemData", VDict [("params", VDict [("configure", VList [])])])] in
  (191 = 1 \/ 191 = 191) /\
  Uiid_startup.get_startup_value (VInt 191)
    (VDict
       (merge device
          [("itemData",
            VDict [("params", Uiid_startup.gen_control_startup_params (VInt 191) "stay" VNone)])]))
    VNone
  = VStr "stay" /\
  (104 ≠ 1 /\ 104 ≠ 191) /\
  Uiid_startup.gen_control_startup_params (VInt 104) "stay" VNone = VNone.
Proof.
  intros device.
  assert (H1 : 191 = 1 \/ 191 = 191) by (right; reflexivity).
  assert (H2 : 104 ≠ 1) by lia.
  assert (H3 : 104 ≠ 191) by lia.
  exact (conj H1 (conj (proj1 (startup_set_then_get 191 device "stay" VNone) H1)
           (conj (conj H2 H3)
              (proj1 (proj2 (startup_set_then_get 104 device "stay" VNone) H2 H3))))).
Defined.

(** X17: a colour command read back.  Once the payload of
    [gen_control_color_rgb_params] for numeric components has been merged
    into a device, whatever the device held, [get_color_rgb] returns those
    components and the colour mode is RGB. *)
Theorem color_rgb_set_then_get (device : dict) (r g b : value) :
  is_number r = true -> is_number g = true -> is_number b = true ->
  let merged :=
    VDict
      (merge device
         [("itemData",
           VDict
             [("params",
               Uiid104_color.gen_control_color_rgb_params (VDict device) (r, g, b))])]) in
  Uiid104_color.get_color_rgb merged = (r, g, b) /\
  Uiid104_color.get_color_mode merged = RGB.
Proof.
  intros Hr Hg Hb merged. subst merged.
  unfold Uiid104_color.gen_control_color_rgb_params.
  set (br := deep_get (VDict device) _ (VInt 50)).
  set (color := [("r", r); ("g", g); ("b", b); ("br", br)]).
  set (params := [("ltype", VStr "color"); ("color", VDict color)]).
  assert (Hnd_params : NoDup (keys params)).
  { apply (bool_decide_unpack _). by vm_compute. }
  assert (Hnd_color : NoDup (keys color)).
  { apply (bool_decide_unpack _). by vm_compute. }
  destruct (lands_step [("itemData", VDict [("params", VDict params)])] "itemData" _ _
              ltac:(apply NoDup_singleton) eq_refl (merge_lands device _))
    as (d1 & y1 & Hd1 & Hy1 & Hl1).
  destruct (lands_step [("params", VDict params)] "params" _ _
              ltac:(apply NoDup_singleton) eq_refl Hl1) as (d2 & y2 & -> & Hy2 & Hl2).
  destruct (lands_step params "color" _ _ Hnd_params eq_refl Hl2)
    as (d3 & y3 & -> & Hy3 & Hl3).
  destruct (lands_step params "ltype" _ _ Hnd_params eq_refl Hl2)
    as (d3' & y3' & [= <-] & Hltype & Hl3').
  assert (y3' = VStr "color") as ->.
  { destruct Hl3' as [->|[o ->]]; [done | by apply merge_entry_leaf]. }
  assert (Hleaf : forall k v, dict_get color k = Some v -> is_number v = true ->
            exists d4, y3 = VDict d4 /\ dict_get d4 k = Some v).
  { intros k v Hk Hv.
    destruct (lands_step color k v _ Hnd_color Hk Hl3) as (d4 & y4 & Hd4 & Hy4 & Hl4).
    exists d4. split; [done|]. rewrite Hy4. f_equal.
    destruct Hl4 as [->|[o ->]]; [done|]. apply merge_entry_leaf. by destruct v. }
  destruct (Hleaf "r" r eq_refl Hr) as (d4 & -> & Hdr).
  destruct (Hleaf "g" g eq_refl Hg) as (? & [= <-] & Hdg).
  destruct (Hleaf "b" b eq_refl Hb) as (? & [= <-] & Hdb).
  rewrite Hd1. split.
  - unfold Uiid104_color.get_color_rgb.
    rewrite deep_get_cons_dict, Hy1, deep_get_cons_dict, Hy2, deep_get_cons_dict, Hy3.
    cbn [deep_get]. unfold get_or_none. rewrite Hdr, Hdg, Hdb.
    by destruct r, g, b.
  - unfold Uiid104_color.get_color_mode, Uiid104.get_ltype.
    by rewrite deep_get_cons_dict, Hy1, deep_get_cons_dict, Hy2, deep_get_cons_dict, Hltype.
Qed.

Lemma color_rgb_set_then_get_witness :
  let device :=
    [("itemData",
      VDict [("params", VDict [("ltype", VStr "white");
                               ("white", VDict [("br", VInt 40); ("ct", VInt 120)])])])] in
  is_number (VInt 113) = true /\ is_number (VInt 255) = true /\ is_number (VInt 134) = true /\
  Uiid104_color.get_color_rgb
    (VDict
       (merge device
          [("itemData",
            VDict
              [("params",
                Uiid104_color.gen_control_color_rgb_params (VDict device)
                  (VInt 113, VInt 255, VInt 134))])]))
  = (VInt 113, VInt 255, VInt 134).
Proof.
  intros device.
  exact (conj eq_refl (conj eq_refl (conj eq_refl
    (proj1 (color_rgb_set_then_get device (VInt 113) (VInt 255) (VInt 134)
              eq_refl eq_refl eq_refl))))).
Defined.

(** ** The brightness of family 104, set and read back *)

Lemma merged_params_nested device params_dict k1 inner k2 leaf default :
  NoDup (keys params_dict) ->
  dict_get params_dict k1 = Some (VDict inner) ->
  NoDup (keys inner) ->
  dict_get inner k2 = Some leaf ->
  is_dict leaf = false ->
  deep_get
    (VDict (merge device [("itemData", VDict [("params", VDict params_dict)])]))
    [KStr "itemData"; KStr "params"; KStr k1; KStr k2] default
  = leaf.
Proof.
  intros Hnd Hk1 Hnd2 Hk2 Hleaf.
  destruct (lands_step [("itemData", VDict [("params", VDict params_dict)])] "itemData" _ _
              ltac:(apply NoDup_singleton) eq_refl (merge_lands device _))
    as (d1 & y1 & Hd1 & Hy1 & Hl1).
  destruct (lands_step [("params", VDict params_dict)] "params" _ _
              ltac:(apply NoDup_singleton) eq_refl Hl1) as (d2 & y2 & -> & Hy2 & Hl2).
  destruct (lands_step params_dict k1 (VDict inner) _ Hnd Hk1 Hl2) as (d3 & y3 & -> & Hy3 & Hl3).
  destruct (lands_step inner k2 leaf _ Hnd2 Hk2 Hl3) as (d4 & y4 & -> & Hy4 & Hl4).
  assert (y4 = leaf) as ->.
  { destruct Hl4 as [->|[o ->]]; [done | by apply merge_entry_leaf]. }
  rewrite Hd1.
  by rewrite deep_get_cons_dict, Hy1, deep_get_cons_dict, Hy2, deep_get_cons_dict, Hy3,
    deep_get_cons_dict, Hy4.
Qed.

Lemma get_brightess_merged (device inner : dict) (l : string) (n : Z) :
  l ≠ "ltype" ->
  NoDup (keys inner) ->
  dict_get inner "br" = Some (VInt n) ->
  Uiid104.get_brightess
    (VDict
       (merge device
          [("itemData", VDict [("params", VDict [("ltype", VStr l); (l, VDict inner)])])]))
  = VInt (ewelink_to_ha (inject_Z n)).
Proof.
  intros Hl Hnd Hbr.
  assert (Hkeys : NoDup (keys [("ltype", VStr l); (l, VDict inner)])).
  { apply NoDup_cons. split; [|apply NoDup_singleton].
    intros Hin. apply list_elem_of_singleton in Hin. by apply Hl. }
  assert (Hinner : dict_get [("ltype", VStr l); (l, VDict inner)] l = Some (VDict inner)).
  { cbn [dict_get]. rewrite decide_False by (intros H; by apply Hl).
    by rewrite decide_True. }
  rewrite get_brightess_eq. cbv zeta.
  assert (Hltype : Uiid104.get_ltype
            (VDict
               (merge device
                  [("itemData", VDict [("params", VDict [("ltype", VStr l); (l, VDict inner)])])]))
          = VStr l).
  { unfold Uiid104.get_ltype.
    by rewrite (merged_params_leaf device _ "ltype" (VStr l) [] _ Hkeys eq_refl eq_refl). }
  rewrite Hltype. cbn [as_path_key].
  by rewrite (merged_params_nested device _ l inner "br" (VInt n) VNone Hkeys Hinner Hnd Hbr eq_refl).
Qed.

Lemma gen_control_brightness_params_br device brightness params :
  Uiid104.gen_control_brightness_params device brightness = Return params ->
  deep_find params
    [KStr (if eq_str (Uiid104.get_ltype device) "color" then "color" else "white"); KStr "br"]
  = Some (VInt (ha_to_ewelink (inject_Z brightness))).
Proof.
  rewrite gen_control_brightness_params_eq. cbv zeta.
  destruct (eq_str (Uiid104.get_ltype device) "color").
  - destruct (deep_get device [KStr "itemData"; KStr "params"; KStr "color"] (VDict []));
      cbn [Uiid104.get_or mbind result_bind]; try done.
    by intros [= <-].
  - by intros [= <-].
Qed.

Lemma brightness_set_then_get (device : dict) (b : Z) :
  Uiid104.get_ltype (VDict device) = VStr "white" \/
  Uiid104.get_ltype (VDict device) = VStr "color" /\
  is_dict (deep_get (VDict device) [KStr "itemData"; KStr "params"; KStr "color"] (VDict []))
  = true ->
  exists params,
    Uiid104.gen_control_brightness_params (VDict device) b = Return (VDict params) /\
    Uiid104.get_brightess
      (VDict (merge device [("itemData", VDict [("params", VDict params)])]))
    = VInt (ewelink_to_ha (inject_Z (ha_to_ewelink (inject_Z b)))).
Proof.
  intros Hl. rewrite gen_control_brightness_params_eq. cbv zeta.
  destruct Hl as [Hl | [Hl Hcolor]]; rewrite Hl.
  - change (eq_str (VStr "white") "color") with false. cbv iota.
    eexists. split; [reflexivity|].
    apply get_brightess_merged; [done | | reflexivity].
    apply (bool_decide_unpack _). vm_compute. exact I.
  - change (eq_str (VStr "color") "color") with true. cbv iota.
    destruct (deep_get (VDict device) [KStr "itemData"; KStr "params"; KStr "color"] (VDict []))
      as [| | | | | |ewelink_color]; try done.
    cbn [Uiid104.get_or mbind result_bind].
    eexists. split; [reflexivity|].
    apply get_brightess_merged; [done | | reflexivity].
    apply (bool_decide_unpack _). vm_compute. exact I.
Qed.

(** C8: the brightness remap of family 104, through the code.  What
    [gen_control_brightness_params] sends for an external brightness is the
    rounded remap of that brightness, and what [get_brightess] shows is the
    rounded remap of the stored native value.  An external value between 1
    and 255 that is set, merged into the device and read back comes back
    within one unit; a native value between 1 and 100 that is shown and sent
    back as a command comes back within one unit (in fact unchanged).  Both
    remaps are monotonic, the rounding is to a nearest integer, and the map
    under the rounding is linear. *)
Theorem brightness_remap_round_trip :
  (forall device brightness params,
     Uiid104.gen_control_brightness_params device brightness = Return params ->
     deep_find params
       [KStr (if eq_str (Uiid104.get_ltype device) "color" then "color" else "white");
        KStr "br"]
     = Some (VInt (ha_to_ewelink (inject_Z brightness)))) /\
  (forall device,
     let br :=
       deep_get device
         [KStr "itemData"; KStr "params"; as_path_key (Uiid104.get_ltype device); KStr "br"]
         VNone in
     Uiid104.get_brightess device =
     if is_number br then VInt (ewelink_to_ha (number_value br)) else VNone) /\
  (forall (device : dict) b,
     1 <= b <= 255 ->
     Uiid104.get_ltype (VDict device) = VStr "white" \/
     Uiid104.get_ltype (VDict device) = VStr "color" /\
     is_dict (deep_get (VDict device) [KStr "itemData"; KStr "params"; KStr "color"] (VDict []))
     = true ->
     exists params n h,
       Uiid104.gen_control_brightness_params (VDict device) b = Return (VDict params) /\
       deep_find (VDict params)
         [KStr (if eq_str (Uiid104.get_ltype (VDict device)) "color" then "color" else "white");
          KStr "br"] = Some (VInt n) /\
       1 <= n <= 100 /\
       Uiid104.get_brightess
         (VDict (merge device [("itemData", VDict [("params", VDict params)])]))
       = VInt h /\
       Z.abs (h - b) <= 1) /\
  (forall device n,
     1 <= n <= 100 ->
     deep_find device
       [KStr "itemData"; KStr "params"; as_path_key (Uiid104.get_ltype device); KStr "br"]
       = Some (VInt n) ->
     exists h params n',
       Uiid104.get_brightess device = VInt h /\
       1 <= h <= 255 /\
       Uiid104.gen_control_brightness_params device h = Return params /\
       deep_find params
         [KStr (if eq_str (Uiid104.get_ltype device) "color" then "color" else "white");
          KStr "br"] = Some (VInt n') /\
       Z.abs (n' - n) <= 1) /\
  (forall b,
     1 <= b <= 255 ->
     Z.abs (ewelink_to_ha (inject_Z (ha_to_ewelink (inject_Z b))) - b) <= 1) /\
  (forall x y,
     (x <= y)%Q ->
     ewelink_to_ha x <= ewelink_to_ha y /\ ha_to_ewelink x <= ha_to_ewelink y) /\
  (forall x, (Qabs (inject_Z (py_round x) - x) <= 1 # 2)%Q) /\
  (forall x y,
     (map_value_general y Uiid104.ewelink_brightness_range Uiid.ha_brightness_range
      - map_value_general x Uiid104.ewelink_brightness_range Uiid.ha_brightness_range
      == (254 # 99) * (y - x))%Q /\
     (map_value_general y Uiid.ha_brightness_range Uiid104.ewelink_brightness_range
      - map_value_general x Uiid.ha_brightness_range Uiid104.ewelink_brightness_range
      == (99 # 254) * (y - x))%Q).
Proof.
  split_and!.
  - apply gen_control_brightness_params_br.
  - intros device. apply get_brightess_eq.
  - intros device b Hb Hl.
    destruct (brightness_set_then_get device b Hl) as (params & Hgen & Hget).
    destruct (external_round_trip b Hb) as [Hback Hrange].
    exists params, (ha_to_ewelink (inject_Z b)),
      (ewelink_to_ha (inject_Z (ha_to_ewelink (inject_Z b)))).
    split_and!; try done; try lia.
    by apply (gen_control_brightness_params_br (VDict device) b).
  - intros device n Hn Hbr.
    destruct (native_round_trip n Hn) as [Hback Hrange].
    exists (ewelink_to_ha (inject_Z n)).
    assert (Hget : Uiid104.get_brightess device = VInt (ewelink_to_ha (inject_Z n))).
    { rewrite get_brightess_eq, deep_get_find, Hbr. reflexivity. }
    rewrite gen_control_brightness_params_eq. cbv zeta. rewrite Hback.
    destruct (eq_str (Uiid104.get_ltype device) "color") eqn:Hcolor.
    + assert (Hl : Uiid104.get_ltype device = VStr "color").
      { destruct (Uiid104.get_ltype device); try done. simpl in Hcolor.
        by apply bool_decide_eq_true in Hcolor as ->. }
      rewrite Hl in Hbr. simpl as_path_key in Hbr.
      change [KStr "itemData"; KStr "params"; KStr "color"; KStr "br"]
        with ([KStr "itemData"; KStr "params"; KStr "color"] ++ [KStr "br"])%list in Hbr.
      rewrite deep_find_snoc in Hbr.
      destruct (deep_find device [KStr "itemData"; KStr "params"; KStr "color"])
        as [current|] eqn:Hcur; [|done].
      apply deep_get_step_str in Hbr as (d & -> & _).
      rewrite deep_get_find, Hcur. cbn [Uiid104.get_or mbind result_bind].
      eexists _, n. split_and!; [exact Hget | lia | lia | reflexivity | reflexivity | lia].
    + eexists _, n. split_and!; [exact Hget | lia | lia | reflexivity | reflexivity | lia].
  - intros b Hb. by apply external_round_trip.
  - intros x y Hxy. split; [by apply ewelink_to_ha_mono | by apply ha_to_ewelink_mono].
  - apply py_round_nearest.
  - intros x y. split.
    + rewrite map_value_general_linear by done. reflexivity.
    + rewrite map_value_general_linear by done. reflexivity.
Qed.

Lemma brightness_remap_round_trip_witness :
  let device :=
    [("itemData",
      VDict
        [("params",
          VDict
            [("ltype", VStr "color");
             ("color", VDict [("br", VInt 20); ("r", VInt 1); ("g", VInt 2); ("b", VInt 3)])])])] in
  1 <= 128 <= 255 /\
  is_dict (deep_get (VDict device) [KStr "itemData"; KStr "params"; KStr "color"] (VDict []))
  = true /\
  exists params n h,
    Uiid104.gen_control_brightness_params (VDict device) 128 = Return (VDict params) /\
    deep_find (VDict params)
      [KStr (if eq_str (Uiid104.get_ltype (VDict device)) "color" then "color" else "white");
       KStr "br"] = Some (VInt n) /\
    1 <= n <= 100 /\
    Uiid104.get_brightess
      (VDict (merge device [("itemData", VDict [("params", VDict params)])]))
    = VInt h /\
    Z.abs (h - 128) <= 1.
Proof.
  intros device.
  assert (H1 : 1 <= 128 <= 255) by lia.
  assert (H2 : is_dict (deep_get (VDict device) [KStr "itemData"; KStr "params"; KStr "color"]
                          (VDict [])) = true) by reflexivity.
  split; [exact H1|]. split; [exact H2|].
  exact (proj1 (proj2 (proj2 brightness_remap_round_trip)) device 128 H1
           (or_intror (conj eq_refl H2))).
Defined.

(** ** Further properties of the correlator and the reconnect loop *)

Ltac client_fields :=
  unfold send_json, set_pending_responses, set_futures, set_ws, set_is_connected,
    set_reconnect_delay_time, set_stop_event, on_client in *;
  cbn [client coord api_key app_id access_token ws is_connected reconnect_delay_time
       stop_event coordinator_handler pending_responses futures sent fst snd] in *.

Lemma pretty_N_go_nonempty x s : s ≠ "" -> pretty_N_go x s ≠ "".
Proof.
  revert s. induction (N.lt_wf_0 x) as [x _ IH]; intros s Hs.
  assert (x = 0 \/ 0 < x)%N as [->|Hx] by lia; [by rewrite pretty_N_go_0|].
  rewrite pretty_N_go_step by done. apply IH; [by apply N.div_lt | done].
Qed.

Lemma pretty_Z_nonempty (n : Z) : pretty n ≠ "".
Proof.
  assert (HN : forall x : N, pretty x ≠ "").
  { intros x. unfold pretty, pretty_N. case_decide; [done|].
    rewrite pretty_N_go_step by lia. by apply pretty_N_go_nonempty. }
  destruct n as [|p|p]; [done | apply HN | done].
Qed.

Section correlator_more.
Variables WS_MSG_ACTION WS_MSG_ACTION_UPDATE WS_MSG_ACTION_SYSMSG : string.
Variables WS_MSG_ACTION_USER_ONLINE WS_USER_AGENT : string.
Variable py_repr : value -> string.

Local Abbreviation resolve := (resolve_pending py_repr).
Local Abbreviation handle :=
  (handle_ws_message WS_MSG_ACTION WS_MSG_ACTION_UPDATE WS_MSG_ACTION_SYSMSG py_repr).
Local Abbreviation read :=
  (read_messages WS_MSG_ACTION WS_MSG_ACTION_UPDATE WS_MSG_ACTION_SYSMSG py_repr).
Local Abbreviation send := (control_device_send WS_MSG_ACTION_UPDATE WS_USER_AGENT).
Local Abbreviation attempt_run :=
  (run_attempt WS_MSG_ACTION WS_MSG_ACTION_UPDATE WS_MSG_ACTION_SYSMSG
     WS_MSG_ACTION_USER_ONLINE WS_USER_AGENT py_repr).
Local Abbreviation loop :=
  (reconnect_loop WS_MSG_ACTION WS_MSG_ACTION_UPDATE WS_MSG_ACTION_SYSMSG
     WS_MSG_ACTION_USER_ONLINE WS_USER_AGENT py_repr).
Local Abbreviation sequence_of := (frame_sequence py_repr).

Lemma resolve_pending_match frame c sequence future :
  sequence_of frame = sequence ->
  sequence ≠ "" ->
  pending_responses c !! sequence = Some future ->
  futures c !! future = Some FPending ->
  pending_responses (resolve frame c) = delete sequence (pending_responses c) /\
  futures (resolve frame c) = <[future := FResult (VDict frame)]> (futures c).
Proof.
  intros Hseq Hne Hp Hf. unfold resolve_pending. fold (sequence_of frame).
  rewrite Hseq. cbn [py_bool]. rewrite bool_decide_eq_false_2 by done. cbn [negb].
  rewrite Hp. client_fields. by rewrite Hf.
Qed.


Lemma resolve_pending_steady frame c :
  (forall k f, pending_responses (resolve frame c) !! k = Some f ->
     pending_responses c !! k = Some f) /\
  (forall k, k ≠ sequence_of frame ->
     pending_responses (resolve frame c) !! k = pending_responses c !! k) /\
  length (futures (resolve frame c)) = length (futures c) /\
  (forall f x, futures c !! f = Some x -> x ≠ FPending ->
     futures (resolve frame c) !! f = Some x) /\
  is_connected (resolve frame c) = is_connected c /\
  ws (resolve frame c) = ws c /\
  stop_event (resolve frame c) = stop_event c /\
  sent (resolve frame c) = sent c.
Proof.
  unfold resolve_pending. fold (sequence_of frame).
  destruct (py_bool _); [|done].
  destruct (pending_responses c !! sequence_of frame) as [future|] eqn:Hk; [|done].
  client_fields.
  assert (Hsub : forall k f,
            delete (sequence_of frame) (pending_responses c) !! k = Some f ->
            pending_responses c !! k = Some f).
  { intros k f H. apply lookup_delete_Some in H. tauto. }
  destruct (futures c !! future) as [[]|] eqn:Hf; client_fields; split_and!;
    try done; try (intros k Hne; by rewrite lookup_delete_ne).
  - by rewrite length_insert.
  - intros f x Hx Hdone. destruct (decide (f = future)) as [->|Hne].
    + rewrite Hf in Hx. by injection Hx as <-.
    + by rewrite list_lookup_insert_ne.
Qed.

(** X19: what handling a frame can do to the correlator.  It never adds a
    pending entry and can only take out the entry of the frame's own
    [sequence]; it creates no future; a future that is completed or
    cancelled is never changed again, neither by a frame nor by a later wake
    of its caller nor by a new command; and it leaves the connection flags
    and the frames sent alone. *)
Theorem correlator_resolves_once (msg : option value) (s : system) :
  let c' := client (handle msg s).1 in
  (forall k f, pending_responses c' !! k = Some f ->
     pending_responses (client s) !! k = Some f) /\
  (forall frame k, msg = Some (VDict frame) -> k ≠ sequence_of frame ->
     pending_responses c' !! k = pending_responses (client s) !! k) /\
  length (futures c') = length (futures (client s)) /\
  (forall f x, futures (client s) !! f = Some x -> x ≠ FPending ->
     futures c' !! f = Some x /\
     (forall timed_out sequence,
        futures (control_device_wake timed_out sequence f (client s)).1 !! f = Some x) /\
     (forall now send_ok ewelink_device params,
        futures (send now send_ok ewelink_device params (client s)).1 !! f = Some x)) /\
  is_connected c' = is_connected (client s) /\
  ws c' = ws (client s) /\
  sent c' = sent (client s).
Proof.
  intros c'. subst c'. rewrite handle_client.
  assert (Hother : forall f x, futures (client s) !! f = Some x -> x ≠ FPending ->
            (forall timed_out sequence,
               futures (control_device_wake timed_out sequence f (client s)).1 !! f = Some x) /\
            (forall now send_ok ewelink_device params,
               futures (send now send_ok ewelink_device params (client s)).1 !! f = Some x)).
  { intros f x Hx Hdone. split.
    - intros timed_out sequence. unfold control_device_wake. rewrite Hx.
      by destruct x.
    - intros now send_ok ewelink_device params. unfold control_device_send.
      destruct ewelink_device; [|done]. destruct (negb _); [done|]. client_fields.
      destruct (ws (client s)); [destruct send_ok|]; client_fields;
        by apply lookup_app_l_Some. }
  destruct msg as [[| | | | | |frame]|]; try (split_and!; auto; try done; intros; by split; auto).
  destruct (resolve_pending_steady frame (client s)) as (H1 & H2 & H3 & H4 & H5 & H6 & _ & H8).
  split_and!; auto.
  intros frame' k [= <-]. apply H2.
Qed.

Lemma handle_flags msg s :
  is_connected (client (handle msg s).1) = is_connected (client s) /\
  ws (client (handle msg s).1) = ws (client s) /\
  stop_event (client (handle msg s).1) = stop_event (client s).
Proof.
  rewrite handle_client. destruct msg as [[| | | | | |frame]|]; try done.
  destruct (resolve_pending_steady frame (client s)) as (_ & _ & _ & _ & H5 & H6 & H7 & _).
  done.
Qed.

Lemma read_messages_flags msgs s :
  is_connected (client (read msgs s).1) = is_connected (client s) /\
  ws (client (read msgs s).1) = ws (client s) /\
  stop_event (client (read msgs s).1) = stop_event (client s).
Proof.
  revert s. induction msgs as [|[decoded| | |] msgs IH]; intros s; cbn [read_messages];
    try done.
  destruct (handle_flags decoded s) as (H1 & H2 & H3).
  destruct (handle decoded s) as [s' [e|]]; cbn [fst] in *; [done|].
  destruct (IH s') as (H1' & H2' & H3'). by rewrite H1', H2', H3'.
Qed.

Lemma run_attempt_socket_set a s :
  socket_set (client (attempt_run a (on_client (set_is_connected false) s)).1).
Proof.
  unfold socket_set.
  destruct a as [| |now ts nonce msgs|now ts nonce msgs|e]; cbn [run_attempt fst];
    try (client_fields; done).
  - match goal with |- context [read msgs ?s1] =>
      destruct (read_messages_flags msgs s1) as (H1 & H2 & _);
      destruct (read msgs s1) as [s2 [e|]] end; cbn [fst] in *.
    + intros _. rewrite H2. by client_fields.
    + by client_fields.
  - match goal with |- context [read msgs ?s1] =>
      destruct (read_messages_flags msgs s1) as (H1 & H2 & _) end.
    intros _. rewrite H2. by client_fields.
Qed.

Lemma stop_if_socket_set b s : socket_set (client s) -> socket_set (client (stop_if b s)).
Proof. destruct b; [|done]. unfold socket_set. by client_fields. Qed.

Lemma reconnect_loop_socket_set cycles s :
  socket_set (client s) -> socket_set (client (loop cycles s).1.1).
Proof.
  revert s. induction cycles as [|cy cycles IH]; intros s Hs; cbn [reconnect_loop].
  - by destruct (stop_event (client s)).
  - destruct (stop_event (client s)); [done|].
    pose proof (run_attempt_socket_set (attempt_of cy) s) as Hrun.
    destruct (attempt_run (attempt_of cy) (on_client (set_is_connected false) s))
      as [s1 [e|]]; cbn [fst] in Hrun; [done|].
    destruct (stop_event (client (stop_if (stop_during_attempt cy) s1))) eqn:Hstop;
      cbn [fst]; [by apply stop_if_socket_set|].
    match goal with |- context [loop cycles ?s3] =>
      assert (Hs3 : socket_set (client s3));
      [| specialize (IH s3 Hs3); destruct (loop cycles s3) as [[s' events] e] ] end.
    { assert (H2 : socket_set (client (stop_if (stop_during_sleep cy)
                                         (stop_if (stop_during_attempt cy) s1))))
        by by do 2 apply stop_if_socket_set.
      unfold socket_set in *. by client_fields. }
    done.
Qed.

(** X20: the socket handle is there whenever the client says it is
    connected.  This holds of a new client and is kept by the reconnect loop,
    by frame handling and by both halves of [control_device]; hence a
    command on a client reached this way is never answered with [None], the
    branch for a missing handle. *)
Theorem connected_implies_socket (c : ws_client) :
  socket_set c ->
  (forall cycles co, socket_set (client (loop cycles (System c co)).1.1)) /\
  (forall msg co, socket_set (client (handle msg (System c co)).1)) /\
  (forall now send_ok ewelink_device params,
     socket_set (send now send_ok ewelink_device params c).1 /\
     (send now send_ok ewelink_device params c).2 ≠ Done (Return VNone)) /\
  (forall timed_out sequence future,
     socket_set (control_device_wake timed_out sequence future c).1).
Proof.
  intros Hc. split_and!.
  - intros cycles co. by apply reconnect_loop_socket_set.
  - intros msg co. destruct (handle_flags msg (System c co)) as (H1 & H2 & _).
    unfold socket_set in *. rewrite H1, H2. exact Hc.
  - intros now send_ok ewelink_device params. unfold control_device_send, socket_set in *.
    destruct ewelink_device as [device|]; [|done].
    destruct (is_connected c) eqn:Hcon; cbn [negb]; [|split; [cbn; congruence|done]].
    client_fields. rewrite (Hc eq_refl). destruct send_ok; client_fields; done.
  - intros timed_out sequence future. unfold control_device_wake, socket_set in *.
    destruct (futures c !! future) as [[]|]; try done.
    destruct timed_out; [|done]. by client_fields.
Qed.

Lemma stop_if_true s : stop_event (client (stop_if true s)) = true.
Proof. reflexivity. Qed.

Lemma loop_stopped cycles s :
  stop_event (client s) = true -> loop cycles s = (s, [], LoopStopped).
Proof. intros H. destruct cycles; cbn [reconnect_loop]; by rewrite H. Qed.

(** X21: a stop is honoured.  When [stop()] is called during a cycle,
    while the attempt runs or during the sleep after it, the loop makes no
    further attempt: the cycles that would follow play no part in what the
    loop does, and the loop has ended. *)
Theorem stop_ends_reconnecting (before after : list cycle) (cy : cycle) (s : system) :
  stop_during_attempt cy = true \/ stop_during_sleep cy = true ->
  loop (before ++ cy :: after) s = loop (before ++ [cy]) s /\
  (loop (before ++ [cy]) s).2 ≠ LoopRunning.
Proof.
  intros Hstop. revert s. induction before as [|c0 before IH]; intros s.
  - cbn [app reconnect_loop]. destruct (stop_event (client s)); [done|].
    destruct (attempt_run (attempt_of cy) (on_client (set_is_connected false) s))
      as [s1 [e|]]; [done|].
    destruct (stop_event (client (stop_if (stop_during_attempt cy) s1))) eqn:Hev; [done|].
    assert (Hsleep : stop_during_sleep cy = true).
    { destruct Hstop as [Ha|Hs]; [|done]. rewrite Ha in Hev. by rewrite stop_if_true in Hev. }
    rewrite Hsleep.
    match goal with |- context [loop after ?s3] =>
      assert (H3 : stop_event (client s3) = true) by reflexivity;
      rewrite (loop_stopped after s3 H3), H3 end.
    done.
  - rewrite <- !app_comm_cons.
    cbn [reconnect_loop]. destruct (stop_event (client s)); [done|].
    destruct (attempt_run (attempt_of c0) (on_client (set_is_connected false) s))
      as [s1 [e|]]; [done|].
    destruct (stop_event (client (stop_if (stop_during_attempt c0) s1))); [done|].
    match goal with |- context [loop (before ++ [cy]) ?s3] =>
      destruct (IH s3) as [-> Hend];
      destruct (loop (before ++ [cy]) s3) as [[s' events] e] end.
    done.
Qed.

Lemma read_messages_harmless pre msgs s :
  Forall harmless pre -> read (pre ++ msgs) s = read msgs s.
Proof.
  induction 1 as [|[[]| | |] pre Hmsg _ IH]; cbn [app read_messages]; try done.
Qed.

(** X22: a text frame that decodes to JSON which is not an object ends the
    client.  [__handle_ws_message] raises [AttributeError], no [except]
    clause of the loop catches it, and the loop is left without a sleep and
    without another attempt, whatever cycles would follow; the client stays
    flagged as connected. *)
Theorem non_object_frame_ends_loop
    (now ts : Z) (nonce : string) (pre post : list ws_msg) (decoded : value)
    (stop1 stop2 : bool) (cycles : list cycle) (s : system) :
  stop_event (client s) = false ->
  is_dict decoded = false ->
  Forall harmless pre ->
  let r :=
    loop (Cycle (Connected now ts nonce (pre ++ TEXT (Some decoded) :: post)) stop1 stop2
          :: cycles) s in
  r.2 = LoopDied AttributeError /\
  r.1.2 = [Attempted (reconnect_delay_time (client s))] /\
  is_connected (client r.1.1) = true /\
  coord r.1.1 = coord s.
Proof.
  intros Hstop Hdec Hpre r. subst r. cbn [reconnect_loop]. rewrite Hstop.
  cbn [attempt_of run_attempt]. rewrite (read_messages_harmless pre _ _ Hpre).
  cbn [read_messages].
  assert (Hraise : forall s1, handle (Some decoded) s1 = (s1, Some AttributeError)).
  { intros s1. by destruct decoded. }
  rewrite Hraise. cbn [fst snd]. split_and!; try done; by client_fields.
Qed.

Local Abbreviation push := (is_push WS_MSG_ACTION WS_MSG_ACTION_UPDATE WS_MSG_ACTION_SYSMSG).
Local Abbreviation finish := (control_device_done py_repr).

(** X23: a command that did not get through leaves the store alone.
    Whenever the client answers a command at once (not connected, no socket
    handle) or answers it with the timeout acknowledgement, the facade of
    the coordinator applies nothing: the store, the handlers and the count
    of published snapshots are what they were, and nothing is raised. *)
Theorem failed_command_keeps_store
    (now : Z) (send_ok timed_out : bool) (ewelink_device : dict) (params r : value)
    (c : ws_client) (co : coordinator) (sequence : string) (future : nat) :
  (send now send_ok (Some ewelink_device) params c).2 = Done (Return r) \/
  (futures c !! future = Some FPending /\
   (control_device_wake timed_out sequence future c).2 = Done (Return r)) ->
  finish r ewelink_device params co = (co, None).
Proof.
  intros [Hsend|[Hf Hwake]].
  - unfold control_device_send in Hsend.
    destruct (negb (is_connected c)); [cbn [snd] in Hsend; simplify_eq; reflexivity|].
    cbv zeta in Hsend.
    match type of Hsend with context [if ?b then _ else _] => destruct b end;
      [destruct send_ok|]; cbn [snd] in Hsend; simplify_eq; reflexivity.
  - unfold control_device_wake in Hwake. rewrite Hf in Hwake.
    destruct timed_out; cbn [snd] in Hwake; simplify_eq; reflexivity.
Qed.

(** X24: a switch command from the call to the stored state.  On a healthy
    connection the command built by [gen_control_switch_params] is sent; the
    reply with the command's id and [error] 0, which is no push, completes
    it without touching the store; the coordinator then merges the command
    into the device, publishes one snapshot, and [get_switch_value] of the
    stored device is the state that was asked for. *)
Theorem switch_command_applied
    (now u : Z) (id : string) (device reply : dict) (is_on : bool)
    (c : ws_client) (co : coordinator) :
  is_connected c = true ->
  ws c = true ->
  wf_client c ->
  data co !! id = Some device ->
  EWeLinkDevice.device_id device = VStr id ->
  EWeLinkDevice.uiid device = VInt u ->
  u ≠ 174 ->
  sequence_of reply = pretty now ->
  dict_get reply "error" = Some (VInt 0) ->
  push reply = false ->
  let params := Uiid.gen_control_switch_params (VInt u) is_on in
  let sent_state := send now true (Some device) params c in
  let replied := (handle (Some (VDict reply)) (System sent_state.1 co)).1 in
  let woken := control_device_wake false (pretty now) (length (futures c)) (client replied) in
  let after := finish (VDict reply) device params (coord replied) in
  sent_state.2 = Waiting (pretty now) (length (futures c)) /\
  woken.2 = Done (Return (VDict reply)) /\
  coord replied = co /\
  after.2 = None /\
  published after.1 = S (published co) /\
  exists device',
    data after.1 !! id = Some device' /\
    Uiid.get_switch_value (VInt u) (VDict device') = is_on.
Proof.
  intros Hc Hws Hwf Hid Hdev Hu Hne Hseq Herr Hpush params sent_state replied woken after.
  pose proof (send_awaiting WS_MSG_ACTION_UPDATE WS_USER_AGENT now device params c Hc Hws Hwf)
    as (Hp & Hf & _).
  fold sent_state in Hp, Hf.
  destruct (send_connected_fields WS_MSG_ACTION_UPDATE WS_USER_AGENT now device params c Hc Hws)
    as (Hcall & _).
  destruct (resolve_pending_match reply sent_state.1 (pretty now)
              (length (futures c)) Hseq (pretty_Z_nonempty now) Hp Hf) as [_ Hfut].
  assert (Hclient : client replied = resolve reply sent_state.1).
  { subst replied. by rewrite handle_client. }
  assert (Hcoord : coord replied = co).
  { subst replied. unfold handle_ws_message.
    by rewrite (route_action_no_push WS_MSG_ACTION WS_MSG_ACTION_UPDATE WS_MSG_ACTION_SYSMSG
                  py_repr reply _ _ Hpush). }
  assert (Hafter : after =
            (Coordinator
               (<[id := merge device [("itemData", VDict [("params", params)])]]> (data co))
               (event_handler_map co) (triggered co) (S (published co)), None)).
  { subst after. rewrite Hcoord. unfold control_device_done, get_or_none.
    rewrite Herr. cbn [eq_int]. rewrite Z.eqb_refl, Hdev.
    by apply (update_entity_state_plain py_repr co id device u). }
  split_and!.
  - exact Hcall.
  - subst woken. rewrite Hclient. unfold control_device_wake. rewrite Hfut.
    rewrite list_lookup_insert_eq by by eapply lookup_lt_Some. done.
  - exact Hcoord.
  - by rewrite Hafter.
  - by rewrite Hafter.
  - rewrite Hafter. eexists. split; [apply lookup_insert_eq|].
    apply get_switch_value_merged.
Qed.

(** C5: [control_device] while the connection is down.  The guard looks
    at the flag [is_connected].  After a session that ends with the socket
    closed the flag is unset, and the call returns at once with the ack
    [{error: -1, ...}], the client left as it was.  After a session that an
    exception cuts (one the [except] clauses of the loop catch, or one from
    a frame that nothing catches) the flag is still set although the
    connection is gone: the call does not return that ack; it registers a
    pending entry under its id and sends on the dead socket, so that it
    raises, or waits out the ten seconds and returns the ack of a timeout,
    [{error: 408, ...}]. *)
Theorem control_device_after_lost_connection
    (now ts : Z) (nonce : string) (msgs : list ws_msg) (s : system)
    (now' : Z) (send_ok : bool) (device : dict) (params : value) :
  let top := on_client (set_is_connected false) s in
  let closed := attempt_run (Connected now ts nonce msgs) top in
  let dropped := attempt_run (Dropped now ts nonce msgs) top in
  (closed.2 = None ->
   is_connected (client closed.1) = false /\
   send now' send_ok (Some device) params (client closed.1)
   = (client closed.1, Done (Return ack_not_connected))) /\
  (forall c,
     c = client dropped.1 \/ closed.2 ≠ None /\ c = client closed.1 ->
     let r := send now' send_ok (Some device) params c in
     is_connected c = true /\
     r.2 ≠ Done (Return ack_not_connected) /\
     pending_responses r.1 !! pretty now' = Some (length (futures c)) /\
     r.2 = (if send_ok then Waiting (pretty now') (length (futures c))
            else Done (Raise ConnectionResetError)) /\
     (send_ok = true ->
      (control_device_wake true (pretty now') (length (futures c)) r.1).2
      = Done (Return (ack_timeout (pretty now'))))).
Proof.
  intros top closed dropped.
  set (s1 := on_client
               (fun c0 => send_json (user_online WS_MSG_ACTION_USER_ONLINE WS_USER_AGENT
                                       now ts nonce c0)
                            (set_ws true (set_is_connected true c0))) top).
  destruct (read_messages_flags msgs s1) as (Hflag & Hsock & _).
  split.
  - intros Hnone. subst closed. cbn [run_attempt] in *. fold s1 in Hnone |- *.
    destruct (read msgs s1) as [s2 [e|]]; [done|]. cbn [fst].
    assert (Hoff : is_connected (client (on_client (set_is_connected false) s2)) = false)
      by reflexivity.
    split; [exact Hoff|].
    apply (control_device_flag_unset WS_MSG_ACTION_UPDATE WS_USER_AGENT). exact Hoff.
  - intros c Hlost r.
    assert (Hon : is_connected c = true /\ ws c = true).
    { destruct Hlost as [-> | [Hsome ->]].
      - subst dropped. cbn [run_attempt]. fold s1. by rewrite Hflag, Hsock.
      - subst closed. cbn [run_attempt] in *. fold s1 in Hsome |- *.
        destruct (read msgs s1) as [s2 [e|]]; [|done]. cbn [fst] in *.
        by rewrite Hflag, Hsock. }
    destruct Hon as [Hc Hws].
    assert (Hr : r.2 = (if send_ok then Waiting (pretty now') (length (futures c))
                        else Done (Raise ConnectionResetError)) /\
              pending_responses r.1
              = <[pretty now' := length (futures c)]> (pending_responses c) /\
              futures r.1 = (futures c ++ [FPending])%list).
    { subst r. unfold control_device_send. rewrite Hc. cbn [negb]. cbv zeta.
      client_fields. rewrite Hws. destruct send_ok; client_fields; done. }
    destruct Hr as (Hcall & Hpending & Hfutures).
    split_and!.
    + exact Hc.
    + rewrite Hcall. by destruct send_ok.
    + rewrite Hpending. apply lookup_insert_eq.
    + exact Hcall.
    + intros _. unfold control_device_wake. rewrite Hfutures.
      rewrite lookup_app_r by lia. by rewrite Nat.sub_diag.
Qed.

End correlator_more.

Lemma control_device_after_lost_connection_witness :
  let s := System (init_client "key" "app" "token") init_coordinator in
  let msgs := [TEXT (Some (VDict [("action", VStr "sysmsg")])); TEXT (Some (VList [VInt 1]))] in
  let closed :=
    run_attempt "action" "update" "sysmsg" "userOnline" "app" (fun _ => "")
      (Connected 1700000000000 1700000000 "abcdefgh" msgs)
      (on_client (set_is_connected false) s) in
  let device := [("itemData", VDict [("deviceid", VStr "1000aa"); ("apikey", VStr "k1")])] in
  let r :=
    control_device_send "update" "app" 1700000005000 true (Some device)
      (VDict [("switch", VStr "on")]) (client closed.1) in
  closed.2 = Some AttributeError /\
  is_connected (client closed.1) = true /\
  r.2 = Waiting "1700000005000" 0 /\
  pending_responses r.1 !! "1700000005000" = Some 0%nat /\
  (control_device_wake true "1700000005000" 0 r.1).2
  = Done (Return (ack_timeout "1700000005000")).
Proof.
  intros s msgs closed device r.
  assert (H0 : closed.2 = Some AttributeError) by reflexivity.
  assert (H1 : closed.2 ≠ None) by (rewrite H0; discriminate).
  destruct (proj2 (control_device_after_lost_connection "action" "update" "sysmsg"
                     "userOnline" "app" (fun _ => "") 1700000000000 1700000000 "abcdefgh"
                     msgs s 1700000005000 true device (VDict [("switch", VStr "on")]))
              (client closed.1) (or_intror (conj H1 eq_refl)))
    as (Hc & _ & Hp & Hcall & Hwake).
  exact (conj H0 (conj Hc (conj Hcall (conj Hp (Hwake eq_refl))))).
Defined.


Lemma connected_implies_socket_witness :
  let c := set_ws true (set_is_connected true (init_client "key" "app" "token")) in
  let device := [("itemData", VDict [("deviceid", VStr "1000aa")])] in
  let after_frame :=
    client
      (handle_ws_message "action" "update" "sysmsg" (fun _ => "")
         (Some (VDict [("error", VInt 0); ("sequence", VStr "1699999999999")]))
         (System c init_coordinator)).1 in
  is_connected c = true /\
  socket_set c /\
  is_connected after_frame = true /\
  socket_set after_frame /\
  (control_device_send "update" "app" 1700000000000 true (Some device)
     (VDict [("switch", VStr "on")]) c).2 ≠ Done (Return VNone).
Proof.
  intros c device after_frame.
  assert (H0 : is_connected c = true) by reflexivity.
  assert (H : socket_set c) by (intros _; reflexivity).
  assert (H1 : is_connected after_frame = true) by reflexivity.
  destruct (connected_implies_socket "action" "update" "sysmsg" "userOnline" "app"
              (fun _ => "") c H) as (_ & Hframe & Hsend & _).
  exact (conj H0 (conj H (conj H1 (conj (Hframe _ init_coordinator)
           (proj2 (Hsend 1700000000000 true (Some device) (VDict [("switch", VStr "on")]))))))).
Defined.

Lemma stop_ends_reconnecting_witness :
  let cy := Cycle HandshakeFailed false true in
  let s := System (init_client "key" "app" "token") init_coordinator in
  (stop_during_attempt cy = true \/ stop_during_sleep cy = true) /\
  reconnect_loop "action" "update" "sysmsg" "userOnline" "app" (fun _ => "")
    ([Cycle ConnectFailed false false] ++ cy :: [Cycle ConnectFailed false false]) s
  = reconnect_loop "action" "update" "sysmsg" "userOnline" "app" (fun _ => "")
      ([Cycle ConnectFailed false false] ++ [cy]) s.
Proof.
  intros cy s.
  assert (H : stop_during_attempt cy = true \/ stop_during_sleep cy = true)
    by (right; reflexivity).
  exact (conj H (proj1 (stop_ends_reconnecting "action" "update" "sysmsg" "userOnline" "app"
                          (fun _ => "") [Cycle ConnectFailed false false]
                          [Cycle ConnectFailed false false] cy s H))).
Defined.

Lemma non_object_frame_ends_loop_witness :
  let s := System (init_client "key" "app" "token") init_coordinator in
  let r :=
    reconnect_loop "action" "update" "sysmsg" "userOnline" "app" (fun _ => "")
      (Cycle (Connected 1700000000000 1700000000 "abcdefgh"
                ([TEXT None; OTHER] ++ TEXT (Some (VList [VInt 1])) :: [CLOSED]))
         false false
       :: [Cycle ConnectFailed false false]) s in
  stop_event (client s) = false /\
  is_dict (VList [VInt 1]) = false /\
  Forall harmless [TEXT None; OTHER] /\
  r.2 = LoopDied AttributeError /\
  is_connected (client r.1.1) = true.
Proof.
  intros s r.
  assert (H1 : stop_event (client s) = false) by reflexivity.
  assert (H2 : is_dict (VList [VInt 1]) = false) by reflexivity.
  assert (H3 : Forall harmless [TEXT None; OTHER]) by (repeat constructor).
  destruct (non_object_frame_ends_loop "action" "update" "sysmsg" "userOnline" "app"
              (fun _ => "") 1700000000000 1700000000 "abcdefgh" [TEXT None; OTHER] [CLOSED]
              (VList [VInt 1]) false false [Cycle ConnectFailed false false] s H1 H2 H3)
    as (Hend & _ & Hcon & _).
  exact (conj H1 (conj H2 (conj H3 (conj Hend Hcon)))).
Defined.

Lemma failed_command_keeps_store_witness :
  let c := init_client "key" "app" "token" in
  let device := [("itemData", VDict [("deviceid", VStr "1000aa")])] in
  let params := VDict [("switch", VStr "on")] in
  let co := Coordinator {["1000aa" := device]} ∅ [] 0 in
  ((control_device_send "update" "app" 1700000000000 true (Some device) params c).2
   = Done (Return ack_not_connected) \/
   (futures c !! 0%nat = Some FPending /\
    (control_device_wake true "1700000000000" 0 c).2 = Done (Return ack_not_connected))) /\
  control_device_done (fun _ => "") ack_not_connected device params co = (co, None).
Proof.
  intros c device params co.
  assert (H : (control_device_send "update" "app" 1700000000000 true (Some device) params c).2
              = Done (Return ack_not_connected) \/
              (futures c !! 0%nat = Some FPending /\
               (control_device_wake true "1700000000000" 0 c).2
               = Done (Return ack_not_connected)))
    by (left; reflexivity).
  exact (conj H (failed_command_keeps_store "update" "app" (fun _ => "") 1700000000000 true
                   true device params ack_not_connected c co "1700000000000" 0%nat H)).
Defined.

Lemma switch_command_applied_witness :
  let c := set_ws true (set_is_connected true (init_client "key" "app" "token")) in
  let device :=
    [("itemData",
      VDict
        [("deviceid", VStr "1000aa"); ("apikey", VStr "k1");
         ("params", VDict [("switch", VStr "off")]);
         ("extra", VDict [("uiid", VInt 1)])])] in
  let co := Coordinator {["1000aa" := device]} ∅ [] 0 in
  let reply := [("error", VInt 0); ("deviceid", VStr "1000aa"); ("sequence", VStr "1700000000000")] in
  let params := Uiid.gen_control_switch_params (VInt 1) true in
  is_connected c = true /\
  ws c = true /\
  wf_client c /\
  data co !! "1000aa" = Some device /\
  EWeLinkDevice.device_id device = VStr "1000aa" /\
  EWeLinkDevice.uiid device = VInt 1 /\
  1 ≠ 174 /\
  frame_sequence (fun _ => "") reply = pretty 1700000000000 /\
  dict_get reply "error" = Some (VInt 0) /\
  is_push "action" "update" "sysmsg" reply = false /\
  exists device',
    data (control_device_done (fun _ => "") (VDict reply) device params
            (coord (handle_ws_message "action" "update" "sysmsg" (fun _ => "")
                      (Some (VDict reply))
                      (System (control_device_send "update" "app" 1700000000000 true
                                 (Some device) params c).1 co)).1)).1 !! "1000aa"
    = Some device' /\
    Uiid.get_switch_value (VInt 1) (VDict device') = true.
Proof.
  intros c device co reply params.
  assert (H1 : is_connected c = true) by reflexivity.
  assert (H2 : ws c = true) by reflexivity.
  assert (H3 : wf_client c) by apply map_Forall_empty.
  assert (H4 : data co !! "1000aa" = Some device) by by vm_compute.
  assert (H5 : EWeLinkDevice.device_id device = VStr "1000aa") by reflexivity.
  assert (H6 : EWeLinkDevice.uiid device = VInt 1) by reflexivity.
  assert (H7 : 1 ≠ 174) by lia.
  assert (H8 : frame_sequence (fun _ => "") reply = pretty 1700000000000) by by vm_compute.
  assert (H9 : dict_get reply "error" = Some (VInt 0)) by reflexivity.
  assert (H10 : is_push "action" "update" "sysmsg" reply = false) by reflexivity.
  destruct (switch_command_applied "action" "update" "sysmsg" "app" (fun _ => "")
              1700000000000 1 "1000aa" device reply true c co
              H1 H2 H3 H4 H5 H6 H7 H8 H9 H10)
    as (_ & _ & _ & _ & _ & Hread).
  exact (conj H1 (conj H2 (conj H3 (conj H4 (conj H5 (conj H6 (conj H7 (conj H8
          (conj H9 (conj H10 Hread)))))))))).
Defined.

(** ** Sensor readings *)

Lemma py_round_int (n : Z) : py_round (inject_Z n) = n.
Proof.
  unfold py_round. rewrite Qfloor_Z.
  destruct (Qcompare_spec (inject_Z n - inject_Z n) (1 # 2)) as [H|H|H]; [lra|done|lra].
Qed.

(** X26: what the battery reader reports for an integer.  A battery field
    that is an integer or a boolean never raises and never goes through the
    string conversion: an integer is reported as it is, [True] as 1 and
    [False] as 0. *)
Theorem battery_reading_integer
    (py_int_of_str : string -> result Z) (device raw : value) :
  deep_get device [KStr "itemData"; KStr "params"; KStr "battery"] VNone = raw ->
  (forall m, raw = VInt m ->
     Uiid.get_battery_value py_int_of_str device = Return (VInt m)) /\
  (forall b, raw = VBool b ->
     Uiid.get_battery_value py_int_of_str device = Return (VInt (if b then 1 else 0))).
Proof.
  intros Hraw. unfold Uiid.get_battery_value. rewrite Hraw.
  split; [intros m -> | intros b ->]; cbn [is_number number_value].
  - by rewrite py_round_int.
  - destruct b.
    + change 1%Q with (inject_Z 1). by rewrite py_round_int.
    + change 0%Q with (inject_Z 0). by rewrite py_round_int.
Qed.

Lemma battery_reading_integer_witness :
  let device := VDict [("itemData", VDict [("params", VDict [("battery", VInt 87)])])] in
  deep_get device [KStr "itemData"; KStr "params"; KStr "battery"] VNone = VInt 87 /\
  Uiid.get_battery_value (fun _ => Raise ValueError) device = Return (VInt 87).
Proof.
  intros device.
  assert (H1 : deep_get device [KStr "itemData"; KStr "params"; KStr "battery"] VNone = VInt 87)
    by reflexivity.
  exact (conj H1 (proj1 (battery_reading_integer (fun _ => Raise ValueError) device (VInt 87)
                           H1) 87 eq_refl)).
Defined.
